(** * Prisma-Saude: the cleaning pipeline and the staged merge-upsert

    A shallow embedding of [scripts/agent.py] and [scripts/sql_inserter.py]
    and the properties of their specification.

    Conventions of the embedding.
    - A pandas frame is the list of its rows, in index order; a column
      operation is a [map] over the rows.
    - A float64 / Python [float] is a [float]: [None] is NaN and [Some q]
      the finite value [q], with exact rational arithmetic (rounding and
      the infinities are outside the embedding).
    - A text is the sequence of its characters, one [ascii] for each
      character, which stands for the code point of that number; the
      characters beyond U+00FF are outside the embedding.
    - Library functions whose text is not part of the repository (the
      pandas and Python parsers, the sort behind [sort_values]) are the
      methods of a type class; every theorem holds for all instances. *)

From Stdlib Require Import String Ascii Bool ZArith QArith Qround Arith Lia.
From Stdlib Require Import List Permutation Sorted OrderedTypeEx Lqa.
Import ListNotations.
Local Close Scope Q_scope.
Local Open Scope string_scope.
Local Open Scope list_scope.

(** ** Values shared by both scripts *)

Record date := mkdate { year : Z; month : Z; day : Z }.

Definition date_eqb (a b : date) : bool :=
  (year a =? year b)%Z && (month a =? month b)%Z && (day a =? day b)%Z.

Definition float := option Q.
Definition NaN : float := None.

Definition isna {A} (x : option A) : bool :=
  match x with None => true | Some _ => false end.

Definition fillna (d : Q) (x : float) : Q :=
  match x with Some q => q | None => d end.

Definition Qltb (x y : Q) : bool := negb (Qle_bool y x).

(** [x < 0] on a float column: a comparison with NaN is False. *)
Definition lt_zero (x : float) : bool :=
  match x with Some q => Qltb q 0%Q | None => false end.

Definition fmul (x y : float) : float :=
  match x, y with Some a, Some b => Some (a * b)%Q | _, _ => None end.

(** [str.strip()]: leading and trailing white space removed. The white
    space of Python below U+0100: U+0009 to U+000D, U+001C to U+0020,
    U+0085 and U+00A0. *)
Definition is_space (c : ascii) : bool :=
  let n := nat_of_ascii c in
  ((9 <=? n) && (n <=? 13) || (28 <=? n) && (n <=? 32)
   || (n =? 133) || (n =? 160))%nat.

Fixpoint lstrip (s : string) : string :=
  match s with
  | EmptyString => EmptyString
  | String c t => if is_space c then lstrip t else s
  end.

Fixpoint rstrip (s : string) : string :=
  match s with
  | EmptyString => EmptyString
  | String c t =>
      match rstrip t with
      | EmptyString => if is_space c then EmptyString else String c EmptyString
      | t' => String c t'
      end
  end.

Definition strip (s : string) : string := rstrip (lstrip s).

(** [str.lower()] and [str.replace(",", ".")]. The capital letters below
    U+0100 are A to Z and U+00C0 to U+00DE without the sign U+00D7. *)
Definition lower_ascii (c : ascii) : ascii :=
  let n := nat_of_ascii c in
  if ((65 <=? n) && (n <=? 90)
      || (192 <=? n) && (n <=? 222) && negb (n =? 215))%nat
  then ascii_of_nat (n + 32) else c.

Fixpoint lower (s : string) : string :=
  match s with
  | EmptyString => EmptyString
  | String c t => String (lower_ascii c) (lower t)
  end.

Fixpoint replace_comma (s : string) : string :=
  match s with
  | EmptyString => EmptyString
  | String c t => String (if Ascii.eqb c "," then "."%char else c) (replace_comma t)
  end.

(** [x or d] on an optional text: [None] and the empty text are false. *)
Definition py_or (x : option string) (d : string) : string :=
  match x with
  | Some EmptyString | None => d
  | Some s => s
  end.

(** The [sql] section of [config.yaml], as far as the scripts read it. *)
Record SqlConfig := mksqlconfig {
  enable : option bool;
  load_mode : option string
}.

(** [cfg.get("sql", {}).get("enable", False)]. *)
Definition sql_enable (sql : option SqlConfig) : bool :=
  match sql with
  | Some c => match enable c with Some b => b | None => false end
  | None => false
  end.

(** ** The SQL Server session behind [pyodbc]

    The statements the two scripts send, as operations on the state of one
    connection. What the repository does not contain (the definition of
    [SaudeDev.app.Atendimentos] and the body of the stored procedure) is a
    field of [Server]. Text is compared as it is written (a binary
    collation), and the columns of the target table have the types of the
    staging table. *)

Module Sql.

(** One tuple of [COLS_SQL]; [M] is the type of the two money columns. *)
Record record (M : Type) := mkrecord {
  Data : date;
  ClienteId : string;
  Operadora : string;
  Procedimento : string;
  Categoria : string;
  Qtde : Z;
  PrecoUnitario : M;
  Receita : M
}.
Arguments mkrecord {M}.
Arguments Data {M}.
Arguments ClienteId {M}.
Arguments Operadora {M}.
Arguments Procedimento {M}.
Arguments Categoria {M}.
Arguments Qtde {M}.
Arguments PrecoUnitario {M}.
Arguments Receita {M}.

(** The Python tuple bound to the [?] markers, and a line of [#tmp_at]. *)
Definition params := record float.
Definition staged := record Q.

(** A line of [SaudeDev.app.Atendimentos]. *)
Record line := mkline { cols : staged; LoadDate : option Z }.

Inductive exception :=
| StringTruncation      (* text longer than its nvarchar column *)
| NumericOutOfRange     (* int or decimal(18,2) overflow, NaN *)
| DuplicateKey          (* unique index on the natural key *)
| MergeMultipleMatch    (* MERGE met one target line twice *)
| ProcedureNotFound     (* EXEC of a procedure that does not exist *)
| ProcedureError (code : Z)
| ModuleNotFound.       (* import pyodbc *)

(** A stored procedure acts on the staging and target tables at a given
    [SYSDATETIME()]; it may stop with an error after partial work. *)
Definition StoredProcedure :=
  Z -> list staged -> list line -> list line * option exception.

Record Server := mkserver {
  unique_natural_key : bool;
  procedures : list (string * StoredProcedure)
}.

Inductive message :=
| Info (text : string)
| InfoPersisted (n : nat)
| LogException (e : exception)
| Print (text : string)
| PrintOk (lidas consideradas persistidas : nat) (mode : string)
| PrintErro (e : exception).

(** [durable] is the committed table, the one every other session reads;
    [pending] is the table as the open transaction sees it. *)
Record World := mkworld {
  durable : list line;
  pending : list line;
  tmp_at : list staged;
  clock : Z;
  output : list message
}.

Definition set_pending (v : list line) (w : World) : World :=
  mkworld (durable w) v (tmp_at w) (clock w) (output w).
Definition set_tmp_at (v : list staged) (w : World) : World :=
  mkworld (durable w) (pending w) v (clock w) (output w).
Definition emit (m : message) (w : World) : World :=
  mkworld (durable w) (pending w) (tmp_at w) (clock w) (output w ++ [m]).

(** How a Python call ends. [except Exception] catches [Raise] only. *)
Inductive result (A : Type) :=
| Return (a : A)
| Raise (e : exception)
| SystemExit (msg : string).
Arguments Return {A}.
Arguments Raise {A}.
Arguments SystemExit {A}.

Definition M (A : Type) := World -> World * result A.

Definition ret {A} (a : A) : M A := fun w => (w, Return a).
Definition raise {A} (e : exception) : M A := fun w => (w, Raise e).
Definition bind {A B} (m : M A) (k : A -> M B) : M B :=
  fun w =>
    match m w with
    | (w', Return a) => k a w'
    | (w', Raise e) => (w', Raise e)
    | (w', SystemExit msg) => (w', SystemExit msg)
    end.
Definition try_except {A} (body : M A) (handler : exception -> M A) : M A :=
  fun w =>
    match body w with
    | (w', Raise e) => handler e w'
    | r => r
    end.
Definition tell (m : message) : M unit := fun w => (emit m w, Return tt).

(** Column types of [TMP_TABLE_SQL]. *)
Definition nvarchar (n : nat) (s : string) : bool := (String.length s <=? n)%nat.

Definition sql_int (z : Z) : bool := ((- 2 ^ 31 <=? z) && (z <? 2 ^ 31))%Z.

Definition round_half_away (q : Q) : Z :=
  if Qle_bool 0%Q q then Qfloor (q + (1 # 2))%Q else Qceiling (q - (1 # 2))%Q.

(** [decimal(18,2)]: two decimals, sixteen digits before the point. *)
Definition decimal_18_2 (x : float) : option Q :=
  match x with
  | None => None
  | Some q =>
      let c := round_half_away (q * 100)%Q in
      if (Z.abs c <? 10 ^ 18)%Z then Some (c # 100)%Q else None
  end.

Definition bind_columns (p : params) : exception + staged :=
  if negb (nvarchar 50 (ClienteId p) && nvarchar 100 (Operadora p)
           && nvarchar 100 (Procedimento p) && nvarchar 10 (Categoria p))
  then inl StringTruncation
  else if negb (sql_int (Qtde p)) then inl NumericOutOfRange
  else match decimal_18_2 (PrecoUnitario p), decimal_18_2 (Receita p) with
       | Some pu, Some rec =>
           inr (mkrecord (Data p) (ClienteId p) (Operadora p) (Procedimento p)
                  (Categoria p) (Qtde p) pu rec)
       | _, _ => inl NumericOutOfRange
       end.

(** [ON t.Data = s.Data AND t.ClienteId = s.ClienteId
       AND t.Procedimento = s.Procedimento]. *)
Definition key_match (s : staged) (t : line) : bool :=
  date_eqb (Data (cols t)) (Data s)
  && String.eqb (ClienteId (cols t)) (ClienteId s)
  && String.eqb (Procedimento (cols t)) (Procedimento s).

Definition same_key (a b : line) : bool := key_match (cols a) b.

Fixpoint distinct_keys (t : list line) : bool :=
  match t with
  | [] => true
  | a :: rest => negb (existsb (same_key a) rest) && distinct_keys rest
  end.

(** [IF OBJECT_ID('tempdb..#tmp_at') IS NOT NULL DROP TABLE #tmp_at;
     CREATE TABLE #tmp_at(...)]. *)
Definition TMP_TABLE_SQL : M unit := fun w => (set_tmp_at [] w, Return tt).

(** [INSERT INTO #tmp_at (...) VALUES (?,?,?,?,?,?,?,?)], one tuple. *)
Definition INSERT_tmp_at (p : params) : M unit :=
  fun w =>
    match bind_columns p with
    | inl e => (w, Raise e)
    | inr s => (set_tmp_at (tmp_at w ++ [s]) w, Return tt)
    end.

(** [INSERT INTO SaudeDev.app.Atendimentos (...) VALUES (...)], one tuple;
    [LoadDate] is not among the columns given. *)
Definition INSERT_Atendimentos (srv : Server) (p : params) : M unit :=
  fun w =>
    match bind_columns p with
    | inl e => (w, Raise e)
    | inr s =>
        if unique_natural_key srv && existsb (key_match s) (pending w)
        then (w, Raise DuplicateKey)
        else (set_pending (pending w ++ [mkline s None]) w, Return tt)
    end.

(** [cursor.executemany]: the tuples in order, up to the first that fails;
    those before it stay in the open transaction. *)
Fixpoint executemany {A} (stmt : A -> M unit) (rows : list A) : M unit :=
  match rows with
  | [] => ret tt
  | r :: rest => bind (stmt r) (fun _ => executemany stmt rest)
  end.

(** [pyodbc.connect(cs)] with [autocommit = False]: a new session, whose
    transaction starts from the committed table and has no temporary
    table; [conn.commit()]; [conn.rollback()]. *)
Definition connect : M unit :=
  fun w => (mkworld (durable w) (durable w) [] (clock w) (output w), Return tt).

Definition commit : M unit :=
  fun w => (mkworld (pending w) (pending w) (tmp_at w) (clock w) (output w), Return tt).

Definition rollback : M unit :=
  fun w => (mkworld (durable w) (durable w) [] (clock w) (output w), Return tt).

Definition TRUNCATE_Atendimentos : M unit := fun w => (set_pending [] w, Return tt).

(** [MERGE_FALLBACK_SQL]. *)
Definition merge_update (now : Z) (s : staged) (t : line) : line :=
  mkline (mkrecord (Data (cols t)) (ClienteId (cols t)) (Operadora s)
            (Procedimento (cols t)) (Categoria s) (Qtde s) (PrecoUnitario s)
            (Receita s))
         (Some now).

Definition merge_insert (now : Z) (s : staged) : line := mkline s (Some now).

Definition merge_matched (now : Z) (stg : list staged) (t : line) : line :=
  match find (fun s => key_match s t) stg with
  | Some s => merge_update now s t
  | None => t
  end.

Definition merge_lines (now : Z) (stg : list staged) (tgt : list line) : list line :=
  map (merge_matched now stg) tgt
  ++ map (merge_insert now)
       (filter (fun s => negb (existsb (key_match s) tgt)) stg).

(** The statement is atomic: it fails as a whole when a target line is
    matched by more than one staged line, or when an inserted line breaks
    the unique index. *)
Definition merge_statement (srv : Server) (now : Z) (stg : list staged)
    (tgt : list line) : list line * option exception :=
  if existsb (fun t => (2 <=? length (filter (fun s => key_match s t) stg))%nat) tgt
  then (tgt, Some MergeMultipleMatch)
  else
    let tgt' := merge_lines now stg tgt in
    if unique_natural_key srv && negb (distinct_keys tgt')
    then (tgt, Some DuplicateKey)
    else (tgt', None).

Definition run_statement (f : Z -> list staged -> list line -> list line * option exception)
  : M unit :=
  fun w =>
    match f (clock w) (tmp_at w) (pending w) with
    | (t, None) => (set_pending t w, Return tt)
    | (t, Some e) => (set_pending t w, Raise e)
    end.

Definition MERGE_FALLBACK_SQL (srv : Server) : M unit :=
  run_statement (merge_statement srv).

Fixpoint lookup (name : string) (ps : list (string * StoredProcedure))
  : option StoredProcedure :=
  match ps with
  | [] => None
  | (n, p) :: rest => if String.eqb name n then Some p else lookup name rest
  end.

(** [EXEC name;]. *)
Definition EXEC (srv : Server) (name : string) : M unit :=
  match lookup name (procedures srv) with
  | Some p => run_statement p
  | None => raise ProcedureNotFound
  end.

(** [SELECT 1 FROM sys.objects WHERE object_id = OBJECT_ID(?) AND type = 'P']
    followed by [fetchone() is not None]. *)
Definition SELECT_procedure (srv : Server) (name : string) : M bool :=
  ret (negb (isna (lookup name (procedures srv)))).

End Sql.

Declare Scope py_scope.
Delimit Scope py_scope with py.
Notation "x <- m ;; k" := (Sql.bind m (fun x => k))
  (at level 61, m at next level, right associativity) : py_scope.
Notation "m ;; k" := (Sql.bind m (fun _ => k))
  (at level 61, right associativity) : py_scope.

(** ** agent.py *)

Module Agent.

(** A cell of a numeric column as [read_csv] leaves it: missing, a number,
    or text (the column then has dtype object). *)
Inductive cell := CNA | CNum (q : Q) | CText (s : string).

(** A cell of a text column: [np.nan] from the file, [pd.NA] from a
    column that [normalize_and_clean] had to create, or text. *)
Inductive text_cell := TNaN | TNA | Text (s : string).

(** One row over the columns of [COLS_BASE]; [D], [N] and [T] are the
    types of the date, numeric and text columns at a given stage. *)
Record row (D N T : Type) := mkrow {
  Data : D;
  ClienteId : T;
  Operadora : T;
  Procedimento : T;
  Categoria : T;
  UF : T;
  Qtde : N;
  PrecoUnitario : N;
  Receita : N
}.
Arguments mkrow {D N T}.
Arguments Data {D N T}.
Arguments ClienteId {D N T}.
Arguments Operadora {D N T}.
Arguments Procedimento {D N T}.
Arguments Categoria {D N T}.
Arguments UF {D N T}.
Arguments Qtde {D N T}.
Arguments PrecoUnitario {D N T}.
Arguments Receita {D N T}.

Definition RawRow := row (option string) cell text_cell.
Definition Row := row date float string.

(** The pandas parsers applied to text. [to_datetime] is the parse of one
    value under the format pandas has settled for the column it belongs
    to (it takes the format of a column from its first value), so an
    instance stands for the parse within the one frame at hand. *)
Class Pandas := {
  to_datetime : string -> option date;
  to_numeric : string -> float
}.

Section Normalizer.
Context {pd : Pandas}.

(** [pd.to_datetime(..., errors="coerce")] on one cell. *)
Definition to_datetime_coerce (c : option string) : option date :=
  match c with
  | None => None
  | Some s => to_datetime s
  end.

(** [pd.to_numeric(..., errors="coerce")] on one cell. *)
Definition to_numeric_coerce (c : cell) : float :=
  match c with
  | CNA => NaN
  | CNum q => Some q
  | CText s => to_numeric s
  end.

(** [.astype(str).str.strip()] on one cell. *)
Definition astype_str_strip (c : text_cell) : string :=
  match c with
  | TNaN => strip "nan"
  | TNA => strip "<NA>"
  | Text s => strip s
  end.

(** [df.loc[s.notna()]] followed by [df["Data"] = s.loc[s.notna()].dt.date]. *)
Fixpoint select_dated {N T} (df : list (row (option string) N T))
    (s : list (option date)) : list (row date N T) :=
  match df, s with
  | r :: df', Some d :: s' =>
      mkrow d (ClienteId r) (Operadora r) (Procedimento r) (Categoria r)
        (UF r) (Qtde r) (PrecoUnitario r) (Receita r) :: select_dated df' s'
  | _ :: df', None :: s' => select_dated df' s'
  | _, _ => []
  end.

Definition numeric_columns {D T} (r : row D cell T) : row D float T :=
  mkrow (Data r) (ClienteId r) (Operadora r) (Procedimento r) (Categoria r)
    (UF r) (to_numeric_coerce (Qtde r)) (to_numeric_coerce (PrecoUnitario r))
    (to_numeric_coerce (Receita r)).

Definition set_Qtde {D N T} (v : N) (r : row D N T) : row D N T :=
  mkrow (Data r) (ClienteId r) (Operadora r) (Procedimento r) (Categoria r)
    (UF r) v (PrecoUnitario r) (Receita r).

Definition set_PrecoUnitario {D N T} (v : N) (r : row D N T) : row D N T :=
  mkrow (Data r) (ClienteId r) (Operadora r) (Procedimento r) (Categoria r)
    (UF r) (Qtde r) v (Receita r).

Definition set_Receita {D N T} (v : N) (r : row D N T) : row D N T :=
  mkrow (Data r) (ClienteId r) (Operadora r) (Procedimento r) (Categoria r)
    (UF r) (Qtde r) (PrecoUnitario r) v.

Definition string_columns {D N} (r : row D N text_cell) : row D N string :=
  mkrow (Data r) (astype_str_strip (ClienteId r))
    (astype_str_strip (Operadora r)) (astype_str_strip (Procedimento r))
    (astype_str_strip (Categoria r)) (astype_str_strip (UF r))
    (Qtde r) (PrecoUnitario r) (Receita r).

(** [int(mask.fillna(False).sum())]. *)
Definition mask_sum (m : list bool) : nat := length (filter (fun b => b) m).

Record metrics := mkmetrics {
  invalid_dates : nat;
  neg_qtde : nat;
  neg_preco : nat
}.

Definition normalize_and_clean (raw : list RawRow) : list Row * metrics :=
  (* Data *)
  let s := map (fun r => to_datetime_coerce (Data r)) raw in
  let invalid_dates := length (filter isna s) in
  let df := select_dated raw s in
  (* Numericos *)
  let df := map numeric_columns df in
  (* negativos -> 0 *)
  let m_q := map (fun r => lt_zero (Qtde r)) df in
  let m_p := map (fun r => lt_zero (PrecoUnitario r)) df in
  let neg_qtde := mask_sum m_q in
  let neg_preco := mask_sum m_p in
  let df := map (fun r => if lt_zero (Qtde r) then set_Qtde (Some 0%Q) r else r) df in
  let df := map (fun r => if lt_zero (PrecoUnitario r)
                          then set_PrecoUnitario (Some 0%Q) r else r) df in
  (* receita ausente: the exact product, which is the number pandas stores
     as long as the product of two int64 columns stays within int64 and
     the product of floats needs no rounding *)
  let df := map (fun r => if isna (Receita r)
                          then set_Receita (fmul (Some (fillna 0%Q (Qtde r)))
                                                 (Some (fillna 0%Q (PrecoUnitario r)))) r
                          else r) df in
  (* strings *)
  let df := map string_columns df in
  (df, mkmetrics invalid_dates neg_qtde neg_preco).

End Normalizer.

(** [remove_duplicates]: [drop_duplicates(subset=[Data, ClienteId,
    Procedimento], keep="last")] drops every row that has a later row with
    the same key. *)
Definition same_key (a b : Row) : bool :=
  date_eqb (Data a) (Data b) && String.eqb (ClienteId a) (ClienteId b)
  && String.eqb (Procedimento a) (Procedimento b).

Fixpoint drop_duplicates_keep_last (df : list Row) : list Row :=
  match df with
  | [] => []
  | r :: rest =>
      if existsb (same_key r) rest then drop_duplicates_keep_last rest
      else r :: drop_duplicates_keep_last rest
  end.

Definition remove_duplicates (df : list Row) : list Row * nat :=
  let before := length df in
  let df2 := drop_duplicates_keep_last df in
  (df2, (before - length df2)%nat).

(** [apply_filters]: the inclusive period and the inclusion sets of the
    configuration; an absent or unreadable bound and an empty set do not
    restrict. *)
Record Filters := mkfilters {
  periodo_inicio : option string;
  periodo_fim : option string;
  uf_incluir : list string;
  categoria_incluir : list string
}.

Definition date_leb (a b : date) : bool :=
  (year a <? year b)%Z
  || (year a =? year b)%Z
     && ((month a <? month b)%Z
         || (month a =? month b)%Z && (day a <=? day b)%Z).

Definition isin (s : string) (l : list string) : bool :=
  existsb (String.eqb s) l.

Definition apply_filters {pd : Pandas} (df : list Row) (cfg : Filters) : list Row :=
  let pi := to_datetime_coerce (periodo_inicio cfg) in
  let pf := to_datetime_coerce (periodo_fim cfg) in
  let df := match pi with
            | Some d => filter (fun r => date_leb d (Data r)) df
            | None => df
            end in
  let df := match pf with
            | Some d => filter (fun r => date_leb (Data r) d) df
            | None => df
            end in
  let df := match uf_incluir cfg with
            | [] => df
            | uf_inc => filter (fun r => isin (UF r) uf_inc) df
            end in
  match categoria_incluir cfg with
  | [] => df
  | cat_inc => filter (fun r => isin (Categoria r) cat_inc) df
  end.

(** [merge_dim]: the left join with the customer dimension on the
    stripped [ClienteId]; a row without a match keeps a missing
    [Segmento], a row with several matches is repeated once per match. *)
Record DimCliente := mkdim { dim_ClienteId : string; Segmento : string }.

Record Enriched := mkenriched { base : Row; Segmento_de : option string }.

Definition merge_dim (df : list Row) (dim : list DimCliente) : list Enriched :=
  flat_map
    (fun r =>
       match filter (fun m => String.eqb (strip (ClienteId r))
                                         (strip (dim_ClienteId m))) dim with
       | [] => [mkenriched r None]
       | ms => map (fun m => mkenriched r (Some (Segmento m))) ms
       end) df.

(** [Series.quantile(p)] with the default linear interpolation: on the
    ascending values [a] of length [n], the value at the virtual index
    [(n - 1) * p], interpolated between its two neighbours. *)
Fixpoint insert_asc (x : Q) (l : list Q) : list Q :=
  match l with
  | [] => [x]
  | y :: t => if Qle_bool x y then x :: l else y :: insert_asc x t
  end.

Definition sort_asc (l : list Q) : list Q := fold_right insert_asc [] l.

Definition quantile (v : list Q) (p : Q) : Q :=
  let a := sort_asc v in
  let n := length a in
  let h := (inject_Z (Z.of_nat (n - 1)) * p)%Q in
  let lo := Z.to_nat (Qfloor h) in
  let hi := Nat.min (lo + 1) (n - 1) in
  let x := nth lo a 0%Q in
  let y := nth hi a 0%Q in
  (x + (y - x) * (h - inject_Z (Qfloor h)))%Q.

Record Flagged (A : Type) := mkflagged { registro : A; AltoValor : Z }.
Arguments mkflagged {A}.
Arguments registro {A}.
Arguments AltoValor {A}.

(** [compute_percentile_flag(df, col, p)]; [col] selects the column. *)
Definition compute_percentile_flag {A} (df : list A) (col : A -> float) (p : Q)
  : list (Flagged A) * Q :=
  let v := map (fun r => fillna 0%Q (col r)) df in
  let p90 := match v with [] => 0%Q | _ => quantile v p end in
  (map (fun r => mkflagged r (if Qle_bool p90 (fillna 0%Q (col r)) then 1%Z else 0%Z)) df,
   p90).

(** The rankings of [make_pivots_and_rankings]. [groupby(key)[Receita].sum()]
    yields one line per key, in ascending key order, with the sum of the
    group taken in row order (a missing value adds nothing). *)
Fixpoint group_add (k : string) (x : Q) (g : list (string * Q)) : list (string * Q) :=
  match g with
  | [] => [(k, x)]
  | (k', s) :: g' =>
      if String.eqb k k' then (k', (s + x)%Q) :: g'
      else if String.ltb k k' then (k, x) :: g
      else (k', s) :: group_add k x g'
  end.

Definition groupby_sum {A} (key : A -> string) (val : A -> float) (df : list A)
  : list (string * Q) :=
  fold_left (fun g r => group_add (key r) (fillna 0%Q (val r)) g) df [].

Definition desc (a b : string * Q) : Prop := (snd b <= snd a)%Q.

(** [sort_values("Receita", ascending=False)]: pandas sorts with its default
    kind, quicksort, which promises a descending rearrangement and nothing
    about lines with equal values. *)
Class SortValues := {
  sort_values_desc : list (string * Q) -> list (string * Q);
  sort_values_perm : forall l, Permutation l (sort_values_desc l);
  sort_values_sorted : forall l, Sorted desc (sort_values_desc l)
}.

Definition ranking {sv : SortValues} {A} (key : A -> string) (val : A -> float)
    (df : list A) : list (string * Q) :=
  firstn 20 (sort_values_desc (groupby_sum key val df)).

(** [make_pivots_and_rankings] without its monthly pivot, which is output
    for the workbook only: [(top_oper, top_proc)]. *)
Definition make_pivots_and_rankings {sv : SortValues} {A} (row_of : A -> Row)
    (df : list A) : list (string * Q) * list (string * Q) :=
  (ranking (fun r => Operadora (row_of r)) (fun r => Receita (row_of r)) df,
   ranking (fun r => Procedimento (row_of r)) (fun r => Receita (row_of r)) df).

(** A stable descending sort: a line is placed before the first line whose
    value is not greater, so lines of equal value keep their order. *)
Fixpoint insert_desc (x : string * Q) (l : list (string * Q)) : list (string * Q) :=
  match l with
  | [] => [x]
  | y :: t => if Qltb (snd x) (snd y) then y :: insert_desc x t else x :: l
  end.

Definition stable_sort_desc (l : list (string * Q)) : list (string * Q) :=
  fold_right insert_desc [] l.

(** *** Persistence: staging [#tmp_at] and [EXEC app.sp_UpsertAtendimentos] *)

(** What the module finds when it runs: whether [import pyodbc] worked,
    and [config.yaml]. *)
Record Env := mkenv {
  pyodbc : bool;
  config_filters : Filters;
  config_sql : option SqlConfig
}.

(** [.astype(int)] on a float64 column is the cast to int64: the
    fraction is cut off, and a number beyond the int64 range gives the
    smallest int64 (what the cast of numpy leaves on x86-64, under a
    RuntimeWarning). *)
Definition int64_min : Z := (- 2 ^ 63)%Z.
Definition int64_max : Z := (2 ^ 63 - 1)%Z.

Definition astype_int (q : Q) : Z :=
  let z := if Qle_bool 0%Q q then Qfloor q else Qceiling q in
  if ((int64_min <=? z) && (z <=? int64_max))%Z then z else int64_min.

(** [dfx = df_final[COLS_SQL]] with its coercions, as the list of tuples. *)
Definition sql_rows (df_final : list Row) : list Sql.params :=
  map (fun r =>
         Sql.mkrecord (Data r) (ClienteId r) (Operadora r) (Procedimento r)
           (Categoria r) (astype_int (fillna 0%Q (Qtde r)))
           (Some (fillna 0%Q (PrecoUnitario r)))
           (Some (fillna 0%Q (Receita r))))
      df_final.

Local Open Scope py_scope.

Definition log (logger : bool) (m : Sql.message) : Sql.M unit :=
  if logger then Sql.tell m else Sql.ret tt.

Definition persist_to_sql_merge (env : Env) (srv : Sql.Server)
    (df_final : list Row) (logger : bool) : Sql.M nat :=
  if negb (pyodbc env) then
    log logger (Sql.Info "pyodbc indisponível; pulando persistência SQL.") ;;
    Sql.ret 0%nat
  else if negb (sql_enable (config_sql env)) then
    log logger (Sql.Info "sql.enable=false; pulando persistência.") ;;
    Sql.ret 0%nat
  else
    let rows := sql_rows df_final in
    match rows with
    | [] =>
        log logger (Sql.Info "Nada para persistir no SQL.") ;;
        Sql.ret 0%nat
    | _ =>
        Sql.connect ;;
        Sql.try_except
          (Sql.TMP_TABLE_SQL ;;
           Sql.executemany Sql.INSERT_tmp_at rows ;;
           Sql.EXEC srv "app.sp_UpsertAtendimentos" ;;
           Sql.commit ;;
           log logger (Sql.InfoPersisted (length rows)) ;;
           Sql.ret (length rows))
          (fun ex =>
             Sql.rollback ;;
             log logger (Sql.LogException ex) ;;
             Sql.raise ex)
    end.

(** *** The full refresh *)

Record Meta := mkmeta {
  arquivos_lidos : nat;
  registros_importados : nat;
  registros_filtrados : nat;
  descartes_data : nat;
  meta_neg_qtde : nat;
  meta_neg_preco : nat;
  duplicados : nat;
  p90 : Q;
  persistidos_sql : nat
}.

Definition set_persistidos_sql (n : nat) (m : Meta) : Meta :=
  mkmeta (arquivos_lidos m) (registros_importados m) (registros_filtrados m)
    (descartes_data m) (meta_neg_qtde m) (meta_neg_preco m) (duplicados m)
    (p90 m) n.

(** What the last [update_workbook] writes: the sheets Dados, Rankings and
    Auditoria (the workbook itself is outside the embedding). *)
Record Workbook := mkworkbook {
  Dados : list (Flagged Enriched);
  Rankings : list (string * Q) * list (string * Q);
  Auditoria : Meta
}.

(** [fluxo_atualizar_tudo] from the frames it has loaded on: [raw] and
    [arquivos] are what [load_all_data] read, [dim] what
    [load_dim_clientes] read. Reading the configuration and the files and
    the two calls of [update_workbook], which can fail on their own, are
    outside the embedding; the value returned is what the second
    [update_workbook] is given to write. *)
Definition fluxo_atualizar_tudo {pd : Pandas} {sv : SortValues} (env : Env)
    (srv : Sql.Server) (raw : list RawRow) (arquivos : nat)
    (dim : list DimCliente) : Sql.M Workbook :=
  Sql.tell (Sql.Info "=== Iniciando atualização completa ===") ;;
  let (df, m) := normalize_and_clean raw in
  let df := apply_filters df (config_filters env) in
  let (df, dups) := remove_duplicates df in
  let df := merge_dim df dim in
  let (df, p90) := compute_percentile_flag df (fun r => Receita (base r)) (9 # 10)%Q in
  let tops := make_pivots_and_rankings (fun r => base (registro r)) df in
  let meta := mkmeta arquivos (length raw) (length df) (invalid_dates m)
                (neg_qtde m) (neg_preco m) dups p90 0 in
  (* Persistencia SQL *)
  meta <- Sql.try_except
            (persisted <- persist_to_sql_merge env srv
                            (map (fun r => base (registro r)) df) true ;;
             Sql.ret (set_persistidos_sql persisted meta))
            (fun _ => Sql.ret meta) ;;
  Sql.tell (Sql.Info "=== Atualização completa finalizada ===") ;;
  Sql.ret (mkworkbook df tops meta).

End Agent.

(** ** sql_inserter.py *)

Module SqlInserter.

(** A line of [csv.DictReader]: [r.get(column)] for the columns read. *)
Record CsvRow := mkcsv {
  Data : option string;
  ClienteId : option string;
  Operadora : option string;
  Procedimento : option string;
  Categoria : option string;
  Qtde : option string;
  PrecoUnitario : option string;
  Receita : option string
}.

(** The Python built-ins applied to text: [float(s)] ([None] when it
    raises) and [datetime.strptime(s, fmt).date()]. *)
Class Python := {
  float_of_string : string -> option float;
  strptime : string -> string -> option date;
  (* [str(None)] is the text [None], which [float] rejects *)
  float_of_None : float_of_string "None" = None
}.

Section Rows.
Context {py : Python}.

Definition to_float (v : option string) : float :=
  match v with
  | None => Some 0%Q
  | Some s =>
      if existsb (String.eqb s) [""; "NA"; "NaN"]%string then Some 0%Q
      else match float_of_string (replace_comma s) with
           | Some x => x
           | None => Some 0%Q
           end
  end.

(** [int(float(str(v).replace(",", ".")))]; [int] raises on NaN. *)
Definition to_int (v : option string) : Z :=
  let s := match v with Some s => s | None => "None"%string end in
  match float_of_string (replace_comma s) with
  | Some (Some q) => if Qle_bool 0%Q q then Qfloor q else Qceiling q
  | _ => 0%Z
  end.

Definition to_date (v : option string) : option date :=
  match v with
  | None | Some EmptyString => None
  | Some s =>
      match strptime s "%Y-%m-%d" with
      | Some d => Some d
      | None =>
          match strptime s "%d/%m/%Y" with
          | Some d => Some d
          | None => strptime s "%Y/%m/%d"
          end
      end
  end.

(** [max(0.0, x)]: the first argument unless the second is greater. *)
Definition max_0 (x : float) : float :=
  match x with
  | Some q => if Qltb 0%Q q then Some q else Some 0%Q
  | None => Some 0%Q
  end.

(** [r.get("Receita") not in (None, "", "NA")]. *)
Definition receita_given (v : option string) : bool :=
  match v with
  | None => false
  | Some s => negb (existsb (String.eqb s) [""; "NA"]%string)
  end.

(** The body of the loop over the lines of a file; [None] is [continue]. *)
Definition record_of (r : CsvRow) : option Sql.params :=
  match to_date (Data r) with
  | None => None
  | Some data =>
      let cliente := strip (py_or (ClienteId r) "") in
      let oper := strip (py_or (Operadora r) "N/A") in
      let proc := strip (py_or (Procedimento r) "N/A") in
      let cat := strip (py_or (Categoria r) "N/A") in
      let qtde := Z.max 0 (to_int (Qtde r)) in
      let pu := max_0 (to_float (PrecoUnitario r)) in
      let rec := if receita_given (Receita r) then to_float (Receita r)
                 else fmul (Some (inject_Z qtde)) pu in
      Some (Sql.mkrecord data cliente oper proc cat qtde pu rec)
  end.

Fixpoint records_of (rows : list CsvRow) : list Sql.params :=
  match rows with
  | [] => []
  | r :: rest =>
      match record_of r with
      | Some t => t :: records_of rest
      | None => records_of rest
      end
  end.

End Rows.

Local Open Scope py_scope.

Definition persist_append (srv : Sql.Server) (records : list Sql.params) : Sql.M nat :=
  Sql.executemany (Sql.INSERT_Atendimentos srv) records ;;
  Sql.ret (length records).

Definition persist_truncate_then_append (srv : Sql.Server)
    (records : list Sql.params) : Sql.M nat :=
  Sql.TRUNCATE_Atendimentos ;;
  persist_append srv records.

Definition sp_exists (srv : Sql.Server) (schema proc_name : string) : Sql.M bool :=
  Sql.SELECT_procedure srv (schema ++ "." ++ proc_name)%string.

Definition persist_merge (srv : Sql.Server) (records : list Sql.params) : Sql.M nat :=
  Sql.TMP_TABLE_SQL ;;
  Sql.executemany Sql.INSERT_tmp_at records ;;
  found <- sp_exists srv "app" "sp_UpsertAtendimentos" ;;
  (if found : bool then Sql.EXEC srv "app.sp_UpsertAtendimentos"
   else Sql.MERGE_FALLBACK_SQL srv) ;;
  Sql.ret (length records).

(** The choice of [main] among the three load modes. *)
Definition persist (srv : Sql.Server) (mode : string) (records : list Sql.params)
  : Sql.M nat :=
  if String.eqb mode "truncate" then persist_truncate_then_append srv records
  else if String.eqb mode "merge" then persist_merge srv records
  else persist_append srv records.

(** [main]; [mode_arg] is [--mode], [all_files] the lines of the files
    found under [sample_data/]. *)
Definition main {py : Python} (srv : Sql.Server) (mode_arg : option string)
    (sql_cfg : option SqlConfig) (all_files : list (list CsvRow)) : Sql.M unit :=
  if negb (sql_enable sql_cfg) then
    fun w => (w, Sql.SystemExit "sql.enable está falso no config.yaml")
  else
    let mode := lower (py_or mode_arg
                         (py_or (match sql_cfg with
                                 | Some c => load_mode c
                                 | None => None
                                 end) "append")) in
    match all_files with
    | [] => Sql.tell (Sql.Print "Sem arquivos em sample_data/. Nada a inserir.")
    | _ =>
        let records := flat_map records_of all_files in
        let lidas := length (concat all_files) in
        match records with
        | [] => Sql.tell (Sql.Print
                  "Sem registros válidos para inserir (todas as datas inválidas?).")
        | _ =>
            Sql.connect ;;
            Sql.try_except
              (n <- persist srv mode records ;;
               Sql.commit ;;
               Sql.tell (Sql.PrintOk lidas (length records) n mode))
              (fun ex =>
                 Sql.rollback ;;
                 Sql.tell (Sql.PrintErro ex) ;;
                 Sql.raise ex)
        end
    end.

(** Running the script: the module imports [pyodbc] before anything else. *)
Definition script {py : Python} (pyodbc : bool) (srv : Sql.Server)
    (mode_arg : option string) (sql_cfg : option SqlConfig)
    (all_files : list (list CsvRow)) : Sql.M unit :=
  if pyodbc then main srv mode_arg sql_cfg all_files
  else Sql.raise Sql.ModuleNotFound.

End SqlInserter.

(** ** Readings used by the statements *)

(** An order-preserving selection of the elements of a list. *)
Inductive subseq {A} : list A -> list A -> Prop :=
| subseq_nil : subseq [] []
| subseq_skip x l1 l2 : subseq l1 l2 -> subseq l1 (x :: l2)
| subseq_keep x l1 l2 : subseq l1 l2 -> subseq (x :: l1) (x :: l2).

Fixpoint pmap {A B} (f : A -> option B) (l : list A) : list B :=
  match l with
  | [] => []
  | x :: t =>
      match f x with
      | Some y => y :: pmap f t
      | None => pmap f t
      end
  end.

(** [x >= 0] on a float: False on NaN, as in Python. *)
Definition ge_zero (x : float) : Prop :=
  match x with Some q => (0 <= q)%Q | None => False end.

(** Never negative: a number at least 0, or no number. *)
Definition not_negative (x : float) : Prop :=
  match x with Some q => (0 <= q)%Q | None => True end.

(** The sum of a group, in row order. *)
Definition sum_list (l : list Q) : Q :=
  match l with
  | [] => 0%Q
  | x :: t => fold_left Qplus t x
  end.

Module AgentRows.
Import Agent.

(** [normalize_and_clean] read along one row: all its column steps act
    cell by cell (lemma [normalize_and_clean_rows]). *)
Definition clean_row {pd : Pandas} (r : RawRow) : option Row :=
  match to_datetime_coerce (Data r) with
  | None => None
  | Some d =>
      let q := to_numeric_coerce (Qtde r) in
      let p := to_numeric_coerce (PrecoUnitario r) in
      let v := to_numeric_coerce (Receita r) in
      let q := if lt_zero q then Some 0%Q else q in
      let p := if lt_zero p then Some 0%Q else p in
      let v := if isna v then fmul (Some (fillna 0%Q q)) (Some (fillna 0%Q p)) else v in
      Some (mkrow d (astype_str_strip (ClienteId r))
              (astype_str_strip (Operadora r)) (astype_str_strip (Procedimento r))
              (astype_str_strip (Categoria r)) (astype_str_strip (UF r)) q p v)
  end.

(** A row whose date is absent or does not parse. *)
Definition invalid_date {pd : Pandas} (r : RawRow) : bool :=
  match Data r with
  | None => true
  | Some s => isna (to_datetime s)
  end.

(** The rows of a natural key: those with the key of [k]. *)
Definition group (k : Row) (df : list Row) : list Row := filter (same_key k) df.

(** The lines of a key in a frame, and the total of a key. *)
Definition lines_of {A} (key : A -> string) (k : string) (df : list A) : list A :=
  filter (fun r => String.eqb (key r) k) df.

Definition total {A} (key : A -> string) (val : A -> float) (k : string)
    (df : list A) : Q :=
  sum_list (map (fun r => fillna 0%Q (val r)) (lines_of key k df)).

(** The position of the first row with a given key: the encounter order. *)
Fixpoint first_index {A} (key : A -> string) (k : string) (df : list A) : nat :=
  match df with
  | [] => 0
  | r :: rest => if String.eqb (key r) k then 0 else S (first_index key k rest)
  end.

End AgentRows.

(** ** Instances for the examples: ISO dates and plain decimal numbers *)

Module Demo.

Definition digit (c : ascii) : option Z :=
  let n := nat_of_ascii c in
  if ((48 <=? n) && (n <=? 57))%nat then Some (Z.of_nat (n - 48)) else None.

Fixpoint digits (s : string) (acc : Z) : option Z :=
  match s with
  | EmptyString => Some acc
  | String c t =>
      match digit c with
      | Some d => digits t (10 * acc + d)%Z
      | None => None
      end
  end.

Definition natural (s : string) : option Z :=
  match s with
  | EmptyString => None
  | _ => digits s 0%Z
  end.

Definition leap (y : Z) : bool :=
  ((y mod 4 =? 0) && negb (y mod 100 =? 0) || (y mod 400 =? 0))%Z.

Definition days_in_month (y m : Z) : Z :=
  if (m =? 2)%Z then (if leap y then 29 else 28)%Z
  else if ((m =? 4) || (m =? 6) || (m =? 9) || (m =? 11))%Z then 30%Z
  else 31%Z.

Definition calendar (y m d : Z) : option date :=
  if ((1 <=? m) && (m <=? 12) && (1 <=? d) && (d <=? days_in_month y m))%Z
  then Some (mkdate y m d) else None.

(** [a<sep>b<sep>c] with fields of the given widths. *)
Definition fields (sep : ascii) (w1 w2 w3 : nat) (s : string)
  : option (Z * Z * Z) :=
  if negb (String.length s =? w1 + w2 + w3 + 2)%nat then None
  else
    match String.get w1 s, String.get (w1 + w2 + 1) s with
    | Some c1, Some c2 =>
        if Ascii.eqb c1 sep && Ascii.eqb c2 sep then
          match natural (substring 0 w1 s), natural (substring (w1 + 1) w2 s),
                natural (substring (w1 + w2 + 2) w3 s) with
          | Some a, Some b, Some c => Some (a, b, c)
          | _, _, _ => None
          end
        else None
    | _, _ => None
    end.

Definition iso_date (s : string) : option date :=
  match fields "-" 4 2 2 s with
  | Some (y, m, d) => calendar y m d
  | None => None
  end.

(** An optional sign, digits, and an optional fraction. *)
Fixpoint split_point (s : string) : string * option string :=
  match s with
  | EmptyString => (EmptyString, None)
  | String c t =>
      if Ascii.eqb c "." then (EmptyString, Some t)
      else let (a, b) := split_point t in (String c a, b)
  end.

Definition unsigned (s : string) : option Q :=
  match split_point s with
  | (a, None) =>
      match natural a with Some n => Some (inject_Z n) | None => None end
  | (a, Some b) =>
      match natural a, natural b with
      | Some n, Some f =>
          Some (inject_Z n + inject_Z f / inject_Z (10 ^ Z.of_nat (String.length b)))%Q
      | _, _ => None
      end
  end.

Definition decimal (s : string) : option Q :=
  match s with
  | String "-" t => match unsigned t with Some q => Some (- q)%Q | None => None end
  | _ => unsigned s
  end.

#[export] Instance pandas : Agent.Pandas := {|
  Agent.to_datetime := iso_date;
  Agent.to_numeric := decimal
|}.

#[export] Instance python : SqlInserter.Python := {|
  SqlInserter.float_of_string :=
    fun s => if String.eqb (lower (strip s)) "nan" then Some NaN
             else match decimal (strip s) with
                  | Some q => Some (Some q)
                  | None => None
                  end;
  SqlInserter.strptime :=
    fun s fmt =>
      if String.eqb fmt "%Y-%m-%d" then iso_date s
      else if String.eqb fmt "%d/%m/%Y" then
        match fields "/" 2 2 4 s with
        | Some (d, m, y) => calendar y m d
        | None => None
        end
      else if String.eqb fmt "%Y/%m/%d" then
        match fields "/" 4 2 2 s with
        | Some (y, m, d) => calendar y m d
        | None => None
        end
      else None;
  SqlInserter.float_of_None := eq_refl
|}.

End Demo.

(** ** Further readings used by the statements *)

(** The natural key of a record. *)
Definition key_of (r : Agent.Row) : date * string * string :=
  (Agent.Data r, Agent.ClienteId r, Agent.Procedimento r).

(** The order of the lines of [groupby], and the total it holds for a key. *)
Definition key_lt (a b : string * Q) : Prop := String.ltb (fst a) (fst b) = true.

Definition lookup_total (k : string) (g : list (string * Q)) : option Q :=
  option_map snd (find (fun e => String.eqb (fst e) k) g).

(** A computation that commits nothing, and one that prints nothing. *)
Definition keeps_durable {A} (m : Sql.M A) : Prop :=
  forall w, Sql.durable (fst (m w)) = Sql.durable w.

Definition keeps_output {A} (m : Sql.M A) : Prop :=
  forall w, Sql.output (fst (m w)) = Sql.output w.

(** The order the claim on rankings asks of tied lines: the line whose key
    is met first in the frame comes first. *)
Definition in_encounter_order {A} (key : A -> string) (df : list A)
    (top : list (string * Q)) : Prop :=
  forall i j a b,
    nth_error top i = Some a -> nth_error top j = Some b -> (i < j)%nat ->
    (snd a == snd b)%Q ->
    (AgentRows.first_index key (fst a) df < AgentRows.first_index key (fst b) df)%nat.

(** Descending by value and, among equal values, ascending by key. *)
Definition desc_then_key (a b : string * Q) : Prop :=
  (snd b < snd a)%Q \/ ((snd a == snd b)%Q /\ String.ltb (fst a) (fst b) = true).

(** [top] is a ranking of the 20 largest totals of [df]. *)
Definition top_20_by_total {A} (key : A -> string) (val : A -> float)
    (df : list A) (top : list (string * Q)) : Prop :=
  (length top <= 20)%nat
  /\ StronglySorted Agent.desc top
  /\ NoDup (map fst top)
  /\ (forall k t, In (k, t) top ->
        AgentRows.lines_of key k df <> [] /\ t = AgentRows.total key val k df)
  /\ (forall k, AgentRows.lines_of key k df <> [] ->
        In (k, AgentRows.total key val k df) top
        \/ (length top = 20%nat
            /\ forall e, In e top -> (AgentRows.total key val k df <= snd e)%Q)).

Definition ex_oper (oper : string) (v : Q) : Agent.Row :=
  Agent.mkrow (mkdate 2024 1 5) "C1" oper "ProcA" "CatA" "SP" (Some 1%Q) (Some v) (Some v).

(** The load mode [main] settles on. *)
Definition chosen_mode (mode_arg : option string) (sql_cfg : option SqlConfig) : string :=
  lower (py_or mode_arg
           (py_or (match sql_cfg with Some c => load_mode c | None => None end)
                  "append")).

(** The state of a session just opened, committed and rolled back. *)
Definition opened (w : Sql.World) : Sql.World :=
  Sql.mkworld (Sql.durable w) (Sql.durable w) [] (Sql.clock w) (Sql.output w).
Definition committed (w : Sql.World) : Sql.World :=
  Sql.mkworld (Sql.pending w) (Sql.pending w) (Sql.tmp_at w) (Sql.clock w) (Sql.output w).
Definition rolled_back (w : Sql.World) : Sql.World :=
  Sql.mkworld (Sql.durable w) (Sql.durable w) [] (Sql.clock w) (Sql.output w).

(** The statements [persist_to_sql_merge] runs between [connect] and
    [commit]. *)
Definition agent_statements (srv : Sql.Server) (rows : list Sql.params) : Sql.M unit :=
  (Sql.TMP_TABLE_SQL ;;
   Sql.executemany Sql.INSERT_tmp_at rows ;;
   Sql.EXEC srv "app.sp_UpsertAtendimentos")%py.

Definition ex_env : Agent.Env :=
  Agent.mkenv true (Agent.mkfilters None None [] []) (Some (mksqlconfig (Some true) None)).

Definition ex_world : Sql.World := Sql.mkworld [] [] [] 1%Z [].

Definition ex_server : Sql.Server := Sql.mkserver true [].

(** The frame, the audit line and the rankings [fluxo_atualizar_tudo]
    computes before it persists. *)
Definition flow_frame {pd : Agent.Pandas} (env : Agent.Env) (raw : list Agent.RawRow)
    (dim : list Agent.DimCliente) : list (Agent.Flagged Agent.Enriched) :=
  fst (Agent.compute_percentile_flag
         (Agent.merge_dim
            (fst (Agent.remove_duplicates
                    (Agent.apply_filters (fst (Agent.normalize_and_clean raw))
                       (Agent.config_filters env))))
            dim)
         (fun r => Agent.Receita (Agent.base r)) (9 # 10)%Q).

Definition flow_rows {pd : Agent.Pandas} (env : Agent.Env) (raw : list Agent.RawRow)
    (dim : list Agent.DimCliente) : list Agent.Row :=
  map (fun r => Agent.base (Agent.registro r)) (flow_frame env raw dim).

Definition flow_meta {pd : Agent.Pandas} (env : Agent.Env) (raw : list Agent.RawRow)
    (arquivos : nat) (dim : list Agent.DimCliente) : Agent.Meta :=
  let m := snd (Agent.normalize_and_clean raw) in
  let filtered := Agent.apply_filters (fst (Agent.normalize_and_clean raw))
                    (Agent.config_filters env) in
  Agent.mkmeta arquivos (length raw) (length (flow_frame env raw dim))
    (Agent.invalid_dates m) (Agent.neg_qtde m) (Agent.neg_preco m)
    (snd (Agent.remove_duplicates filtered))
    (snd (Agent.compute_percentile_flag
            (Agent.merge_dim (fst (Agent.remove_duplicates filtered)) dim)
            (fun r => Agent.Receita (Agent.base r)) (9 # 10)%Q))
    0.

Definition flow_start (w : Sql.World) : Sql.World :=
  Sql.emit (Sql.Info "=== Iniciando atualização completa ===") w.

(** A record whose category is longer than [nvarchar(10)]. *)
Definition ex_raw_long : Agent.RawRow :=
  Agent.mkrow (Some "2024-01-05") (Agent.Text "C1") (Agent.Text "OpX")
    (Agent.Text "ProcA") (Agent.Text "Consulta especial") (Agent.Text "SP")
    (Agent.CNum 2) (Agent.CNum 10) Agent.CNA.

Definition ex_row_long : Agent.Row :=
  Agent.mkrow (mkdate 2024 1 5) "C1" "OpX" "ProcA" "Consulta especial" "SP"
    (Some 2%Q) (Some 10%Q) (Some (2 * 10)%Q).

Definition ex_csv_long : SqlInserter.CsvRow :=
  SqlInserter.mkcsv (Some "2024-01-05") (Some "C1") (Some "OpX") (Some "ProcA")
    (Some "Consulta especial") (Some "2") (Some "10") None.

Definition ex_sql_on : option SqlConfig := Some (mksqlconfig (Some true) None).
Definition ex_sql_off : option SqlConfig := Some (mksqlconfig (Some false) None).

(** Another reading of the server clock. *)
Definition set_clock (t : Z) (w : Sql.World) : Sql.World :=
  Sql.mkworld (Sql.durable w) (Sql.pending w) (Sql.tmp_at w) t (Sql.output w).

(** The stored procedure, if the server has one, does what the inline
    [MERGE] does. Its body is not part of the repository. *)
Definition upsert_is_inline (srv : Sql.Server) : Prop :=
  match Sql.lookup "app.sp_UpsertAtendimentos" (Sql.procedures srv) with
  | Some p => forall now stg tgt, p now stg tgt = Sql.merge_statement srv now stg tgt
  | None => True
  end.

(** What [executemany] of the staging insert leaves in [#tmp_at], and the
    error that stopped it. *)
Fixpoint stage (records : list Sql.params) : list Sql.staged * option Sql.exception :=
  match records with
  | [] => ([], None)
  | p :: rest =>
      match Sql.bind_columns p with
      | inl e => ([], Some e)
      | inr s => let (l, r) := stage rest in (s :: l, r)
      end
  end.

(** The committed table after one transaction that stages [records] and
    runs the statement [f]: the new table, or the old one after a failure. *)
Definition after_transaction
    (f : Z -> list Sql.staged -> list Sql.line -> list Sql.line * option Sql.exception)
    (now : Z) (records : list Sql.params) (tgt : list Sql.line) : list Sql.line :=
  match stage records with
  | (stg, None) =>
      match f now stg tgt with
      | (t, None) => t
      | (_, Some _) => tgt
      end
  | (_, Some _) => tgt
  end.

(** What [persist_merge] runs after its probe, and what [EXEC] runs. *)
Definition probed_merge (srv : Sql.Server)
  : Z -> list Sql.staged -> list Sql.line -> list Sql.line * option Sql.exception :=
  match Sql.lookup "app.sp_UpsertAtendimentos" (Sql.procedures srv) with
  | Some p => p
  | None => Sql.merge_statement srv
  end.

Definition exec_upsert (srv : Sql.Server)
  : Z -> list Sql.staged -> list Sql.line -> list Sql.line * option Sql.exception :=
  match Sql.lookup "app.sp_UpsertAtendimentos" (Sql.procedures srv) with
  | Some p => p
  | None => fun _ _ tgt => (tgt, Some Sql.ProcedureNotFound)
  end.

(** Two visits, and a committed table that already holds the first with
    other values. *)
Definition ex_csv_a : SqlInserter.CsvRow :=
  SqlInserter.mkcsv (Some "2024-01-05") (Some "C1") (Some "OpX") (Some "ProcA")
    (Some "CatA") (Some "3") (Some "10") None.

Definition ex_csv_b : SqlInserter.CsvRow :=
  SqlInserter.mkcsv (Some "06/01/2024") (Some "C2") (Some "OpY") (Some "ProcB")
    (Some "CatB") (Some "1") (Some "7,5") (Some "9")%string.

Definition ex_line_a_old : Sql.line :=
  Sql.mkline (Sql.mkrecord (mkdate 2024 1 5) "C1" "OpOld" "ProcA" "CatOld" 2%Z
                (20 # 1)%Q (40 # 1)%Q) None.

Definition ex_world_a : Sql.World := Sql.mkworld [ex_line_a_old] [] [] 100%Z [].

Definition ex_row_a : Agent.Row :=
  Agent.mkrow (mkdate 2024 1 5) "C1" "OpX" "ProcA" "CatA" "SP"
    (Some 3%Q) (Some 10%Q) (Some 30%Q).

(** ** Data of the examples *)

Definition ex_raw (data : string) (q p v : Agent.cell) : Agent.RawRow :=
  Agent.mkrow (Some data) (Agent.Text "C1") (Agent.Text " OpX ") (Agent.Text "ProcA")
    (Agent.Text "CatA") (Agent.Text "SP") q p v.

Definition ex_row (d : Z) (cli proc : string) (q p : Q) : Agent.Row :=
  Agent.mkrow (mkdate 2024 1 d) cli "OpX"%string proc "CatA"%string "SP"%string
    (Some q) (Some p) (Some (q * p)%Q).

Definition ex_csv (data : string) (q p v : option string) : SqlInserter.CsvRow :=
  SqlInserter.mkcsv (Some data) (Some "C1") (Some "OpX") (Some "ProcA")
    (Some "CatA") q p v.

Definition ten_revenues : list float :=
  map (fun z => Some (inject_Z z)) [10; 20; 30; 40; 50; 60; 70; 80; 90; 100]%Z.

(** The quantile of level [p] with linear interpolation, in the words of
    its definition, to be compared with [Agent.quantile]: on the values in
    ascending order [a], the position [(n - 1) p] lies between a position
    below and a position above it, and the quantile lies as far between
    the values at these two positions as the position lies between them. *)
Definition linear_interpolation (a : list Q) (p : Q) : Q :=
  let h := (inject_Z (Z.of_nat (length a) - 1) * p)%Q in
  let below := nth (Z.to_nat (Qfloor h)) a 0%Q in
  let above := nth (Z.to_nat (Qceiling h)) a 0%Q in
  (below + (above - below) * (h - inject_Z (Qfloor h)))%Q.

(** ** Readings used by the further properties *)

(** A text without white space at its ends. *)
Definition no_leading_space (s : string) : Prop :=
  match s with
  | EmptyString => True
  | String c _ => is_space c = false
  end.

Fixpoint last_char (s : string) : option ascii :=
  match s with
  | EmptyString => None
  | String c EmptyString => Some c
  | String _ t => last_char t
  end.

Definition no_trailing_space (s : string) : Prop :=
  match last_char s with
  | None => True
  | Some c => is_space c = false
  end.

Definition stripped (s : string) : Prop :=
  no_leading_space s /\ no_trailing_space s /\ strip s = s.


(** The entries of the dimension for the customer of a record. *)
Definition dim_matches (r : Agent.Row) (dim : list Agent.DimCliente)
  : list Agent.DimCliente :=
  filter (fun m => String.eqb (strip (Agent.ClienteId r))
                              (strip (Agent.dim_ClienteId m))) dim.

(** The natural key of a staged line and of a line of the table. *)
Definition staged_key (s : Sql.staged) : date * string * string :=
  (Sql.Data s, Sql.ClienteId s, Sql.Procedimento s).

Definition line_key (t : Sql.line) : date * string * string :=
  staged_key (Sql.cols t).


(** What [executemany] of the append insert makes of the table, and the
    error that stopped it. *)
Fixpoint append_lines (unique : bool) (records : list Sql.params) (tgt : list Sql.line)
  : list Sql.line * option Sql.exception :=
  match records with
  | [] => (tgt, None)
  | p :: rest =>
      match Sql.bind_columns p with
      | inl e => (tgt, Some e)
      | inr s =>
          if unique && existsb (Sql.key_match s) tgt then (tgt, Some Sql.DuplicateKey)
          else append_lines unique rest (tgt ++ [Sql.mkline s None])
      end
  end.

(** A line as the append insert writes it. *)
Definition appended (s : Sql.staged) : Sql.line := Sql.mkline s None.

(** ** The connection string of the two scripts *)

Module Connection.

(** The keys of the [sql] section read for the connection, with values of
    the kinds the scripts expect (texts and booleans); [None] is a key
    that is absent. *)
Record Config := mkconfig {
  driver : option string;
  server : option string;
  database : option string;
  username : option string;
  password : option string;
  encrypt : option bool;
  trust_server_certificate : option bool
}.

(** [c.get(key, default)], and the truth of [c.get(key, default)]. *)
Definition get {A} (x : option A) (default : A) : A :=
  match x with Some v => v | None => default end.

Definition yes_no (b : bool) : string := if b then "yes" else "no".

(** [_conn_str] of [agent.py]; its [c.get("encrypt")] has no default, and
    the absent value is false. *)
Definition _conn_str (c : Config) : string :=
  let driver := get (driver c) "ODBC Driver 18 for SQL Server" in
  let server := get (server c) "localhost,1433" in
  let db := get (database c) "SaudeDev" in
  let uid := get (username c) "etl_user" in
  let pwd := get (password c) "" in
  let encrypt := yes_no (get (encrypt c) false) in
  let tsc := yes_no (get (trust_server_certificate c) true) in
  ("DRIVER={" ++ driver ++ "};SERVER=" ++ server ++ ";DATABASE=" ++ db ++ ";"
   ++ "UID=" ++ uid ++ ";PWD=" ++ pwd ++ ";Encrypt=" ++ encrypt
   ++ ";TrustServerCertificate=" ++ tsc)%string.

(** [conn_str] of [sql_inserter.py]. *)
Definition conn_str (c : Config) : string :=
  let driver := get (driver c) "ODBC Driver 18 for SQL Server" in
  let server := get (server c) "localhost,1433" in
  let db := get (database c) "SaudeDev" in
  let uid := get (username c) "sa" in
  let pwd := get (password c) "" in
  let encrypt := yes_no (get (encrypt c) false) in
  let tsc := yes_no (get (trust_server_certificate c) true) in
  ("DRIVER={" ++ driver ++ "};SERVER=" ++ server ++ ";DATABASE=" ++ db
   ++ ";UID=" ++ uid ++ ";PWD=" ++ pwd ++ ";Encrypt=" ++ encrypt
   ++ ";TrustServerCertificate=" ++ tsc)%string.

End Connection.



(** Two staged lines, and the same two as the columns of [#tmp_at] hold
    them. *)
Definition ex_staged_a : Sql.staged :=
  Sql.mkrecord (mkdate 2024 1 5) "C1" "OpX" "ProcA" "CatA" 3%Z (10 # 1)%Q (30 # 1)%Q.

Definition ex_staged_b : Sql.staged :=
  Sql.mkrecord (mkdate 2024 1 6) "C2" "OpY" "ProcB" "CatB" 1%Z (15 # 2)%Q (9 # 1)%Q.

Definition ex_stg_ab : list Sql.staged :=
  [Sql.mkrecord (mkdate 2024 1 5) "C1" "OpX" "ProcA" "CatA" 3%Z (1000 # 100)%Q
     (3000 # 100)%Q;
   Sql.mkrecord (mkdate 2024 1 6) "C2" "OpY" "ProcB" "CatB" 1%Z (750 # 100)%Q
     (900 # 100)%Q].

(** A text in which neither a comma nor a point occurs. *)
Fixpoint no_separator (s : string) : bool :=
  match s with
  | EmptyString => true
  | String c t => negb (Ascii.eqb c ",") && negb (Ascii.eqb c ".") && no_separator t
  end.

(** A line of a file with the commas of its three numeric cells written
    as points. *)
Definition with_points (r : SqlInserter.CsvRow) : SqlInserter.CsvRow :=
  SqlInserter.mkcsv (SqlInserter.Data r) (SqlInserter.ClienteId r)
    (SqlInserter.Operadora r) (SqlInserter.Procedimento r) (SqlInserter.Categoria r)
    (option_map replace_comma (SqlInserter.Qtde r))
    (option_map replace_comma (SqlInserter.PrecoUnitario r))
    (option_map replace_comma (SqlInserter.Receita r)).

(** * Properties *)

(** ** Deduplication *)

Lemma date_eqb_eq (a b : date) : date_eqb a b = true <-> a = b.
Proof.
  unfold date_eqb. destruct a as [y m d], b as [y' m' d']. simpl.
  rewrite !andb_true_iff, !Z.eqb_eq. split.
  - intros [[-> ->] ->]. reflexivity.
  - intros H. inversion H. auto.
Qed.

Lemma date_eqb_refl (a : date) : date_eqb a a = true.
Proof. apply date_eqb_eq. reflexivity. Qed.

Lemma same_key_iff (a b : Agent.Row) :
  Agent.same_key a b = true <-> key_of a = key_of b.
Proof.
  unfold Agent.same_key, key_of.
  rewrite !andb_true_iff, date_eqb_eq, !String.eqb_eq. split.
  - intros [[-> ->] ->]. reflexivity.
  - intros H. inversion H. auto.
Qed.

Lemma same_key_trans_l (k a b : Agent.Row) :
  Agent.same_key a b = true -> Agent.same_key k a = Agent.same_key k b.
Proof.
  intros H. apply same_key_iff in H.
  destruct (Agent.same_key k a) eqn:Ha, (Agent.same_key k b) eqn:Hb; auto.
  - apply same_key_iff in Ha. rewrite H in Ha. apply same_key_iff in Ha. congruence.
  - apply same_key_iff in Hb. rewrite <- H in Hb. apply same_key_iff in Hb. congruence.
Qed.

Lemma subseq_refl {A} (l : list A) : subseq l l.
Proof. induction l; constructor; assumption. Qed.

Lemma subseq_length {A} (l1 l2 : list A) : subseq l1 l2 -> (length l1 <= length l2)%nat.
Proof. induction 1; simpl; lia. Qed.

Lemma subseq_In {A} (l1 l2 : list A) x : subseq l1 l2 -> In x l1 -> In x l2.
Proof. induction 1; simpl; intuition. Qed.

Lemma drop_duplicates_subseq (df : list Agent.Row) :
  subseq (Agent.drop_duplicates_keep_last df) df.
Proof.
  induction df as [|r rest IH]; simpl.
  - constructor.
  - destruct (existsb (Agent.same_key r) rest); constructor; assumption.
Qed.

Lemma filter_nil_subseq {A} (f : A -> bool) (l1 l2 : list A) :
  subseq l1 l2 -> filter f l2 = [] -> filter f l1 = [].
Proof.
  induction 1; simpl; auto.
  - destruct (f x); [discriminate | auto].
  - destruct (f x); [discriminate | auto].
Qed.

(** What deduplication leaves of each key: nothing when the key does not
    occur, and otherwise its last row alone. *)
Lemma drop_duplicates_group (df : list Agent.Row) (k : Agent.Row) :
  AgentRows.group k (Agent.drop_duplicates_keep_last df) =
  match AgentRows.group k df with
  | [] => []
  | g => [last g k]
  end.
Proof.
  unfold AgentRows.group.
  induction df as [|r rest IH]; simpl; [reflexivity|].
  destruct (existsb (Agent.same_key r) rest) eqn:E.
  - rewrite IH. destruct (Agent.same_key k r) eqn:K; [|reflexivity].
    apply existsb_exists in E. destruct E as [r' [Hin Hr']].
    assert (Hk : Agent.same_key k r' = true)
      by (rewrite <- (same_key_trans_l k r r' Hr'); exact K).
    destruct (filter (Agent.same_key k) rest) as [|g0 g] eqn:G.
    + exfalso. assert (In r' (filter (Agent.same_key k) rest))
        by (apply filter_In; auto).
      rewrite G in H. contradiction.
    + reflexivity.
  - simpl. destruct (Agent.same_key k r) eqn:K.
    + assert (G : filter (Agent.same_key k) rest = []).
      { destruct (filter (Agent.same_key k) rest) as [|g0 g] eqn:G; [reflexivity|].
        exfalso. assert (Hg : In g0 (filter (Agent.same_key k) rest))
          by (rewrite G; left; reflexivity).
        apply filter_In in Hg. destruct Hg as [Hin Hg].
        assert (existsb (Agent.same_key r) rest = true).
        { apply existsb_exists. exists g0. split; [assumption|].
          apply same_key_iff. apply same_key_iff in K, Hg. congruence. }
        congruence. }
      rewrite G.
      rewrite (filter_nil_subseq _ _ _ (drop_duplicates_subseq rest) G).
      reflexivity.
    + exact IH.
Qed.

(** C4. [remove_duplicates] keeps, of every natural key that occurs (a
    group of [k >= 1] rows, so in particular of [k > 1]), exactly one row,
    the last of the group in input order; the rows kept are an
    order-preserving selection of the input; and the count returned is the
    input length minus the output length. *)
Theorem remove_duplicates_last_wins (df : list Agent.Row) (k : Agent.Row) :
  (1 <= length (AgentRows.group k df))%nat ->
  AgentRows.group k (fst (Agent.remove_duplicates df))
    = [last (AgentRows.group k df) k]
  /\ (length (AgentRows.group k df)
      - length (AgentRows.group k (fst (Agent.remove_duplicates df)))
      = length (AgentRows.group k df) - 1)%nat
  /\ subseq (fst (Agent.remove_duplicates df)) df
  /\ (snd (Agent.remove_duplicates df)
      = length df - length (fst (Agent.remove_duplicates df)))%nat
  /\ (snd (Agent.remove_duplicates df)
      + length (fst (Agent.remove_duplicates df)) = length df)%nat.
Proof.
  intros Hk. unfold Agent.remove_duplicates. simpl.
  pose proof (drop_duplicates_group df k) as G.
  destruct (AgentRows.group k df) as [|g0 g] eqn:E; [simpl in Hk; lia|].
  rewrite G. repeat split.
  - apply drop_duplicates_subseq.
  - pose proof (subseq_length _ _ (drop_duplicates_subseq df)). lia.
Qed.

Lemma remove_duplicates_last_wins_witness :
  Agent.remove_duplicates
    [ex_row 5 "C1" "ProcA" 2 10; ex_row 6 "C2" "ProcB" 1 7; ex_row 5 "C1" "ProcA" 3 10]
  = ([ex_row 6 "C2" "ProcB" 1 7; ex_row 5 "C1" "ProcA" 3 10], 1%nat)
  /\ AgentRows.group (ex_row 5 "C1" "ProcA" 2 10)
       (fst (Agent.remove_duplicates
          [ex_row 5 "C1" "ProcA" 2 10; ex_row 6 "C2" "ProcB" 1 7;
           ex_row 5 "C1" "ProcA" 3 10]))
     = [ex_row 5 "C1" "ProcA" 3 10].
Proof.
  split; [reflexivity|].
  exact (proj1 (remove_duplicates_last_wins
    [ex_row 5 "C1" "ProcA" 2 10; ex_row 6 "C2" "ProcB" 1 7; ex_row 5 "C1" "ProcA" 3 10]
    (ex_row 5 "C1" "ProcA" 2 10) (le_S _ _ (le_n 1)))).
Defined.

(** ** The normalizer *)

Section NormalizerFacts.
Context {pd : Agent.Pandas}.

Lemma select_dated_pmap (raw : list Agent.RawRow) :
  Agent.select_dated raw (map (fun r => Agent.to_datetime_coerce (Agent.Data r)) raw)
  = pmap (fun r =>
            match Agent.to_datetime_coerce (Agent.Data r) with
            | Some d =>
                Some (Agent.mkrow d (Agent.ClienteId r) (Agent.Operadora r)
                        (Agent.Procedimento r) (Agent.Categoria r) (Agent.UF r)
                        (Agent.Qtde r) (Agent.PrecoUnitario r) (Agent.Receita r))
            | None => None
            end) raw.
Proof.
  induction raw as [|r raw IH]; simpl; [reflexivity|].
  destruct (Agent.to_datetime_coerce (Agent.Data r)); rewrite IH; reflexivity.
Qed.

Lemma map_pmap {A B C} (g : B -> C) (f : A -> option B) (l : list A) :
  map g (pmap f l) = pmap (fun x => option_map g (f x)) l.
Proof.
  induction l as [|x l IH]; simpl; [reflexivity|].
  destruct (f x); simpl; rewrite IH; reflexivity.
Qed.

Lemma pmap_ext {A B} (f g : A -> option B) (l : list A) :
  (forall x, f x = g x) -> pmap f l = pmap g l.
Proof.
  intros H. induction l as [|x l IH]; simpl; [reflexivity|].
  rewrite H, IH. reflexivity.
Qed.

Lemma pmap_In {A B} (f : A -> option B) (l : list A) (y : B) :
  In y (pmap f l) <-> exists x, In x l /\ f x = Some y.
Proof.
  induction l as [|x l IH]; simpl.
  - split; [contradiction | intros [x [[] _]]].
  - destruct (f x) as [y'|] eqn:E; simpl; rewrite IH; split.
    + intros [<- | [x' [Hin Hx']]]; eauto.
    + intros [x' [[<- | Hin] Hx']]; [left; congruence | right; eauto].
    + intros [x' [Hin Hx']]; eauto.
    + intros [x' [[<- | Hin] Hx']]; [congruence | eauto].
Qed.

Lemma pmap_length {A B} (f : A -> option B) (l : list A) :
  (length (pmap f l) + length (filter (fun x => isna (f x)) l) = length l)%nat.
Proof.
  induction l as [|x l IH]; simpl; [reflexivity|].
  destruct (f x); simpl; lia.
Qed.

(** The frame returned is the frame of the cleaned rows, in input order. *)
Lemma normalize_and_clean_rows (raw : list Agent.RawRow) :
  fst (Agent.normalize_and_clean raw) = pmap AgentRows.clean_row raw.
Proof.
  unfold Agent.normalize_and_clean. simpl.
  rewrite select_dated_pmap, !map_pmap.
  apply pmap_ext. intros r. unfold AgentRows.clean_row.
  destruct (Agent.to_datetime_coerce (Agent.Data r)); simpl; [|reflexivity].
  unfold Agent.numeric_columns. simpl.
  destruct (lt_zero (Agent.to_numeric_coerce (Agent.Qtde r))); simpl;
    destruct (lt_zero (Agent.to_numeric_coerce (Agent.PrecoUnitario r))); simpl;
    destruct (isna (Agent.to_numeric_coerce (Agent.Receita r))); reflexivity.
Qed.

Lemma clean_row_None (r : Agent.RawRow) :
  AgentRows.clean_row r = None <-> AgentRows.invalid_date r = true.
Proof.
  unfold AgentRows.clean_row, AgentRows.invalid_date, Agent.to_datetime_coerce.
  destruct (Agent.Data r) as [s|]; [|tauto].
  destruct (Agent.to_datetime s); simpl; split; congruence.
Qed.

Lemma invalid_dates_count (raw : list Agent.RawRow) :
  Agent.invalid_dates (snd (Agent.normalize_and_clean raw))
  = length (filter AgentRows.invalid_date raw).
Proof.
  unfold Agent.normalize_and_clean. simpl.
  induction raw as [|r raw IH]; simpl; [reflexivity|].
  unfold AgentRows.invalid_date at 1, Agent.to_datetime_coerce at 1.
  destruct (Agent.Data r) as [s|]; simpl.
  - destruct (Agent.to_datetime s); simpl; rewrite IH; reflexivity.
  - rewrite IH. reflexivity.
Qed.

(** C10. Every row whose date is absent, and every row whose date does not
    parse, is dropped and counted: the counter is the number of such rows,
    the frame returned holds the cleaned other rows and nothing else, and
    the two together account for every input row. *)
Theorem invalid_dates_counts_absent_and_malformed (raw : list Agent.RawRow) :
  Agent.invalid_dates (snd (Agent.normalize_and_clean raw))
    = length (filter AgentRows.invalid_date raw)
  /\ fst (Agent.normalize_and_clean raw) = pmap AgentRows.clean_row raw
  /\ (forall r, AgentRows.clean_row r = None <->
                Agent.Data r = None
                \/ exists s, Agent.Data r = Some s /\ Agent.to_datetime s = None)
  /\ (length (fst (Agent.normalize_and_clean raw))
      + Agent.invalid_dates (snd (Agent.normalize_and_clean raw))
      = length raw)%nat.
Proof.
  split; [apply invalid_dates_count|].
  split; [apply normalize_and_clean_rows|].
  split.
  - intros r. rewrite clean_row_None. unfold AgentRows.invalid_date.
    destruct (Agent.Data r) as [s|].
    + destruct (Agent.to_datetime s) eqn:E; simpl; split.
      * discriminate.
      * intros [H | [s' [H1 H2]]]; [discriminate|]. congruence.
      * intros _. right. exists s. auto.
      * reflexivity.
    + split; auto.
  - rewrite invalid_dates_count, normalize_and_clean_rows.
    rewrite <- (pmap_length AgentRows.clean_row raw). f_equal.
    f_equal. clear. induction raw as [|r raw IH]; simpl; [reflexivity|].
    pose proof (clean_row_None r) as H.
    destruct (AgentRows.clean_row r) eqn:E, (AgentRows.invalid_date r) eqn:I; simpl;
      try (rewrite IH; reflexivity).
    + destruct H as [_ H]. discriminate H. reflexivity.
    + destruct H as [H _]. discriminate H. reflexivity.
Qed.

Lemma lt_zero_false_not_negative (x : float) : lt_zero x = false -> not_negative x.
Proof.
  destruct x as [q|]; simpl; [|trivial].
  unfold Qltb. rewrite negb_false_iff. apply Qle_bool_iff.
Qed.

Lemma clamp_not_negative (x : float) :
  not_negative (if lt_zero x then Some 0%Q else x).
Proof.
  destruct (lt_zero x) eqn:E.
  - simpl. apply Qle_refl.
  - apply lt_zero_false_not_negative. assumption.
Qed.

Lemma clean_row_not_negative (r : Agent.RawRow) (o : Agent.Row) :
  AgentRows.clean_row r = Some o ->
  not_negative (Agent.Qtde o) /\ not_negative (Agent.PrecoUnitario o).
Proof.
  unfold AgentRows.clean_row.
  destruct (Agent.to_datetime_coerce (Agent.Data r)); [|discriminate].
  intros H. inversion H; subst; clear H. simpl.
  split; apply clamp_not_negative.
Qed.

(** A cleaned cell is missing exactly when the source cell is not a number. *)
Lemma clean_row_missing (r : Agent.RawRow) (o : Agent.Row) :
  AgentRows.clean_row r = Some o ->
  (Agent.Qtde o = NaN <-> Agent.to_numeric_coerce (Agent.Qtde r) = NaN)
  /\ (Agent.PrecoUnitario o = NaN <->
      Agent.to_numeric_coerce (Agent.PrecoUnitario r) = NaN).
Proof.
  unfold AgentRows.clean_row.
  destruct (Agent.to_datetime_coerce (Agent.Data r)); [|discriminate].
  intros H. inversion H; subst; clear H. simpl.
  split.
  - destruct (Agent.to_numeric_coerce (Agent.Qtde r)) as [q|]; simpl;
      [destruct (Qltb q 0)|]; unfold NaN; split; congruence.
  - destruct (Agent.to_numeric_coerce (Agent.PrecoUnitario r)) as [q|]; simpl;
      [destruct (Qltb q 0)|]; unfold NaN; split; congruence.
Qed.

End NormalizerFacts.

Section CleaningFacts.
Context {pd : Agent.Pandas} {py : SqlInserter.Python}.

Lemma mask_sum_pmap {A B} (f : B -> bool) (g : A -> option B) (l : list A) :
  Agent.mask_sum (map f (pmap g l))
  = length (filter (fun x => match g x with Some y => f y | None => false end) l).
Proof.
  unfold Agent.mask_sum.
  induction l as [|x l IH]; simpl; [reflexivity|].
  destruct (g x) as [y|]; simpl; [|exact IH].
  destruct (f y); simpl; rewrite IH; reflexivity.
Qed.

(** The two clamp counters: the surviving rows whose number is negative. *)
Lemma neg_counts (raw : list Agent.RawRow) :
  Agent.neg_qtde (snd (Agent.normalize_and_clean raw))
    = length (filter (fun r => negb (AgentRows.invalid_date r)
                               && lt_zero (Agent.to_numeric_coerce (Agent.Qtde r))) raw)
  /\ Agent.neg_preco (snd (Agent.normalize_and_clean raw))
    = length (filter (fun r => negb (AgentRows.invalid_date r)
                               && lt_zero (Agent.to_numeric_coerce (Agent.PrecoUnitario r)))
                raw).
Proof.
  unfold Agent.normalize_and_clean. simpl.
  rewrite select_dated_pmap, map_pmap, !mask_sum_pmap.
  split; f_equal; apply filter_ext; intros r;
    unfold AgentRows.invalid_date, Agent.to_datetime_coerce;
    destruct (Agent.Data r) as [s|]; simpl; try reflexivity;
    destruct (Agent.to_datetime s); reflexivity.
Qed.

Lemma astype_int_nonneg (q : Q) :
  (0 <= q)%Q -> (q < inject_Z (2 ^ 63))%Q ->
  Agent.astype_int q = Qfloor q /\ (0 <= Agent.astype_int q)%Z.
Proof.
  intros H B. unfold Agent.astype_int.
  assert (E : Qle_bool 0 q = true) by (apply Qle_bool_iff; exact H).
  rewrite E.
  assert (L : (0 <= Qfloor q)%Z)
    by (change 0%Z with (Qfloor 0); apply Qfloor_resp_le; exact H).
  assert (U : (Qfloor q < 2 ^ 63)%Z).
  { rewrite Zlt_Qlt. apply Qle_lt_trans with q; [apply Qfloor_le | exact B]. }
  assert (R : ((Agent.int64_min <=? Qfloor q) && (Qfloor q <=? Agent.int64_max))%Z = true).
  { apply andb_true_iff. unfold Agent.int64_min, Agent.int64_max.
    split; apply Z.leb_le; lia. }
  rewrite R. split; [reflexivity | exact L].
Qed.

(** Beyond the int64 range the cast leaves the smallest int64. *)
Lemma astype_int_beyond_int64 :
  Agent.astype_int (inject_Z (10 ^ 19)) = (- 9223372036854775808)%Z
  /\ Agent.astype_int (inject_Z (2 ^ 63)) = (- 9223372036854775808)%Z
  /\ Agent.astype_int (inject_Z (2 ^ 63 - 1)) = 9223372036854775807%Z.
Proof. repeat split; vm_compute; reflexivity. Qed.

Lemma fillna_not_negative (x : float) : not_negative x -> (0 <= fillna 0 x)%Q.
Proof. destruct x; simpl; [auto | intros _; apply Qle_refl]. Qed.

Lemma max_0_ge_zero (x : float) : ge_zero (SqlInserter.max_0 x).
Proof.
  destruct x as [q|]; simpl; [|apply Qle_refl].
  destruct (Qltb 0 q) eqn:E; simpl; [|apply Qle_refl].
  unfold Qltb in E. apply negb_true_iff in E.
  destruct (Qlt_le_dec 0 q) as [L|L]; [apply Qlt_le_weak; exact L|].
  apply Qle_bool_iff in L. congruence.
Qed.

Lemma record_of_not_negative (r : SqlInserter.CsvRow) (t : Sql.params) :
  SqlInserter.record_of r = Some t ->
  (0 <= Sql.Qtde t)%Z /\ ge_zero (Sql.PrecoUnitario t).
Proof.
  unfold SqlInserter.record_of.
  destruct (SqlInserter.to_date (SqlInserter.Data r)); [|discriminate].
  intros H. inversion H; subst; clear H. simpl.
  split; [apply Z.le_max_l | apply max_0_ge_zero].
Qed.

(** C5, as amended. No record of the cleaning stage has a negative quantity
    or unit price: a negative number is replaced by 0, a number that is not
    negative is kept, and a cell that is not a number stays missing (NaN)
    instead of becoming a number; the two counters count the negative
    numbers of the surviving rows, each on its own; and downstream, the
    tuple that [persist_to_sql_merge] builds from such a record has a unit
    price that is a number at least 0 and, when the quantity of the record
    is below 2^63 and so within the int64 that [astype(int)] casts to, a
    quantity that is the whole part of it, at least 0; every tuple that
    [sql_inserter.py] builds has a quantity and a unit price that are
    numbers at least 0. *)
Theorem clamps_leave_no_negative (raw : list Agent.RawRow) (o : Agent.Row) :
  In o (fst (Agent.normalize_and_clean raw)) ->
  not_negative (Agent.Qtde o) /\ not_negative (Agent.PrecoUnitario o)
  /\ (exists r, In r raw /\ AgentRows.clean_row r = Some o
        /\ (Agent.Qtde o = NaN <-> Agent.to_numeric_coerce (Agent.Qtde r) = NaN)
        /\ (Agent.PrecoUnitario o = NaN <->
            Agent.to_numeric_coerce (Agent.PrecoUnitario r) = NaN))
  /\ Agent.neg_qtde (snd (Agent.normalize_and_clean raw))
     = length (filter (fun r => negb (AgentRows.invalid_date r)
                                && lt_zero (Agent.to_numeric_coerce (Agent.Qtde r))) raw)
  /\ Agent.neg_preco (snd (Agent.normalize_and_clean raw))
     = length (filter (fun r => negb (AgentRows.invalid_date r)
                                && lt_zero (Agent.to_numeric_coerce
                                              (Agent.PrecoUnitario r))) raw)
  /\ (forall t, In t (Agent.sql_rows [o]) ->
        ge_zero (Sql.PrecoUnitario t)
        /\ ((fillna 0 (Agent.Qtde o) < inject_Z (2 ^ 63))%Q ->
            Sql.Qtde t = Qfloor (fillna 0 (Agent.Qtde o)) /\ (0 <= Sql.Qtde t)%Z))
  /\ (forall r t, SqlInserter.record_of r = Some t ->
        (0 <= Sql.Qtde t)%Z /\ ge_zero (Sql.PrecoUnitario t)).
Proof.
  intros Hin. rewrite normalize_and_clean_rows in Hin.
  apply pmap_In in Hin. destruct Hin as [r [Hr Ho]].
  pose proof (clean_row_not_negative r o Ho) as [Hq Hp].
  pose proof (clean_row_missing r o Ho) as [Mq Mp].
  pose proof (neg_counts raw) as [Cq Cp].
  repeat split; try assumption.
  - exists r. repeat split; try assumption; apply Mq || apply Mp.
  - destruct H as [<- | []]. simpl. apply fillna_not_negative. exact Hp.
  - destruct H as [<- | []]. simpl.
    apply astype_int_nonneg; [apply fillna_not_negative; exact Hq | exact H0].
  - destruct H as [<- | []]. simpl.
    apply astype_int_nonneg; [apply fillna_not_negative; exact Hq | exact H0].
  - apply (record_of_not_negative r0 t H).
  - apply (record_of_not_negative r0 t H).
Qed.

End CleaningFacts.

Lemma clamps_leave_no_negative_witness :
  fst (Agent.normalize_and_clean (pd := Demo.pandas) [ex_raw "2024-01-05" (Agent.CNum (-5)) (Agent.CNum 10) Agent.CNA])
  = [Agent.mkrow (mkdate 2024 1 5) "C1" "OpX" "ProcA" "CatA" "SP"
       (Some 0%Q) (Some 10%Q) (Some (0 * 10)%Q)]%string
  /\ Agent.neg_qtde (snd (Agent.normalize_and_clean (pd := Demo.pandas)
       [ex_raw "2024-01-05" (Agent.CNum (-5)) (Agent.CNum 10) Agent.CNA])) = 1%nat
  /\ not_negative (Some 0%Q).
Proof.
  split; [reflexivity|]. split; [reflexivity|].
  exact (proj1 (clamps_leave_no_negative (pd := Demo.pandas) (py := Demo.python)
    [ex_raw "2024-01-05" (Agent.CNum (-5)) (Agent.CNum 10) Agent.CNA]
    (Agent.mkrow (mkdate 2024 1 5) "C1" "OpX" "ProcA" "CatA" "SP"
       (Some 0%Q) (Some 10%Q) (Some (0 * 10)%Q))%string
    (or_introl eq_refl))).
Defined.

(** C5, the claim as stated fails: a row whose quantity cell is empty comes
    out of the cleaning stage with a missing quantity, which is not a
    number at least 0. *)
Lemma missing_quantity_is_not_ge_zero :
  fst (Agent.normalize_and_clean (pd := Demo.pandas)
         [ex_raw "2024-01-05" Agent.CNA (Agent.CNum 10) Agent.CNA])
  = [Agent.mkrow (mkdate 2024 1 5) "C1" "OpX" "ProcA" "CatA" "SP"
       NaN (Some 10%Q) (Some (0 * 10)%Q)]%string
  /\ ~ (forall o,
          In o (fst (Agent.normalize_and_clean (pd := Demo.pandas)
                       [ex_raw "2024-01-05" Agent.CNA (Agent.CNum 10) Agent.CNA])) ->
          ge_zero (Agent.Qtde o) /\ ge_zero (Agent.PrecoUnitario o)).
Proof.
  split; [reflexivity|].
  intros H. destruct (H _ (or_introl eq_refl)) as [F _]. exact F.
Qed.

(** ** Derived revenue *)

(** C6. [sql_inserter.py] does not derive the revenue of a line whose
    revenue field holds the text [NaN]: its test for a given revenue names
    [None], the empty text and [NA] only, so the field counts as given and
    [to_float], whose own list of missing values has [NaN], reads it as
    0.0. Whatever the other fields are, the tuple has the revenue 0; for
    the line of quantity 3 and unit price 10 the claim asks for 30. The
    same line with the field empty, [NA] or absent gets 30, and so does
    the row in [agent.py], where the cell is missing after [read_csv] and
    is no number for [to_numeric] when it is kept as text. *)
Theorem nan_revenue_field_is_read_as_zero :
  (forall (py : SqlInserter.Python) (c : SqlInserter.CsvRow) (t : Sql.params),
     SqlInserter.Receita c = Some "NaN" -> SqlInserter.record_of c = Some t ->
     Sql.Receita t = Some 0%Q)
  /\ SqlInserter.record_of (py := Demo.python)
       (ex_csv "2024-01-05" (Some "3") (Some "10") (Some "NaN"))
     = Some (Sql.mkrecord (mkdate 2024 1 5) "C1" "OpX" "ProcA" "CatA" 3%Z
               (Some 10%Q) (Some 0%Q))
  /\ ~ (0 == inject_Z 3 * 10)%Q
  /\ map (fun v => option_map Sql.Receita
                     (SqlInserter.record_of (py := Demo.python)
                        (ex_csv "2024-01-05" (Some "3") (Some "10") v)))
       [None; Some ""; Some "NA"]
     = [Some (Some 30%Q); Some (Some 30%Q); Some (Some 30%Q)]
  /\ map Agent.Receita
       (fst (Agent.normalize_and_clean (pd := Demo.pandas)
               [ex_raw "2024-01-05" (Agent.CNum 3) (Agent.CNum 10) Agent.CNA;
                ex_raw "2024-01-06" (Agent.CNum 3) (Agent.CNum 10)
                  (Agent.CText "NaN")]))
     = [Some 30%Q; Some 30%Q].
Proof.
  split.
  { intros py c t R H. unfold SqlInserter.record_of in H.
    destruct (SqlInserter.to_date (SqlInserter.Data c)); [|discriminate].
    inversion H; subst; clear H. simpl. rewrite R. reflexivity. }
  split; [reflexivity|].
  split; [intros H; discriminate H|].
  split; reflexivity.
Qed.

(** ** The percentile flag *)

Lemma insert_asc_perm (x : Q) (l : list Q) : Permutation (x :: l) (Agent.insert_asc x l).
Proof.
  induction l as [|y l IH]; simpl; [reflexivity|].
  destruct (Qle_bool x y); [reflexivity|].
  rewrite perm_swap. constructor. exact IH.
Qed.

Lemma sort_asc_perm (l : list Q) : Permutation l (Agent.sort_asc l).
Proof.
  induction l as [|x l IH]; simpl; [constructor|].
  rewrite <- insert_asc_perm. constructor. exact IH.
Qed.

Lemma insert_asc_sorted (x : Q) (l : list Q) :
  Sorted Qle l -> Sorted Qle (Agent.insert_asc x l).
Proof.
  induction l as [|y l IH]; simpl; intros S.
  - repeat constructor.
  - destruct (Qle_bool x y) eqn:E.
    + constructor; [exact S|]. constructor. apply Qle_bool_iff. exact E.
    + assert (Hyx : (y <= x)%Q).
      { destruct (Qlt_le_dec y x) as [L|L]; [apply Qlt_le_weak; exact L|].
        apply Qle_bool_iff in L. congruence. }
      inversion S as [|? ? S' Hd]; subst.
      constructor; [apply IH; exact S'|].
      destruct l as [|z l]; simpl.
      * constructor. exact Hyx.
      * destruct (Qle_bool x z); constructor; [exact Hyx|].
        inversion Hd; subst. assumption.
Qed.

Lemma sort_asc_sorted (l : list Q) : Sorted Qle (Agent.sort_asc l).
Proof.
  induction l as [|x l IH]; simpl; [constructor|].
  apply insert_asc_sorted. exact IH.
Qed.

(** An ascending list is left as it is by the sort, and the sort of a
    list depends on the numbers it holds alone, not on their order. *)
Lemma sort_asc_fixed (a : list Q) : Sorted Qle a -> Agent.sort_asc a = a.
Proof.
  induction a as [|x a IH]; intros S; [reflexivity|].
  inversion S as [|? ? S' Hd]; subst. simpl. rewrite (IH S').
  destruct a as [|y a]; [reflexivity|]. simpl.
  inversion Hd as [|? ? L]; subst. apply Qle_bool_iff in L. rewrite L. reflexivity.
Qed.

Lemma Forall2_Qeq_refl (l : list Q) : Forall2 Qeq l l.
Proof. induction l; constructor; [reflexivity | assumption]. Qed.

Lemma Forall2_Qeq_trans (l1 l2 l3 : list Q) :
  Forall2 Qeq l1 l2 -> Forall2 Qeq l2 l3 -> Forall2 Qeq l1 l3.
Proof.
  intros H. revert l3. induction H as [|x y l1 l2 Hxy H IH]; intros l3 H3.
  - inversion H3. constructor.
  - inversion H3 as [|? z ? l3' Hyz H3']; subst. constructor.
    + rewrite Hxy. exact Hyz.
    + apply IH. exact H3'.
Qed.

Lemma Forall2_Qeq_nth (l l' : list Q) (i : nat) :
  Forall2 Qeq l l' -> (nth i l 0 == nth i l' 0)%Q.
Proof.
  intros H. revert i. induction H as [|x y l l' Hxy H IH]; intros [|i]; simpl;
    try reflexivity; [exact Hxy | apply IH].
Qed.

Lemma Qle_bool_false (x y : Q) : Qle_bool x y = false -> (y < x)%Q.
Proof.
  intros E. destruct (Qlt_le_dec y x) as [L|L]; [exact L|].
  apply Qle_bool_iff in L. congruence.
Qed.

Lemma insert_asc_Qeq (x : Q) (l l' : list Q) :
  Forall2 Qeq l l' -> Forall2 Qeq (Agent.insert_asc x l) (Agent.insert_asc x l').
Proof.
  intros H. induction H as [|y y' l l' Hy H IH]; simpl.
  - apply Forall2_Qeq_refl.
  - assert (E : Qle_bool x y = Qle_bool x y') by (rewrite Hy; reflexivity).
    rewrite E. destruct (Qle_bool x y').
    + constructor; [reflexivity|]. constructor; assumption.
    + constructor; assumption.
Qed.

Lemma insert_asc_swap (x y : Q) (l : list Q) :
  Forall2 Qeq (Agent.insert_asc x (Agent.insert_asc y l))
    (Agent.insert_asc y (Agent.insert_asc x l)).
Proof.
  induction l as [|z l IH]; simpl.
  - destruct (Qle_bool x y) eqn:Exy, (Qle_bool y x) eqn:Eyx.
    + apply Qle_bool_iff in Exy, Eyx.
      assert (E : (x == y)%Q) by (apply Qle_antisym; assumption).
      repeat constructor; [exact E | symmetry; exact E].
    + apply Forall2_Qeq_refl.
    + apply Forall2_Qeq_refl.
    + apply Qle_bool_false in Exy, Eyx. exfalso.
      exact (Qlt_irrefl x (Qlt_trans _ _ _ Eyx Exy)).
  - destruct (Qle_bool y z) eqn:Eyz, (Qle_bool x z) eqn:Exz; simpl;
      rewrite ?Eyz, ?Exz.
    + destruct (Qle_bool x y) eqn:Exy, (Qle_bool y x) eqn:Eyx;
        rewrite ?Eyz, ?Exz.
      * apply Qle_bool_iff in Exy, Eyx.
        assert (E : (x == y)%Q) by (apply Qle_antisym; assumption).
        constructor; [exact E|]. constructor; [symmetry; exact E|].
        apply Forall2_Qeq_refl.
      * apply Forall2_Qeq_refl.
      * apply Forall2_Qeq_refl.
      * apply Qle_bool_false in Exy, Eyx. exfalso.
        exact (Qlt_irrefl x (Qlt_trans _ _ _ Eyx Exy)).
    + destruct (Qle_bool x y) eqn:Exy; rewrite ?Exz.
      * apply Qle_bool_iff in Exy, Eyz. apply Qle_bool_false in Exz. exfalso.
        apply (Qlt_irrefl z). apply Qlt_le_trans with x; [exact Exz|].
        apply Qle_trans with y; assumption.
      * apply Forall2_Qeq_refl.
    + destruct (Qle_bool y x) eqn:Eyx; rewrite ?Eyz.
      * apply Qle_bool_iff in Eyx, Exz. apply Qle_bool_false in Eyz. exfalso.
        apply (Qlt_irrefl z). apply Qlt_le_trans with y; [exact Eyz|].
        apply Qle_trans with x; assumption.
      * apply Forall2_Qeq_refl.
    + constructor; [reflexivity | exact IH].
Qed.

Lemma sort_asc_Permutation (a b : list Q) :
  Permutation a b -> Forall2 Qeq (Agent.sort_asc a) (Agent.sort_asc b).
Proof.
  induction 1 as [|x a b P IH|x y a|a b c P1 IH1 P2 IH2]; simpl.
  - constructor.
  - apply insert_asc_Qeq. exact IH.
  - apply insert_asc_swap.
  - apply Forall2_Qeq_trans with (Agent.sort_asc b); assumption.
Qed.

(** Any ascending arrangement of the values is, number by number, the one
    the quantile is read on. *)
Lemma ascending_is_sort_asc (a v : list Q) :
  Permutation a v -> Sorted Qle a -> Forall2 Qeq a (Agent.sort_asc v).
Proof.
  intros P S. rewrite <- (sort_asc_fixed a S). apply sort_asc_Permutation. exact P.
Qed.

Lemma Qceiling_not_whole (h : Q) :
  ~ (h == inject_Z (Qfloor h))%Q -> Qceiling h = (Qfloor h + 1)%Z.
Proof.
  intros N.
  assert (L : (inject_Z (Qfloor h) < h)%Q).
  { destruct (Qlt_le_dec (inject_Z (Qfloor h)) h) as [L|L]; [exact L|].
    exfalso. apply N. apply Qle_antisym; [exact L | apply Qfloor_le]. }
  assert (C1 : (Qfloor h < Qceiling h)%Z).
  { rewrite Zlt_Qlt. apply Qlt_le_trans with h; [exact L | apply Qle_ceiling]. }
  assert (C2 : (Qceiling h < Qfloor h + 2)%Z).
  { assert (C : (Qceiling h - 1 < Qfloor h + 1)%Z); [|lia].
    rewrite Zlt_Qlt. apply Qlt_trans with h; [apply Qceiling_lt | apply Qlt_floor]. }
  lia.
Qed.

(** The percentile of the code is the linear-interpolation quantile read
    on any ascending arrangement of the values. *)
Lemma quantile_is_linear_interpolation (v a : list Q) (p : Q) :
  v <> [] -> (0 <= p)%Q -> (p <= 1)%Q ->
  Permutation a v -> Sorted Qle a ->
  (Agent.quantile v p == linear_interpolation a p)%Q.
Proof.
  intros Hv P0 P1 P S.
  pose proof (ascending_is_sort_asc a v P S) as F.
  assert (La : length a = length v) by (apply Permutation_length; exact P).
  assert (Lb : length (Agent.sort_asc v) = length v)
    by (symmetry; apply Permutation_length; apply sort_asc_perm).
  assert (Ln : (1 <= length v)%nat) by (destruct v; [congruence | simpl; lia]).
  unfold Agent.quantile, linear_interpolation. rewrite La, Lb. cbv zeta.
  replace (Z.of_nat (length v) - 1)%Z with (Z.of_nat (length v - 1)) by lia.
  set (n1 := (length v - 1)%nat).
  set (h := (inject_Z (Z.of_nat n1) * p)%Q).
  assert (H0 : (0 <= h)%Q).
  { unfold h. apply Qmult_le_0_compat; [|exact P0].
    change 0%Q with (inject_Z 0). rewrite <- Zle_Qle. lia. }
  assert (H1 : (h <= inject_Z (Z.of_nat n1))%Q).
  { unfold h. rewrite <- (Qmult_1_r (inject_Z (Z.of_nat n1))) at 2.
    rewrite !(Qmult_comm (inject_Z (Z.of_nat n1))).
    apply Qmult_le_compat_r; [exact P1|].
    change 0%Q with (inject_Z 0). rewrite <- Zle_Qle. lia. }
  assert (F0 : (0 <= Qfloor h)%Z)
    by (change 0%Z with (Qfloor 0); apply Qfloor_resp_le; exact H0).
  pose proof (Forall2_Qeq_nth _ _ (Z.to_nat (Qfloor h)) F) as Elo.
  destruct (Qeq_dec h (inject_Z (Qfloor h))) as [W|W].
  - assert (Z0 : (h - inject_Z (Qfloor h) == 0)%Q) by (rewrite <- W; ring).
    rewrite Z0, !Qmult_0_r, !Qplus_0_r. symmetry. exact Elo.
  - rewrite (Qceiling_not_whole h W).
    assert (L : (inject_Z (Qfloor h) < h)%Q).
    { destruct (Qlt_le_dec (inject_Z (Qfloor h)) h) as [L|L]; [exact L|].
      exfalso. apply W. apply Qle_antisym; [exact L | apply Qfloor_le]. }
    assert (B : (Qfloor h < Z.of_nat n1)%Z).
    { rewrite Zlt_Qlt. apply Qlt_le_trans with h; assumption. }
    replace (Z.to_nat (Qfloor h + 1)) with (Z.to_nat (Qfloor h) + 1)%nat by lia.
    replace (Nat.min (Z.to_nat (Qfloor h) + 1) n1) with (Z.to_nat (Qfloor h) + 1)%nat
      by lia.
    pose proof (Forall2_Qeq_nth _ _ (Z.to_nat (Qfloor h) + 1) F) as Ehi.
    rewrite <- Elo, <- Ehi. reflexivity.
Qed.

(** C7. A record is flagged exactly when its revenue, read as the function
    reads it (a missing revenue counts as 0), is at least the percentile
    returned. That percentile is the linear-interpolation quantile 0.9 of
    the revenues of all the records: whatever the order of the records,
    it is the value read, at the position [0.9 * (n - 1)], on any
    ascending arrangement of these revenues. On an empty frame the
    percentile is 0 and nothing is flagged. Of ten records with the
    revenues 10, 20, ..., 100, in any order, the percentile is 91 and the
    record of revenue 100 alone is flagged. *)
Theorem outlier_flag_is_p90 {A} (df : list A) (col : A -> float) :
  map Agent.registro (fst (Agent.compute_percentile_flag df col (9 # 10))) = df
  /\ (forall f, In f (fst (Agent.compute_percentile_flag df col (9 # 10))) ->
        (Agent.AltoValor f = 1%Z <->
         (snd (Agent.compute_percentile_flag df col (9 # 10))
          <= fillna 0 (col (Agent.registro f)))%Q)
        /\ (Agent.AltoValor f = 1%Z \/ Agent.AltoValor f = 0%Z))
  /\ (df <> [] ->
      forall a, Permutation a (map (fun r => fillna 0 (col r)) df) -> Sorted Qle a ->
        (snd (Agent.compute_percentile_flag df col (9 # 10))
         == linear_interpolation a (9 # 10))%Q)
  /\ Agent.compute_percentile_flag (@nil A) col (9 # 10) = ([], 0%Q)
  /\ (Permutation (map (fun r => fillna 0 (col r)) df)
        (map inject_Z [10; 20; 30; 40; 50; 60; 70; 80; 90; 100]%Z) ->
      (snd (Agent.compute_percentile_flag df col (9 # 10)) == 91)%Q
      /\ (forall f, In f (fst (Agent.compute_percentile_flag df col (9 # 10))) ->
            (Agent.AltoValor f = 1%Z <-> (fillna 0 (col (Agent.registro f)) == 100)%Q)))
  /\ (snd (Agent.compute_percentile_flag ten_revenues (fun x => x) (9 # 10)) == 91)%Q
  /\ map Agent.AltoValor
       (fst (Agent.compute_percentile_flag ten_revenues (fun x => x) (9 # 10)))
     = [0; 0; 0; 0; 0; 0; 0; 0; 0; 1]%Z.
Proof.
  assert (Reg : map Agent.registro
                  (fst (Agent.compute_percentile_flag df col (9 # 10))) = df).
  { unfold Agent.compute_percentile_flag. simpl. rewrite map_map. simpl.
    apply map_id. }
  assert (Flag : forall f,
            In f (fst (Agent.compute_percentile_flag df col (9 # 10))) ->
            (Agent.AltoValor f = 1%Z <->
             (snd (Agent.compute_percentile_flag df col (9 # 10))
              <= fillna 0 (col (Agent.registro f)))%Q)
            /\ (Agent.AltoValor f = 1%Z \/ Agent.AltoValor f = 0%Z)).
  { intros f Hf. unfold Agent.compute_percentile_flag in *. simpl in *.
    apply in_map_iff in Hf. destruct Hf as [r [<- _]]. simpl.
    match goal with |- context [Qle_bool ?a ?b] =>
      pose proof (Qle_bool_iff a b) as I; destruct (Qle_bool a b) end.
    - split; [|left; reflexivity]. split; [intros _; apply I; reflexivity | reflexivity].
    - split; [|right; reflexivity]. split; [discriminate|].
      intros H. apply I in H. discriminate. }
  assert (Lin : df <> [] ->
            forall a, Permutation a (map (fun r => fillna 0 (col r)) df) ->
              Sorted Qle a ->
              (snd (Agent.compute_percentile_flag df col (9 # 10))
               == linear_interpolation a (9 # 10))%Q).
  { intros Hne a P S.
    assert (E : snd (Agent.compute_percentile_flag df col (9 # 10))
                = Agent.quantile (map (fun r => fillna 0 (col r)) df) (9 # 10)).
    { unfold Agent.compute_percentile_flag. simpl.
      destruct df; [congruence | reflexivity]. }
    rewrite E. apply quantile_is_linear_interpolation; try assumption.
    - destruct df; [congruence | discriminate].
    - discriminate.
    - discriminate. }
  split; [exact Reg|]. split; [exact Flag|]. split; [exact Lin|].
  split; [reflexivity|].
  split.
  { intros P.
    assert (Hne : df <> []).
    { intros ->. apply Permutation_length in P. discriminate P. }
    assert (P91 : (snd (Agent.compute_percentile_flag df col (9 # 10)) == 91)%Q).
    { rewrite (Lin Hne (map inject_Z [10; 20; 30; 40; 50; 60; 70; 80; 90; 100]%Z)).
      - vm_compute. reflexivity.
      - symmetry. exact P.
      - repeat constructor; discriminate. }
    split; [exact P91|].
    intros f Hf. destruct (Flag f Hf) as [I _]. rewrite I, P91.
    assert (V : In (fillna 0 (col (Agent.registro f)))
                  (map inject_Z [10; 20; 30; 40; 50; 60; 70; 80; 90; 100]%Z)).
    { apply (Permutation_in _ P). apply in_map_iff.
      exists (Agent.registro f). split; [reflexivity|].
      rewrite <- Reg. apply in_map. exact Hf. }
    simpl in V.
    repeat (destruct V as [<- | V];
            [split; intros H; unfold Qle, Qeq in *; simpl in *; lia|]).
    contradiction. }
  split; [vm_compute; reflexivity | vm_compute; reflexivity].
Qed.

(** ** Rankings *)

Lemma ltb_lt (a b : string) : String.ltb a b = true <-> String_as_OT.lt a b.
Proof.
  unfold String.ltb. rewrite <- String_as_OT.cmp_lt. unfold String_as_OT.cmp.
  destruct (String.compare a b); split; congruence.
Qed.

Lemma ltb_trans (a b c : string) :
  String.ltb a b = true -> String.ltb b c = true -> String.ltb a c = true.
Proof. rewrite !ltb_lt. apply String_as_OT.lt_trans. Qed.

Lemma ltb_irrefl (a : string) : String.ltb a a = false.
Proof.
  destruct (String.ltb a a) eqn:E; [|reflexivity].
  apply ltb_lt in E. exfalso. exact (String_as_OT.lt_not_eq _ _ E eq_refl).
Qed.

Lemma ltb_total (a b : string) :
  String.eqb a b = false -> String.ltb a b = false -> String.ltb b a = true.
Proof.
  intros Hne Hlt. apply ltb_lt.
  destruct (String_as_OT.compare a b) as [L|E|G].
  - apply ltb_lt in L. congruence.
  - unfold String_as_OT.eq in E. apply String.eqb_neq in Hne. contradiction.
  - exact G.
Qed.

Lemma lookup_total_above (k : string) (g : list (string * Q)) :
  Forall (fun e => String.ltb k (fst e) = true) g -> lookup_total k g = None.
Proof.
  unfold lookup_total. induction 1 as [|e g He Hg IH]; simpl; [reflexivity|].
  destruct (String.eqb (fst e) k) eqn:E.
  - apply String.eqb_eq in E. subst. rewrite ltb_irrefl in He. discriminate.
  - exact IH.
Qed.

Lemma group_add_keys (k : string) (x : Q) (g : list (string * Q)) (e : string * Q) :
  In e (Agent.group_add k x g) -> fst e = k \/ exists e', In e' g /\ fst e' = fst e.
Proof.
  induction g as [|[k' s] g IH]; simpl.
  - intros [<- | []]. left. reflexivity.
  - destruct (String.eqb k k') eqn:E.
    + apply String.eqb_eq in E. subst. intros [<- | H]; [left; reflexivity|].
      right. exists e. auto.
    + destruct (String.ltb k k').
      * intros [<- | [<- | H]]; [left; reflexivity | right | right].
        -- exists (k', s). auto.
        -- exists e. auto.
      * intros [<- | H].
        -- right. exists (k', s). auto.
        -- destruct (IH H) as [? | [e' [? ?]]]; [left; assumption|].
           right. exists e'. auto.
Qed.

Lemma group_add_sorted (k : string) (x : Q) (g : list (string * Q)) :
  StronglySorted key_lt g -> StronglySorted key_lt (Agent.group_add k x g).
Proof.
  induction g as [|[k' s] g IH]; simpl; intros S.
  - repeat constructor.
  - inversion S as [|? ? S' F]; subst.
    destruct (String.eqb k k') eqn:E.
    + constructor; [exact S'|]. exact F.
    + destruct (String.ltb k k') eqn:L.
      * constructor; [exact S|]. constructor; [exact L|].
        eapply Forall_impl; [|exact F]. intros e He. unfold key_lt in *. simpl in *.
        eapply ltb_trans; eassumption.
      * constructor; [apply IH; exact S'|].
        apply Forall_forall. intros e He.
        destruct (group_add_keys _ _ _ _ He) as [Hk | [e' [Hin Hk]]].
        -- unfold key_lt. simpl. rewrite Hk. apply ltb_total; [exact E | exact L].
        -- rewrite Forall_forall in F. specialize (F e' Hin).
           unfold key_lt in *. rewrite <- Hk. exact F.
Qed.

Lemma group_add_lookup (k : string) (x : Q) (g : list (string * Q)) (k0 : string) :
  StronglySorted key_lt g ->
  lookup_total k0 (Agent.group_add k x g)
  = if String.eqb k0 k
    then Some (match lookup_total k g with Some s => (s + x)%Q | None => x end)
    else lookup_total k0 g.
Proof.
  unfold lookup_total.
  induction g as [|[k' s] g IH]; simpl; intros S.
  - rewrite (String.eqb_sym k k0). destruct (String.eqb k0 k); reflexivity.
  - inversion S as [|? ? S' F]; subst.
    destruct (String.eqb k k') eqn:E.
    + apply String.eqb_eq in E. subst k'. simpl.
      rewrite String.eqb_refl. simpl.
      rewrite (String.eqb_sym k k0). destruct (String.eqb k0 k); reflexivity.
    + destruct (String.ltb k k') eqn:L.
      * simpl. rewrite (String.eqb_sym k k0).
        destruct (String.eqb k0 k) eqn:E0; simpl.
        -- rewrite (String.eqb_sym k' k), E.
           assert (N : lookup_total k g = None).
           { apply lookup_total_above. eapply Forall_impl; [|exact F].
             intros e He. unfold key_lt in He. simpl in He.
             eapply ltb_trans; eassumption. }
           unfold lookup_total in N. rewrite N. reflexivity.
        -- reflexivity.
      * simpl. rewrite (String.eqb_sym k' k), E.
        destruct (String.eqb k' k0) eqn:E1; simpl.
        -- apply String.eqb_eq in E1. subst k0.
           rewrite (String.eqb_sym k' k), E. reflexivity.
        -- apply IH. exact S'.
Qed.

Lemma sum_list_snoc (l : list Q) (x : Q) :
  sum_list (l ++ [x]) = match l with [] => x | _ => (sum_list l + x)%Q end.
Proof.
  destruct l as [|a l]; simpl; [reflexivity|].
  rewrite fold_left_app. reflexivity.
Qed.

Section Groupby.
Context {A : Type} (key : A -> string) (val : A -> float).

Lemma groupby_sum_snoc (df : list A) (r : A) :
  Agent.groupby_sum key val (df ++ [r])
  = Agent.group_add (key r) (fillna 0 (val r)) (Agent.groupby_sum key val df).
Proof. unfold Agent.groupby_sum. rewrite fold_left_app. reflexivity. Qed.

Lemma lines_of_snoc (k : string) (df : list A) (r : A) :
  AgentRows.lines_of key k (df ++ [r])
  = AgentRows.lines_of key k df ++ (if String.eqb (key r) k then [r] else []).
Proof. unfold AgentRows.lines_of. rewrite filter_app. reflexivity. Qed.

(** The table of [groupby]: keys in strictly ascending order, and for
    every key of the frame the sum of its lines. *)
Lemma groupby_sum_spec (df : list A) :
  StronglySorted key_lt (Agent.groupby_sum key val df)
  /\ forall k, lookup_total k (Agent.groupby_sum key val df)
               = match AgentRows.lines_of key k df with
                 | [] => None
                 | _ => Some (AgentRows.total key val k df)
                 end.
Proof.
  induction df as [|r df [S L]] using rev_ind.
  - split; [constructor | reflexivity].
  - rewrite groupby_sum_snoc. split; [apply group_add_sorted; exact S|].
    intros k. rewrite group_add_lookup by exact S.
    unfold AgentRows.total. rewrite lines_of_snoc.
    rewrite (String.eqb_sym k (key r)).
    destruct (String.eqb (key r) k) eqn:E.
    + apply String.eqb_eq in E. subst k. rewrite L.
      rewrite map_app. simpl. rewrite sum_list_snoc.
      unfold AgentRows.total.
      destruct (AgentRows.lines_of key (key r) df) as [|a l]; reflexivity.
    + rewrite app_nil_r. rewrite L. reflexivity.
Qed.

End Groupby.

Lemma lookup_total_In (k : string) (t : Q) (g : list (string * Q)) :
  StronglySorted key_lt g -> In (k, t) g -> lookup_total k g = Some t.
Proof.
  unfold lookup_total. induction g as [|[k' s] g IH]; simpl; intros S H; [contradiction|].
  inversion S as [|? ? S' F]; subst.
  destruct H as [H | H].
  - inversion H; subst. rewrite String.eqb_refl. reflexivity.
  - destruct (String.eqb k' k) eqn:E.
    + apply String.eqb_eq in E. subst k'. rewrite Forall_forall in F.
      specialize (F _ H). unfold key_lt in F. simpl in F.
      rewrite ltb_irrefl in F. discriminate.
    + apply IH; assumption.
Qed.

Lemma In_lookup_total (k : string) (t : Q) (g : list (string * Q)) :
  lookup_total k g = Some t -> In (k, t) g.
Proof.
  unfold lookup_total. destruct (find _ g) as [[k' s]|] eqn:E; simpl; [|discriminate].
  intros H. inversion H; subst. apply find_some in E. destruct E as [Hin Hk].
  simpl in Hk. apply String.eqb_eq in Hk. subst. exact Hin.
Qed.

Lemma sorted_keys_NoDup (g : list (string * Q)) :
  StronglySorted key_lt g -> NoDup (map fst g).
Proof.
  induction 1 as [|e g S IH F]; simpl; constructor; [|exact IH].
  intros Hin. apply in_map_iff in Hin. destruct Hin as [e' [Hk Hin]].
  rewrite Forall_forall in F. specialize (F _ Hin). unfold key_lt in F.
  rewrite Hk, ltb_irrefl in F. discriminate.
Qed.

Lemma strongly_sorted_app {A} (R : A -> A -> Prop) (l1 l2 : list A) :
  StronglySorted R (l1 ++ l2) ->
  StronglySorted R l1 /\ StronglySorted R l2
  /\ forall a b, In a l1 -> In b l2 -> R a b.
Proof.
  induction l1 as [|x l1 IH]; simpl; intros S.
  - split; [constructor|]. split; [exact S|]. intros a b [].
  - inversion S as [|? ? S' F]; subst. destruct (IH S') as [S1 [S2 H]].
    rewrite Forall_app in F. destruct F as [F1 F2].
    split; [constructor; assumption|]. split; [exact S2|].
    intros a b [<- | Ha] Hb.
    + rewrite Forall_forall in F2. apply F2. exact Hb.
    + apply H; assumption.
Qed.

Lemma desc_trans : Relations_1.Transitive Agent.desc.
Proof. intros a b c H1 H2. unfold Agent.desc in *. eapply Qle_trans; eassumption. Qed.

Lemma insert_desc_perm (x : string * Q) (l : list (string * Q)) :
  Permutation (x :: l) (Agent.insert_desc x l).
Proof.
  induction l as [|y l IH]; simpl; [reflexivity|].
  destruct (Qltb (snd x) (snd y)); [|reflexivity].
  rewrite perm_swap. constructor. exact IH.
Qed.

Lemma stable_sort_desc_perm (l : list (string * Q)) :
  Permutation l (Agent.stable_sort_desc l).
Proof.
  induction l as [|x l IH]; simpl; [constructor|].
  rewrite <- insert_desc_perm. constructor. exact IH.
Qed.

Lemma Qltb_true (x y : Q) : Qltb x y = true <-> (x < y)%Q.
Proof.
  unfold Qltb. rewrite negb_true_iff. split.
  - intros E. destruct (Qlt_le_dec x y) as [L|L]; [exact L|].
    apply Qle_bool_iff in L. congruence.
  - intros L. destruct (Qle_bool y x) eqn:E; [|reflexivity].
    apply Qle_bool_iff in E. exfalso. exact (Qlt_not_le _ _ L E).
Qed.

Lemma Qltb_false (x y : Q) : Qltb x y = false <-> (y <= x)%Q.
Proof.
  unfold Qltb. rewrite negb_false_iff. apply Qle_bool_iff.
Qed.

Lemma insert_desc_sorted (x : string * Q) (l : list (string * Q)) :
  Sorted Agent.desc l -> Sorted Agent.desc (Agent.insert_desc x l).
Proof.
  induction l as [|y l IH]; simpl; intros S.
  - repeat constructor.
  - destruct (Qltb (snd x) (snd y)) eqn:E.
    + inversion S as [|? ? S' Hd]; subst.
      constructor; [apply IH; exact S'|].
      apply Qltb_true in E.
      destruct l as [|z l]; simpl.
      * constructor. unfold Agent.desc. apply Qlt_le_weak. exact E.
      * destruct (Qltb (snd x) (snd z)); constructor.
        -- inversion Hd; subst. assumption.
        -- unfold Agent.desc. apply Qlt_le_weak. exact E.
    + constructor; [exact S|]. constructor. unfold Agent.desc.
      apply Qltb_false. exact E.
Qed.

Lemma stable_sort_desc_sorted (l : list (string * Q)) :
  Sorted Agent.desc (Agent.stable_sort_desc l).
Proof.
  induction l as [|x l IH]; simpl; [constructor|].
  apply insert_desc_sorted. exact IH.
Qed.

(** The stable sort is one of the sorts [sort_values] may be. *)
#[export] Instance stable_sort : Agent.SortValues := {|
  Agent.sort_values_desc := Agent.stable_sort_desc;
  Agent.sort_values_perm := stable_sort_desc_perm;
  Agent.sort_values_sorted := stable_sort_desc_sorted
|}.

Lemma insert_desc_ties (x : string * Q) (l : list (string * Q)) :
  StronglySorted desc_then_key l -> Forall (key_lt x) l ->
  StronglySorted desc_then_key (Agent.insert_desc x l).
Proof.
  induction l as [|y l IH]; simpl; intros S F.
  - repeat constructor.
  - inversion S as [|? ? S' Fy]; subst. inversion F as [|? ? Hxy Fx]; subst.
    destruct (Qltb (snd x) (snd y)) eqn:E.
    + constructor; [apply IH; assumption|].
      apply Forall_forall. intros e He.
      apply (Permutation_in _ (Permutation_sym (insert_desc_perm x l))) in He.
      destruct He as [<- | He].
      * left. apply Qltb_true. exact E.
      * rewrite Forall_forall in Fy. apply Fy. exact He.
    + apply Qltb_false in E. constructor; [exact S|].
      assert (Hy : desc_then_key x y).
      { apply Qle_lteq in E. destruct E as [E | E]; [left; exact E|].
        right. split; [symmetry; exact E | exact Hxy]. }
      constructor; [exact Hy|].
      apply Forall_forall. intros z Hz.
      rewrite Forall_forall in Fy, Fx. specialize (Fy z Hz). specialize (Fx z Hz).
      assert (Hzx : (snd z <= snd x)%Q).
      { destruct Fy as [L | [Q1 _]].
        - eapply Qle_trans; [apply Qlt_le_weak; exact L | exact E].
        - rewrite <- Q1. exact E. }
      apply Qle_lteq in Hzx. destruct Hzx as [L | Q2]; [left; exact L|].
      right. split; [symmetry; exact Q2 | exact Fx].
Qed.

(** With the stable sort, lines of equal total stay in the order of
    [groupby]: ascending by key. *)
Lemma stable_sort_desc_ties (g : list (string * Q)) :
  StronglySorted key_lt g -> StronglySorted desc_then_key (Agent.stable_sort_desc g).
Proof.
  induction 1 as [|x g S IH F]; simpl; [constructor|].
  apply insert_desc_ties; [exact IH|].
  apply Forall_forall. intros e He.
  apply (Permutation_in _ (Permutation_sym (stable_sort_desc_perm g))) in He.
  rewrite Forall_forall in F. apply F. exact He.
Qed.

Lemma strongly_sorted_firstn {A} (R : A -> A -> Prop) (n : nat) (l : list A) :
  StronglySorted R l -> StronglySorted R (firstn n l).
Proof.
  intros S. rewrite <- (firstn_skipn n l) in S.
  apply strongly_sorted_app in S. tauto.
Qed.

Section Ranking.
Context {sv : Agent.SortValues} {A : Type} (key : A -> string) (val : A -> float).

Lemma ranking_top_20 (df : list A) :
  top_20_by_total key val df (Agent.ranking key val df).
Proof.
  unfold Agent.ranking.
  destruct (groupby_sum_spec key val df) as [GS GL].
  set (g := Agent.groupby_sum key val df) in *.
  pose proof (Agent.sort_values_perm g) as P.
  pose proof (Sorted_StronglySorted desc_trans (Agent.sort_values_sorted g)) as S.
  set (s := Agent.sort_values_desc g) in *.
  assert (Split : StronglySorted Agent.desc (firstn 20 s ++ skipn 20 s))
    by (rewrite firstn_skipn; exact S).
  apply strongly_sorted_app in Split. destruct Split as [S1 [_ Cross]].
  assert (InG : forall k t, In (k, t) s ->
            AgentRows.lines_of key k df <> [] /\ t = AgentRows.total key val k df).
  { intros k t H. apply (Permutation_in _ (Permutation_sym P)) in H.
    apply (lookup_total_In _ _ _ GS) in H. rewrite GL in H.
    destruct (AgentRows.lines_of key k df); [discriminate|].
    split; [discriminate | congruence]. }
  repeat split.
  - apply firstn_le_length.
  - exact S1.
  - rewrite <- firstn_map. apply (NoDup_app_remove_r _ (skipn 20 (map fst s))).
    rewrite firstn_skipn. apply (Permutation_NoDup (Permutation_map fst P)).
    apply sorted_keys_NoDup. exact GS.
  - apply (InG k t). rewrite <- (firstn_skipn 20 s). apply in_or_app. left.
    exact H.
  - apply (InG k t). rewrite <- (firstn_skipn 20 s). apply in_or_app. left.
    exact H.
  - intros k Hk.
    assert (Hin : In (k, AgentRows.total key val k df) s).
    { apply (Permutation_in _ P). apply In_lookup_total. rewrite GL.
      destruct (AgentRows.lines_of key k df); [congruence | reflexivity]. }
    rewrite <- (firstn_skipn 20 s) in Hin. apply in_app_or in Hin.
    destruct Hin as [Hin | Hin]; [left; exact Hin|]. right. split.
    + rewrite length_firstn. apply Nat.min_l.
      destruct (Nat.le_gt_cases 20 (length s)) as [L|L]; [exact L|].
      rewrite skipn_all2 in Hin by lia. contradiction.
    + intros e He. exact (Cross e _ He Hin).
Qed.

End Ranking.

(** C8, as amended. Each ranking holds at most 20 lines, one per provider
    (procedure), each with the sum of the revenues of its records, in
    descending order of that sum, and a provider left out has a sum no
    larger than any line of a full ranking. Among equal sums the order is
    the one the sort leaves: [groupby] has put the lines in ascending key
    order before the sort, and a stable sort keeps them so. *)
Theorem rankings_are_top_20_descending {sv : Agent.SortValues} {A : Type}
    (row_of : A -> Agent.Row) (df : list A) :
  top_20_by_total (fun r => Agent.Operadora (row_of r))
    (fun r => Agent.Receita (row_of r)) df
    (fst (Agent.make_pivots_and_rankings row_of df))
  /\ top_20_by_total (fun r => Agent.Procedimento (row_of r))
       (fun r => Agent.Receita (row_of r)) df
       (snd (Agent.make_pivots_and_rankings row_of df))
  /\ StronglySorted desc_then_key
       (fst (Agent.make_pivots_and_rankings (sv := stable_sort) row_of df))
  /\ StronglySorted desc_then_key
       (snd (Agent.make_pivots_and_rankings (sv := stable_sort) row_of df)).
Proof.
  unfold Agent.make_pivots_and_rankings. simpl.
  split; [apply ranking_top_20|]. split; [apply ranking_top_20|].
  split; unfold Agent.ranking; apply strongly_sorted_firstn; simpl;
    apply stable_sort_desc_ties; apply groupby_sum_spec.
Qed.

(** C8, the claim as stated fails: two providers of equal total, met in
    the order OpB, OpA, are ranked OpA, OpB; and whatever the sort, the
    ranking cannot follow the encounter order on every frame, because it
    is computed from the table of [groupby], which has forgotten it. *)
Lemma ties_are_not_in_encounter_order :
  fst (Agent.make_pivots_and_rankings (sv := stable_sort) (fun r => r)
         [ex_oper "OpB" 10; ex_oper "OpA" 10])
  = [("OpA", 10%Q); ("OpB", 10%Q)]
  /\ ~ in_encounter_order Agent.Operadora [ex_oper "OpB" 10; ex_oper "OpA" 10]
         (fst (Agent.make_pivots_and_rankings (sv := stable_sort) (fun r => r)
                 [ex_oper "OpB" 10; ex_oper "OpA" 10]))
  /\ ~ (exists sv : Agent.SortValues, forall df : list Agent.Row,
          in_encounter_order Agent.Operadora df
            (fst (Agent.make_pivots_and_rankings (sv := sv) (fun r => r) df))).
Proof.
  split; [reflexivity|]. split.
  - intros H. specialize (H 0%nat 1%nat ("OpA", 10%Q) ("OpB", 10%Q) eq_refl eq_refl).
    simpl in H. specialize (H (le_n 1) (Qeq_refl _)). lia.
  - intros [sv H].
    pose proof (H [ex_oper "OpB" 10; ex_oper "OpA" 10]) as H1.
    pose proof (H [ex_oper "OpA" 10; ex_oper "OpB" 10]) as H2.
    unfold Agent.make_pivots_and_rankings, Agent.ranking in H1, H2. simpl fst in H1, H2.
    change (Agent.groupby_sum (fun r => Agent.Operadora r) (fun r => Agent.Receita r)
              [ex_oper "OpB" 10; ex_oper "OpA" 10])
      with [("OpA", 10%Q); ("OpB", 10%Q)] in H1.
    change (Agent.groupby_sum (fun r => Agent.Operadora r) (fun r => Agent.Receita r)
              [ex_oper "OpA" 10; ex_oper "OpB" 10])
      with [("OpA", 10%Q); ("OpB", 10%Q)] in H2.
    pose proof (Agent.sort_values_perm [("OpA", 10%Q); ("OpB", 10%Q)]) as P.
    apply Permutation_length_2_inv in P. destruct P as [P | P]; rewrite P in H1, H2.
    + specialize (H1 0%nat 1%nat ("OpA", 10%Q) ("OpB", 10%Q) eq_refl eq_refl
                    (le_n 1) (Qeq_refl _)). simpl in H1. lia.
    + specialize (H2 0%nat 1%nat ("OpB", 10%Q) ("OpA", 10%Q) eq_refl eq_refl
                    (le_n 1) (Qeq_refl _)). simpl in H2. lia.
Qed.

(** ** Persistence: what a session leaves behind *)

Lemma keeps_bind {A B} (m : Sql.M A) (k : A -> Sql.M B) :
  keeps_durable m -> (forall a, keeps_durable (k a)) -> keeps_durable (Sql.bind m k).
Proof.
  intros Hm Hk w. unfold Sql.bind. specialize (Hm w).
  destruct (m w) as [w' [a|e|msg]]; simpl in *; try exact Hm.
  rewrite Hk. exact Hm.
Qed.

Lemma keeps_ret {A} (a : A) : keeps_durable (Sql.ret a).
Proof. intros w. reflexivity. Qed.

Lemma keeps_run (f : Z -> list Sql.staged -> list Sql.line -> list Sql.line * option Sql.exception) :
  keeps_durable (Sql.run_statement f).
Proof.
  intros w. unfold Sql.run_statement.
  destruct (f (Sql.clock w) (Sql.tmp_at w) (Sql.pending w)) as [t [e|]]; reflexivity.
Qed.

Lemma keeps_INSERT_tmp_at (p : Sql.params) : keeps_durable (Sql.INSERT_tmp_at p).
Proof. intros w. unfold Sql.INSERT_tmp_at. destruct (Sql.bind_columns p); reflexivity. Qed.

Lemma keeps_INSERT_Atendimentos (srv : Sql.Server) (p : Sql.params) :
  keeps_durable (Sql.INSERT_Atendimentos srv p).
Proof.
  intros w. unfold Sql.INSERT_Atendimentos.
  destruct (Sql.bind_columns p); [reflexivity|].
  destruct (Sql.unique_natural_key srv && existsb (Sql.key_match s) (Sql.pending w));
    reflexivity.
Qed.

Lemma keeps_executemany {A} (stmt : A -> Sql.M unit) (rows : list A) :
  (forall r, keeps_durable (stmt r)) -> keeps_durable (Sql.executemany stmt rows).
Proof.
  intros H. induction rows as [|r rows IH]; simpl.
  - apply keeps_ret.
  - apply keeps_bind; [apply H | intros _; exact IH].
Qed.

Lemma keeps_EXEC (srv : Sql.Server) (name : string) : keeps_durable (Sql.EXEC srv name).
Proof.
  unfold Sql.EXEC. destruct (Sql.lookup name (Sql.procedures srv)).
  - apply keeps_run.
  - intros w. reflexivity.
Qed.

Create HintDb session.

#[local] Hint Resolve keeps_ret keeps_run keeps_INSERT_tmp_at keeps_INSERT_Atendimentos
  keeps_EXEC : session.

Lemma keeps_persist (srv : Sql.Server) (mode : string) (records : list Sql.params) :
  keeps_durable (SqlInserter.persist srv mode records).
Proof.
  unfold SqlInserter.persist, SqlInserter.persist_truncate_then_append,
    SqlInserter.persist_merge, SqlInserter.persist_append, SqlInserter.sp_exists,
    Sql.SELECT_procedure, Sql.MERGE_FALLBACK_SQL.
  destruct (String.eqb mode "truncate"); [|destruct (String.eqb mode "merge")].
  - apply keeps_bind; [intros w; reflexivity|]. intros _.
    apply keeps_bind; [apply keeps_executemany; auto with session|].
    intros _. apply keeps_ret.
  - apply keeps_bind; [intros w; reflexivity|]. intros _.
    apply keeps_bind; [apply keeps_executemany; auto with session|]. intros _.
    apply keeps_bind; [apply keeps_ret|]. intros b.
    apply keeps_bind; [destruct b; auto with session|]. intros _. apply keeps_ret.
  - apply keeps_bind; [apply keeps_executemany; auto with session|].
    intros _. apply keeps_ret.
Qed.

Lemma keeps_agent_statements (srv : Sql.Server) (rows : list Sql.params) :
  keeps_durable (agent_statements srv rows).
Proof.
  unfold agent_statements.
  apply keeps_bind; [intros w; reflexivity|]. intros _.
  apply keeps_bind; [apply keeps_executemany; auto with session|]. intros _.
  apply keeps_EXEC.
Qed.

(** [main] once it has records: one transaction around [persist]. *)
Lemma main_transaction {py : SqlInserter.Python} (srv : Sql.Server)
    (mode_arg : option string) (sql_cfg : option SqlConfig)
    (all_files : list (list SqlInserter.CsvRow)) (w : Sql.World) :
  sql_enable sql_cfg = true ->
  flat_map SqlInserter.records_of all_files <> [] ->
  SqlInserter.main srv mode_arg sql_cfg all_files w
  = match SqlInserter.persist srv (chosen_mode mode_arg sql_cfg)
            (flat_map SqlInserter.records_of all_files) (opened w) with
    | (w1, Sql.Return n) =>
        (Sql.emit (Sql.PrintOk (length (concat all_files))
                     (length (flat_map SqlInserter.records_of all_files)) n
                     (chosen_mode mode_arg sql_cfg)) (committed w1),
         Sql.Return tt)
    | (w1, Sql.Raise e) => (Sql.emit (Sql.PrintErro e) (rolled_back w1), Sql.Raise e)
    | (w1, Sql.SystemExit msg) => (w1, Sql.SystemExit msg)
    end.
Proof.
  intros En Rec. unfold SqlInserter.main. rewrite En. simpl.
  destruct all_files as [|f fs]; [exfalso; apply Rec; reflexivity|].
  fold (chosen_mode mode_arg sql_cfg).
  destruct (flat_map SqlInserter.records_of (f :: fs)) as [|p ps] eqn:R;
    [exfalso; apply Rec; reflexivity|].
  unfold Sql.bind at 1, Sql.connect, Sql.try_except, opened.
  unfold Sql.bind at 1.
  destruct (SqlInserter.persist srv (chosen_mode mode_arg sql_cfg) (p :: ps) _)
    as [w1 [n|e|msg]]; reflexivity.
Qed.

(** [persist_to_sql_merge] once it has rows: one transaction around its
    three statements. *)
Lemma persist_to_sql_merge_transaction (env : Agent.Env) (srv : Sql.Server)
    (df : list Agent.Row) (logger : bool) (w : Sql.World) :
  Agent.pyodbc env = true -> sql_enable (Agent.config_sql env) = true -> df <> [] ->
  Agent.persist_to_sql_merge env srv df logger w
  = match agent_statements srv (Agent.sql_rows df) (opened w) with
    | (w1, Sql.Return _) =>
        (fst (Agent.log logger (Sql.InfoPersisted (length (Agent.sql_rows df)))
                (committed w1)),
         Sql.Return (length (Agent.sql_rows df)))
    | (w1, Sql.Raise e) =>
        (fst (Agent.log logger (Sql.LogException e) (rolled_back w1)), Sql.Raise e)
    | (w1, Sql.SystemExit msg) => (w1, Sql.SystemExit msg)
    end.
Proof.
  intros Py En Ne. unfold Agent.persist_to_sql_merge. rewrite Py, En. cbn [negb].
  assert (R : exists p ps, Agent.sql_rows df = p :: ps)
    by (destruct df; [contradiction | simpl; eauto]).
  destruct R as [p [ps R]]. rewrite R. remember (p :: ps) as rows eqn:Rows.
  cbv beta iota. clear R. rewrite Rows at 1. rewrite <- Rows.
  unfold agent_statements, Sql.bind, Sql.connect, Sql.try_except, Sql.TMP_TABLE_SQL,
    Sql.commit, Sql.rollback, Sql.raise, Sql.ret, opened, committed, rolled_back,
    Agent.log, Sql.tell.
  destruct (Sql.executemany Sql.INSERT_tmp_at rows _) as [w1 [[]|e|msg]];
    try (destruct logger; reflexivity).
  destruct (Sql.EXEC srv "app.sp_UpsertAtendimentos" w1) as [w2 [[]|e|msg]];
    destruct logger; reflexivity.
Qed.

Lemma fluxo_atualizar_tudo_steps {pd : Agent.Pandas} {sv : Agent.SortValues}
    (env : Agent.Env) (srv : Sql.Server) (raw : list Agent.RawRow) (arquivos : nat)
    (dim : list Agent.DimCliente) (w : Sql.World) :
  Agent.fluxo_atualizar_tudo env srv raw arquivos dim w
  = match Agent.persist_to_sql_merge env srv (flow_rows env raw dim) true
            (flow_start w) with
    | (w1, Sql.Return n) =>
        (Sql.emit (Sql.Info "=== Atualização completa finalizada ===") w1,
         Sql.Return
           (Agent.mkworkbook (flow_frame env raw dim)
              (Agent.make_pivots_and_rankings
                 (fun r => Agent.base (Agent.registro r)) (flow_frame env raw dim))
              (Agent.set_persistidos_sql n (flow_meta env raw arquivos dim))))
    | (w1, Sql.Raise _) =>
        (Sql.emit (Sql.Info "=== Atualização completa finalizada ===") w1,
         Sql.Return
           (Agent.mkworkbook (flow_frame env raw dim)
              (Agent.make_pivots_and_rankings
                 (fun r => Agent.base (Agent.registro r)) (flow_frame env raw dim))
              (flow_meta env raw arquivos dim)))
    | (w1, Sql.SystemExit msg) => (w1, Sql.SystemExit msg)
    end.
Proof.
  unfold Agent.fluxo_atualizar_tudo, flow_rows, flow_frame, flow_meta, flow_start.
  unfold Agent.normalize_and_clean, Agent.remove_duplicates,
    Agent.compute_percentile_flag.
  cbv zeta. cbn [fst snd].
  unfold Sql.bind at 1. unfold Sql.tell at 1. cbv iota beta.
  unfold Sql.bind at 1. unfold Sql.try_except. unfold Sql.bind at 1.
  match goal with
  | |- context [Agent.persist_to_sql_merge env srv ?d true ?w0] =>
      destruct (Agent.persist_to_sql_merge env srv d true w0) as [w1 [n|e|msg]]
  end; reflexivity.
Qed.

Lemma output_bind {A B} (m : Sql.M A) (k : A -> Sql.M B) :
  keeps_output m -> (forall a, keeps_output (k a)) -> keeps_output (Sql.bind m k).
Proof.
  intros Hm Hk w. unfold Sql.bind. specialize (Hm w).
  destruct (m w) as [w' [a|e|msg]]; simpl in *; try exact Hm.
  rewrite Hk. exact Hm.
Qed.

Lemma output_executemany {A} (stmt : A -> Sql.M unit) (rows : list A) :
  (forall r, keeps_output (stmt r)) -> keeps_output (Sql.executemany stmt rows).
Proof.
  intros H. induction rows as [|r rows IH]; simpl.
  - intros w. reflexivity.
  - apply output_bind; [apply H | intros _; exact IH].
Qed.

Lemma output_run (f : Z -> list Sql.staged -> list Sql.line -> list Sql.line * option Sql.exception) :
  keeps_output (Sql.run_statement f).
Proof.
  intros w. unfold Sql.run_statement.
  destruct (f (Sql.clock w) (Sql.tmp_at w) (Sql.pending w)) as [t [e|]]; reflexivity.
Qed.

Lemma output_INSERT_tmp_at (p : Sql.params) : keeps_output (Sql.INSERT_tmp_at p).
Proof. intros w. unfold Sql.INSERT_tmp_at. destruct (Sql.bind_columns p); reflexivity. Qed.

Lemma output_INSERT_Atendimentos (srv : Sql.Server) (p : Sql.params) :
  keeps_output (Sql.INSERT_Atendimentos srv p).
Proof.
  intros w. unfold Sql.INSERT_Atendimentos.
  destruct (Sql.bind_columns p); [reflexivity|].
  destruct (Sql.unique_natural_key srv && existsb (Sql.key_match s) (Sql.pending w));
    reflexivity.
Qed.

Lemma output_EXEC (srv : Sql.Server) (name : string) : keeps_output (Sql.EXEC srv name).
Proof.
  unfold Sql.EXEC. destruct (Sql.lookup name (Sql.procedures srv)).
  - apply output_run.
  - intros w. reflexivity.
Qed.

(** The statements of [persist] print nothing. *)
Lemma output_persist (srv : Sql.Server) (mode : string) (records : list Sql.params) :
  keeps_output (SqlInserter.persist srv mode records).
Proof.
  unfold SqlInserter.persist, SqlInserter.persist_truncate_then_append,
    SqlInserter.persist_merge, SqlInserter.persist_append, SqlInserter.sp_exists,
    Sql.SELECT_procedure, Sql.MERGE_FALLBACK_SQL.
  destruct (String.eqb mode "truncate"); [|destruct (String.eqb mode "merge")].
  - apply output_bind; [intros w; reflexivity|]. intros _.
    apply output_bind;
      [apply output_executemany; apply output_INSERT_Atendimentos|].
    intros _ w. reflexivity.
  - apply output_bind; [intros w; reflexivity|]. intros _.
    apply output_bind; [apply output_executemany; apply output_INSERT_tmp_at|].
    intros _. apply output_bind; [intros w; reflexivity|]. intros b.
    apply output_bind; [destruct b; [apply output_EXEC | apply output_run]|].
    intros _ w. reflexivity.
  - apply output_bind;
      [apply output_executemany; apply output_INSERT_Atendimentos|].
    intros _ w. reflexivity.
Qed.

(** C2, as amended. When a statement of the transaction fails, in any load
    mode, nothing of the batch reaches the committed table (the open
    transaction is rolled back to it) and the call that persists raises the
    error: [main] of [sql_inserter.py] and [persist_to_sql_merge] of
    [agent.py] do so once, with no second attempt and no other mode. The
    full refresh does not pass the error on: [fluxo_atualizar_tudo] catches
    it, leaves [persistidos_sql] at 0 and returns normally. *)
Theorem failure_rolls_back_and_is_raised {py : SqlInserter.Python}
    {pd : Agent.Pandas} {sv : Agent.SortValues}
    (srv : Sql.Server) (w : Sql.World)
    (mode_arg : option string) (sql_cfg : option SqlConfig)
    (all_files : list (list SqlInserter.CsvRow)) (e1 : Sql.exception)
    (env : Agent.Env) (df : list Agent.Row) (logger : bool) (e2 : Sql.exception)
    (raw : list Agent.RawRow) (arquivos : nat) (dim : list Agent.DimCliente)
    (e3 : Sql.exception) :
  sql_enable sql_cfg = true ->
  flat_map SqlInserter.records_of all_files <> [] ->
  snd (SqlInserter.persist srv (chosen_mode mode_arg sql_cfg)
         (flat_map SqlInserter.records_of all_files) (opened w)) = Sql.Raise e1 ->
  Agent.pyodbc env = true ->
  sql_enable (Agent.config_sql env) = true ->
  df <> [] ->
  snd (agent_statements srv (Agent.sql_rows df) (opened w)) = Sql.Raise e2 ->
  flow_rows env raw dim <> [] ->
  snd (agent_statements srv (Agent.sql_rows (flow_rows env raw dim))
         (opened (flow_start w))) = Sql.Raise e3 ->
  (* sql_inserter.py *)
  (snd (SqlInserter.main srv mode_arg sql_cfg all_files w) = Sql.Raise e1
   /\ Sql.durable (fst (SqlInserter.main srv mode_arg sql_cfg all_files w))
      = Sql.durable w
   /\ Sql.pending (fst (SqlInserter.main srv mode_arg sql_cfg all_files w))
      = Sql.durable w
   /\ Sql.output (fst (SqlInserter.main srv mode_arg sql_cfg all_files w))
      = Sql.output w ++ [Sql.PrintErro e1])
  (* agent.py, the persistence call *)
  /\ (snd (Agent.persist_to_sql_merge env srv df logger w) = Sql.Raise e2
      /\ Sql.durable (fst (Agent.persist_to_sql_merge env srv df logger w))
         = Sql.durable w
      /\ Sql.pending (fst (Agent.persist_to_sql_merge env srv df logger w))
         = Sql.durable w)
  (* agent.py, the full refresh *)
  /\ (exists wb,
        snd (Agent.fluxo_atualizar_tudo env srv raw arquivos dim w) = Sql.Return wb
        /\ Agent.persistidos_sql (Agent.Auditoria wb) = 0%nat
        /\ Sql.durable (fst (Agent.fluxo_atualizar_tudo env srv raw arquivos dim w))
           = Sql.durable w).
Proof.
  intros En Rec F1 Py En2 Ne F2 Ne3 F3.
  split; [|split].
  - rewrite (main_transaction srv mode_arg sql_cfg all_files w En Rec).
    assert (K : Sql.durable (fst (SqlInserter.persist srv (chosen_mode mode_arg sql_cfg)
                  (flat_map SqlInserter.records_of all_files) (opened w)))
                = Sql.durable (opened w)) by apply keeps_persist.
    assert (O : Sql.output (fst (SqlInserter.persist srv (chosen_mode mode_arg sql_cfg)
                  (flat_map SqlInserter.records_of all_files) (opened w)))
                = Sql.output (opened w)) by apply output_persist.
    revert F1 K O. destruct (SqlInserter.persist _ _ _ _) as [w1 r]. simpl.
    intros -> K O. simpl. rewrite K, O. auto.
  - rewrite (persist_to_sql_merge_transaction env srv df logger w Py En2 Ne).
    assert (K : Sql.durable (fst (agent_statements srv (Agent.sql_rows df) (opened w)))
                = Sql.durable (opened w)) by apply keeps_agent_statements.
    revert F2 K.
    destruct (agent_statements srv (Agent.sql_rows df) (opened w)) as [w1 r]. simpl.
    intros -> K. destruct logger; simpl; rewrite K; auto.
  - rewrite fluxo_atualizar_tudo_steps.
    rewrite (persist_to_sql_merge_transaction env srv _ true (flow_start w) Py En2 Ne3).
    assert (K : Sql.durable (fst (agent_statements srv
                  (Agent.sql_rows (flow_rows env raw dim)) (opened (flow_start w))))
                = Sql.durable (opened (flow_start w))) by apply keeps_agent_statements.
    revert F3 K.
    destruct (agent_statements srv (Agent.sql_rows (flow_rows env raw dim))
                (opened (flow_start w))) as [w1 r]. simpl.
    intros -> K. simpl. eexists. split; [reflexivity|]. split; [reflexivity|]. exact K.
Qed.

Lemma failure_rolls_back_and_is_raised_witness :
  (snd (SqlInserter.main (py := Demo.python) ex_server None ex_sql_on
          [[ex_csv_long]] ex_world) = Sql.Raise Sql.StringTruncation
   /\ Sql.durable (fst (SqlInserter.main (py := Demo.python) ex_server None ex_sql_on
                          [[ex_csv_long]] ex_world)) = Sql.durable ex_world
   /\ Sql.pending (fst (SqlInserter.main (py := Demo.python) ex_server None ex_sql_on
                          [[ex_csv_long]] ex_world)) = Sql.durable ex_world
   /\ Sql.output (fst (SqlInserter.main (py := Demo.python) ex_server None ex_sql_on
                         [[ex_csv_long]] ex_world))
      = Sql.output ex_world ++ [Sql.PrintErro Sql.StringTruncation])
  /\ (snd (Agent.persist_to_sql_merge ex_env ex_server [ex_row_long] true ex_world)
      = Sql.Raise Sql.StringTruncation
      /\ Sql.durable (fst (Agent.persist_to_sql_merge ex_env ex_server [ex_row_long]
                             true ex_world)) = Sql.durable ex_world
      /\ Sql.pending (fst (Agent.persist_to_sql_merge ex_env ex_server [ex_row_long]
                             true ex_world)) = Sql.durable ex_world)
  /\ (exists wb,
        snd (Agent.fluxo_atualizar_tudo (pd := Demo.pandas) (sv := stable_sort)
               ex_env ex_server [ex_raw_long] 1 [] ex_world) = Sql.Return wb
        /\ Agent.persistidos_sql (Agent.Auditoria wb) = 0%nat
        /\ Sql.durable (fst (Agent.fluxo_atualizar_tudo (pd := Demo.pandas)
                               (sv := stable_sort) ex_env ex_server [ex_raw_long] 1 []
                               ex_world)) = Sql.durable ex_world).
Proof.
  apply (failure_rolls_back_and_is_raised (py := Demo.python) (pd := Demo.pandas)
           (sv := stable_sort) ex_server ex_world None ex_sql_on [[ex_csv_long]]
           Sql.StringTruncation ex_env [ex_row_long] true Sql.StringTruncation
           [ex_raw_long] 1 [] Sql.StringTruncation);
    solve [ reflexivity | vm_compute; discriminate ].
Defined.

(** C2, the claim as stated fails: a record that the staging table rejects
    makes [persist_to_sql_merge] raise, and the full refresh that called it
    returns normally all the same, so its caller sees no failure. *)
Lemma full_refresh_swallows_the_failure :
  snd (Agent.persist_to_sql_merge ex_env ex_server
         (flow_rows (pd := Demo.pandas) ex_env [ex_raw_long] []) true
         (flow_start ex_world))
  = Sql.Raise Sql.StringTruncation
  /\ (exists wb,
        snd (Agent.fluxo_atualizar_tudo (pd := Demo.pandas) (sv := stable_sort)
               ex_env ex_server [ex_raw_long] 1 [] ex_world) = Sql.Return wb)
  /\ ~ (exists e,
          snd (Agent.fluxo_atualizar_tudo (pd := Demo.pandas) (sv := stable_sort)
                 ex_env ex_server [ex_raw_long] 1 [] ex_world) = Sql.Raise e).
Proof.
  split; [vm_compute; reflexivity|]. split.
  - eexists. vm_compute. reflexivity.
  - intros [e H]. vm_compute in H. discriminate.
Qed.

(** ** Persistence switched off *)

(** C9, as amended. With the driver missing or [sql.enable] false, the
    persistence step of [agent.py] is a no-op: it logs a notice when it has
    a logger, returns 0 and leaves the session as it was, without raising.
    [sql_inserter.py] does not do so: with [sql.enable] false its [main]
    ends the program by [SystemExit] with a message, and without the driver
    the script stops at its [import]; in both cases nothing was sent to the
    server. *)
Theorem disabled_persistence_is_a_noop_in_agent {py : SqlInserter.Python}
    (env : Agent.Env) (srv : Sql.Server) (df : list Agent.Row) (w : Sql.World)
    (mode_arg : option string) (sql_cfg : option SqlConfig)
    (all_files : list (list SqlInserter.CsvRow)) :
  Agent.pyodbc env = false \/ sql_enable (Agent.config_sql env) = false ->
  sql_enable sql_cfg = false ->
  (exists notice,
     Agent.persist_to_sql_merge env srv df true w
     = (Sql.emit (Sql.Info notice) w, Sql.Return 0%nat))
  /\ Agent.persist_to_sql_merge env srv df false w = (w, Sql.Return 0%nat)
  /\ SqlInserter.main srv mode_arg sql_cfg all_files w
     = (w, Sql.SystemExit "sql.enable está falso no config.yaml")
  /\ SqlInserter.script false srv mode_arg sql_cfg all_files w
     = (w, Sql.Raise Sql.ModuleNotFound).
Proof.
  intros Off Off2. unfold Agent.persist_to_sql_merge, SqlInserter.main, SqlInserter.script.
  rewrite Off2. simpl. repeat split; try reflexivity.
  - destruct (Agent.pyodbc env); simpl.
    + destruct Off as [Off | Off]; [discriminate|]. rewrite Off. simpl.
      eexists. reflexivity.
    + eexists. reflexivity.
  - destruct (Agent.pyodbc env); simpl; [|reflexivity].
    destruct Off as [Off | Off]; [discriminate|]. rewrite Off. reflexivity.
Qed.

Lemma disabled_persistence_is_a_noop_in_agent_witness :
  Agent.persist_to_sql_merge
    (Agent.mkenv true (Agent.mkfilters None None [] []) ex_sql_off)
    ex_server [ex_row_long] false ex_world
  = (ex_world, Sql.Return 0%nat).
Proof.
  exact (proj1 (proj2 (disabled_persistence_is_a_noop_in_agent (py := Demo.python)
    (Agent.mkenv true (Agent.mkfilters None None [] []) ex_sql_off)
    ex_server [ex_row_long] ex_world None ex_sql_off [[ex_csv_long]]
    (or_intror eq_refl) eq_refl))).
Defined.

(** C9, the claim as stated fails for [sql_inserter.py]: with
    [sql.enable] false the program does not return, it exits with the
    message as its error. *)
Lemma sql_inserter_exits_when_disabled :
  SqlInserter.script (py := Demo.python) true ex_server None ex_sql_off
    [[ex_csv_long]] ex_world
  = (ex_world, Sql.SystemExit "sql.enable está falso no config.yaml")
  /\ snd (SqlInserter.script (py := Demo.python) true ex_server None ex_sql_off
            [[ex_csv_long]] ex_world) <> Sql.Return tt.
Proof. split; [reflexivity | discriminate]. Qed.

(** ** The merge statement *)

Lemma key_match_refl (s : Sql.staged) (l : option Z) :
  Sql.key_match s (Sql.mkline s l) = true.
Proof.
  unfold Sql.key_match. simpl. rewrite date_eqb_refl, !String.eqb_refl. reflexivity.
Qed.

Lemma key_match_merge_matched (now : Z) (stg : list Sql.staged) (s : Sql.staged)
    (t : Sql.line) :
  Sql.key_match s (Sql.merge_matched now stg t) = Sql.key_match s t.
Proof.
  unfold Sql.merge_matched. destruct (find _ stg); reflexivity.
Qed.

Lemma merge_update_cols (now : Z) (s : Sql.staged) (t : Sql.line) :
  Sql.key_match s t = true -> Sql.cols (Sql.merge_update now s t) = s.
Proof.
  unfold Sql.key_match, Sql.merge_update. simpl.
  rewrite !andb_true_iff, date_eqb_eq, !String.eqb_eq.
  intros [[-> ->] ->]. destruct s. reflexivity.
Qed.

Lemma cols_merge_matched (now now' : Z) (stg : list Sql.staged) (t : Sql.line) :
  Sql.cols (Sql.merge_matched now stg t) = Sql.cols (Sql.merge_matched now' stg t).
Proof. unfold Sql.merge_matched. destruct (find _ stg); reflexivity. Qed.

Lemma cols_merge_lines (now now' : Z) (stg : list Sql.staged) (tgt : list Sql.line) :
  map Sql.cols (Sql.merge_lines now stg tgt) = map Sql.cols (Sql.merge_lines now' stg tgt).
Proof.
  unfold Sql.merge_lines. rewrite !map_app, !map_map. f_equal.
  apply map_ext. intros t. apply cols_merge_matched.
Qed.

Lemma existsb_same_key_cols (a a' : Sql.line) (l l' : list Sql.line) :
  Sql.cols a = Sql.cols a' -> map Sql.cols l = map Sql.cols l' ->
  existsb (Sql.same_key a) l = existsb (Sql.same_key a') l'.
Proof.
  intros Ha. revert l'. induction l as [|b l IH]; intros [|b' l'] H; simpl in *;
    try discriminate; [reflexivity|].
  inversion H as [[Hb Hl]]. rewrite (IH l' Hl). f_equal.
  unfold Sql.same_key, Sql.key_match. rewrite Ha, Hb. reflexivity.
Qed.

Lemma distinct_keys_cols (l l' : list Sql.line) :
  map Sql.cols l = map Sql.cols l' -> Sql.distinct_keys l = Sql.distinct_keys l'.
Proof.
  revert l'. induction l as [|a l IH]; intros [|a' l'] H; simpl in *;
    try discriminate; [reflexivity|].
  inversion H as [[Ha Hl]]. rewrite (IH l' Hl).
  rewrite (existsb_same_key_cols a a' l l' Ha Hl). reflexivity.
Qed.

(** Whether the statement fails does not depend on the clock. *)
Lemma merge_statement_error (srv : Sql.Server) (now now' : Z)
    (stg : list Sql.staged) (tgt : list Sql.line) :
  snd (Sql.merge_statement srv now stg tgt) = snd (Sql.merge_statement srv now' stg tgt).
Proof.
  unfold Sql.merge_statement.
  destruct (existsb _ tgt); [reflexivity|].
  rewrite (distinct_keys_cols _ _ (cols_merge_lines now now' stg tgt)).
  destruct (Sql.unique_natural_key srv && negb (Sql.distinct_keys _)); reflexivity.
Qed.

Lemma unique_match {A} (p : A -> bool) (l : list A) (s s1 : A) :
  (length (filter p l) < 2)%nat -> find p l = Some s -> In s1 l -> p s1 = true ->
  s = s1.
Proof.
  induction l as [|x l IH]; simpl; intros L F Hin Hp; [contradiction|].
  destruct (p x) eqn:Px.
  - inversion F; subst. destruct Hin as [-> | Hin]; [reflexivity|].
    assert (In s1 (filter p l)) by (apply filter_In; auto).
    simpl in L. destruct (filter p l); [contradiction | simpl in L; lia].
  - destruct Hin as [-> | Hin]; [congruence|]. apply IH; assumption.
Qed.

Lemma find_pointwise {A} (f g : A -> bool) (l : list A) :
  (forall x, f x = g x) -> find f l = find g l.
Proof.
  intros H. induction l as [|x l IH]; simpl; [reflexivity|].
  rewrite H, IH. reflexivity.
Qed.

Lemma filter_none {A} (f : A -> bool) (l : list A) :
  (forall x, In x l -> f x = false) -> filter f l = [].
Proof.
  induction l as [|x l IH]; simpl; intros H; [reflexivity|].
  rewrite (H x (or_introl eq_refl)). apply IH. intros y Hy. apply H. right. exact Hy.
Qed.

(** Every staged line has its line in the merged table. *)
Lemma merge_lines_covers (now : Z) (stg : list Sql.staged) (tgt : list Sql.line)
    (s : Sql.staged) :
  In s stg -> existsb (Sql.key_match s) (Sql.merge_lines now stg tgt) = true.
Proof.
  intros Hin. unfold Sql.merge_lines. rewrite existsb_app.
  destruct (existsb (Sql.key_match s) tgt) eqn:E.
  - apply orb_true_iff. left. apply existsb_exists in E. destruct E as [t [Ht Hk]].
    apply existsb_exists. exists (Sql.merge_matched now stg t). split.
    + apply in_map. exact Ht.
    + rewrite key_match_merge_matched. exact Hk.
  - apply orb_true_iff. right. apply existsb_exists.
    exists (Sql.merge_insert now s). split.
    + apply in_map. apply filter_In. split; [exact Hin|]. rewrite E. reflexivity.
    + apply key_match_refl.
Qed.

(** Merging the same staged lines again changes no column but [LoadDate]. *)
Lemma merge_lines_again (now1 now2 : Z) (stg : list Sql.staged) (tgt : list Sql.line) :
  existsb (fun t => (2 <=? length (filter (fun s => Sql.key_match s t) stg))%nat)
    (Sql.merge_lines now1 stg tgt) = false ->
  map Sql.cols (Sql.merge_lines now2 stg (Sql.merge_lines now1 stg tgt))
  = map Sql.cols (Sql.merge_lines now1 stg tgt).
Proof.
  intros One.
  unfold Sql.merge_lines at 1.
  rewrite (filter_none _ stg).
  2:{ intros s Hs. rewrite (merge_lines_covers now1 stg tgt s Hs). reflexivity. }
  simpl. rewrite app_nil_r, map_map. apply map_ext_in. intros t Ht.
  assert (Few : (length (filter (fun s => Sql.key_match s t) stg) < 2)%nat).
  { destruct (Nat.leb_spec 2 (length (filter (fun s => Sql.key_match s t) stg)))
      as [L|L]; [|exact L].
    exfalso. assert (X : existsb (fun t => (2 <=? length (filter (fun s => Sql.key_match s t) stg))%nat)
                  (Sql.merge_lines now1 stg tgt) = true).
    { apply existsb_exists. exists t. split; [exact Ht|]. apply Nat.leb_le. exact L. }
    congruence. }
  unfold Sql.merge_lines in Ht. apply in_app_or in Ht. destruct Ht as [Ht | Ht].
  - apply in_map_iff in Ht. destruct Ht as [t0 [<- Ht0]].
    unfold Sql.merge_matched at 1.
    rewrite (find_pointwise _ (fun s => Sql.key_match s t0)).
    2:{ intros s. apply key_match_merge_matched. }
    unfold Sql.merge_matched.
    destruct (find (fun s => Sql.key_match s t0) stg) as [s0|] eqn:F; reflexivity.
  - apply in_map_iff in Ht. destruct Ht as [s1 [<- Hs1]].
    apply filter_In in Hs1. destruct Hs1 as [Hs1 _].
    unfold Sql.merge_matched.
    destruct (find (fun s => Sql.key_match s (Sql.merge_insert now1 s1)) stg)
      as [s|] eqn:F; [|reflexivity].
    assert (s = s1).
    { eapply (unique_match _ stg); [exact Few | exact F | exact Hs1|].
      apply key_match_refl. }
    subst s. apply merge_update_cols. apply key_match_refl.
Qed.

(** One committed merge after another, on the same batch. *)
Lemma after_merge_twice (srv : Sql.Server) (now1 now2 : Z) (records : list Sql.params)
    (tgt : list Sql.line) :
  map Sql.cols
    (after_transaction (Sql.merge_statement srv) now2 records
       (after_transaction (Sql.merge_statement srv) now1 records tgt))
  = map Sql.cols (after_transaction (Sql.merge_statement srv) now1 records tgt).
Proof.
  unfold after_transaction. destruct (stage records) as [stg [e|]]; [reflexivity|].
  pose proof (merge_statement_error srv now1 now2 stg tgt) as E.
  destruct (Sql.merge_statement srv now1 stg tgt) as [t1 [e1|]] eqn:M1.
  - destruct (Sql.merge_statement srv now2 stg tgt) as [t2 [e2|]]; [reflexivity|].
    simpl in E. discriminate.
  - clear E. unfold Sql.merge_statement in M1.
    destruct (existsb _ tgt); [discriminate|].
    destruct (Sql.unique_natural_key srv && negb (Sql.distinct_keys _));
      [discriminate|].
    inversion M1; subst t1; clear M1.
    unfold Sql.merge_statement at 1.
    destruct (existsb _ (Sql.merge_lines now1 stg tgt)) eqn:One; [reflexivity|].
    destruct (Sql.unique_natural_key srv && negb (Sql.distinct_keys _));
      [reflexivity|].
    apply merge_lines_again. exact One.
Qed.

Lemma world_eta (w : Sql.World) :
  Sql.mkworld (Sql.durable w) (Sql.pending w) (Sql.tmp_at w) (Sql.clock w) (Sql.output w)
  = w.
Proof. destruct w. reflexivity. Qed.

Lemma executemany_stage (records : list Sql.params) (w : Sql.World) :
  fst (Sql.executemany Sql.INSERT_tmp_at records w)
  = Sql.set_tmp_at (Sql.tmp_at w ++ fst (stage records)) w
  /\ snd (Sql.executemany Sql.INSERT_tmp_at records w)
     = match snd (stage records) with
       | None => Sql.Return tt
       | Some e => Sql.Raise e
       end.
Proof.
  revert w. induction records as [|p rest IH]; intros w; simpl.
  - unfold Sql.set_tmp_at. rewrite app_nil_r, world_eta. auto.
  - unfold Sql.bind.
    assert (E : Sql.INSERT_tmp_at p w
                = match Sql.bind_columns p with
                  | inl e => (w, Sql.Raise e)
                  | inr s => (Sql.set_tmp_at (Sql.tmp_at w ++ [s]) w, Sql.Return tt)
                  end) by reflexivity.
    rewrite E. clear E.
    destruct (Sql.bind_columns p) as [e|s]; simpl.
    + unfold Sql.set_tmp_at. rewrite app_nil_r, world_eta. auto.
    + destruct (IH (Sql.set_tmp_at (Sql.tmp_at w ++ [s]) w)) as [H1 H2].
      rewrite H1, H2.
      destruct (stage rest) as [l [e|]]; simpl;
        unfold Sql.set_tmp_at; simpl; rewrite <- app_assoc; auto.
Qed.

Lemma lookup_upsert_name :
  ("app" ++ "." ++ "sp_UpsertAtendimentos")%string = "app.sp_UpsertAtendimentos".
Proof. reflexivity. Qed.

(** The merge mode of [sql_inserter.py] on a session just opened. *)
Lemma persist_merge_opened (srv : Sql.Server) (records : list Sql.params)
    (w : Sql.World) :
  SqlInserter.persist_merge srv records (opened w)
  = match stage records with
    | (stg, Some e) => (Sql.set_tmp_at stg (opened w), Sql.Raise e)
    | (stg, None) =>
        match probed_merge srv (Sql.clock w) stg (Sql.durable w) with
        | (t, None) =>
            (Sql.set_pending t (Sql.set_tmp_at stg (opened w)),
             Sql.Return (length records))
        | (t, Some e) =>
            (Sql.set_pending t (Sql.set_tmp_at stg (opened w)), Sql.Raise e)
        end
    end.
Proof.
  unfold SqlInserter.persist_merge, SqlInserter.sp_exists, Sql.SELECT_procedure.
  rewrite lookup_upsert_name.
  unfold Sql.bind, Sql.TMP_TABLE_SQL, Sql.ret.
  destruct (executemany_stage records (Sql.set_tmp_at [] (opened w))) as [H1 H2].
  destruct (Sql.executemany Sql.INSERT_tmp_at records (Sql.set_tmp_at [] (opened w)))
    as [w1 r].
  simpl in H1, H2. subst w1 r.
  destruct (stage records) as [stg [e|]]; simpl; [reflexivity|].
  unfold probed_merge, Sql.EXEC, Sql.MERGE_FALLBACK_SQL.
  destruct (Sql.lookup "app.sp_UpsertAtendimentos" (Sql.procedures srv)) as [p|];
    simpl; unfold Sql.run_statement; simpl.
  - destruct (p (Sql.clock w) stg (Sql.durable w)) as [t [e|]]; reflexivity.
  - destruct (Sql.merge_statement srv (Sql.clock w) stg (Sql.durable w)) as [t [e|]];
      reflexivity.
Qed.

(** The three statements of [agent.py] on a session just opened. *)
Lemma agent_statements_opened (srv : Sql.Server) (rows : list Sql.params)
    (w : Sql.World) :
  agent_statements srv rows (opened w)
  = match stage rows with
    | (stg, Some e) => (Sql.set_tmp_at stg (opened w), Sql.Raise e)
    | (stg, None) =>
        match exec_upsert srv (Sql.clock w) stg (Sql.durable w) with
        | (t, None) =>
            (Sql.set_pending t (Sql.set_tmp_at stg (opened w)), Sql.Return tt)
        | (t, Some e) =>
            (Sql.set_pending t (Sql.set_tmp_at stg (opened w)), Sql.Raise e)
        end
    end.
Proof.
  unfold agent_statements.
  unfold Sql.bind, Sql.TMP_TABLE_SQL.
  destruct (executemany_stage rows (Sql.set_tmp_at [] (opened w))) as [H1 H2].
  destruct (Sql.executemany Sql.INSERT_tmp_at rows (Sql.set_tmp_at [] (opened w)))
    as [w1 r].
  simpl in H1, H2. subst w1 r.
  destruct (stage rows) as [stg [e|]]; simpl; [reflexivity|].
  unfold exec_upsert, Sql.EXEC.
  destruct (Sql.lookup "app.sp_UpsertAtendimentos" (Sql.procedures srv)) as [p|];
    simpl.
  - unfold Sql.run_statement; simpl.
    destruct (p (Sql.clock w) stg (Sql.durable w)) as [t [e|]]; reflexivity.
  - unfold Sql.raise. destruct w; reflexivity.
Qed.

Lemma persist_merge_mode (srv : Sql.Server) (records : list Sql.params) :
  SqlInserter.persist srv "merge" records = SqlInserter.persist_merge srv records.
Proof. reflexivity. Qed.

(** The committed table after [main] in merge mode. *)
Lemma main_merge_durable {py : SqlInserter.Python} (srv : Sql.Server)
    (mode_arg : option string) (sql_cfg : option SqlConfig)
    (all_files : list (list SqlInserter.CsvRow)) (w : Sql.World) :
  chosen_mode mode_arg sql_cfg = "merge" ->
  Sql.durable (fst (SqlInserter.main srv mode_arg sql_cfg all_files w))
  = match sql_enable sql_cfg, flat_map SqlInserter.records_of all_files with
    | true, _ :: _ =>
        after_transaction (probed_merge srv) (Sql.clock w)
          (flat_map SqlInserter.records_of all_files) (Sql.durable w)
    | _, _ => Sql.durable w
    end.
Proof.
  intros Mode. destruct (sql_enable sql_cfg) eqn:En.
  - destruct (flat_map SqlInserter.records_of all_files) as [|p ps] eqn:R.
    + unfold SqlInserter.main. rewrite En. simpl.
      destruct all_files as [|f fs]; [reflexivity|]. rewrite R. reflexivity.
    + rewrite <- R.
      rewrite (main_transaction srv mode_arg sql_cfg all_files w En)
        by (rewrite R; discriminate).
      rewrite Mode, persist_merge_mode, persist_merge_opened.
      unfold after_transaction.
      destruct (stage (flat_map SqlInserter.records_of all_files)) as [stg [e|]];
        [reflexivity|].
      destruct (probed_merge srv (Sql.clock w) stg (Sql.durable w)) as [t [e|]];
        reflexivity.
  - unfold SqlInserter.main. rewrite En. reflexivity.
Qed.

(** The committed table after [persist_to_sql_merge]. *)
Lemma persist_to_sql_merge_durable (env : Agent.Env) (srv : Sql.Server)
    (df : list Agent.Row) (logger : bool) (w : Sql.World) :
  Sql.durable (fst (Agent.persist_to_sql_merge env srv df logger w))
  = match Agent.pyodbc env && sql_enable (Agent.config_sql env), df with
    | true, _ :: _ =>
        after_transaction (exec_upsert srv) (Sql.clock w) (Agent.sql_rows df)
          (Sql.durable w)
    | _, _ => Sql.durable w
    end.
Proof.
  destruct (Agent.pyodbc env) eqn:Py; simpl.
  - destruct (sql_enable (Agent.config_sql env)) eqn:En.
    + destruct df as [|r df].
      * unfold Agent.persist_to_sql_merge. rewrite Py, En. simpl.
        destruct logger; reflexivity.
      * rewrite (persist_to_sql_merge_transaction env srv (r :: df) logger w Py En)
          by discriminate.
        rewrite agent_statements_opened. unfold after_transaction.
        destruct (stage (Agent.sql_rows (r :: df))) as [stg [e|]];
          [destruct logger; reflexivity|].
        destruct (exec_upsert srv (Sql.clock w) stg (Sql.durable w)) as [t [e|]];
          destruct logger; reflexivity.
    + unfold Agent.persist_to_sql_merge. rewrite Py, En. simpl.
      destruct logger; reflexivity.
  - unfold Agent.persist_to_sql_merge. rewrite Py. simpl.
    destruct logger; reflexivity.
Qed.

Lemma after_transaction_ext
    (f g : Z -> list Sql.staged -> list Sql.line -> list Sql.line * option Sql.exception)
    (now : Z) (records : list Sql.params) (tgt : list Sql.line) :
  (forall n s t, f n s t = g n s t) ->
  after_transaction f now records tgt = after_transaction g now records tgt.
Proof.
  intros H. unfold after_transaction. destruct (stage records) as [stg [e|]];
    [reflexivity|]. rewrite H. reflexivity.
Qed.

Lemma probed_merge_inline (srv : Sql.Server) :
  upsert_is_inline srv ->
  forall n s t, probed_merge srv n s t = Sql.merge_statement srv n s t.
Proof.
  unfold upsert_is_inline, probed_merge.
  destruct (Sql.lookup _ _); [intros H; exact H | reflexivity].
Qed.

(** C1. Persisting the same batch twice in merge mode leaves, after the
    second run, the committed table of the first run in every column but
    [LoadDate]: this holds for [main] of [sql_inserter.py] in merge mode
    and for [persist_to_sql_merge] of [agent.py], whatever the table held
    before, whatever the clock shows at the second run, and also when a
    run fails and is rolled back. A first run that returns has updated in
    place the lines whose key is staged and appended the staged lines whose
    key was absent ([merge_lines]). The stored procedure, whose body the
    repository does not contain, is taken to do what the inline [MERGE]
    does. *)
Theorem merge_persistence_is_idempotent {py : SqlInserter.Python}
    (srv : Sql.Server) (mode_arg : option string) (sql_cfg : option SqlConfig)
    (all_files : list (list SqlInserter.CsvRow))
    (env : Agent.Env) (df : list Agent.Row) (logger : bool)
    (w : Sql.World) (t2 : Z) :
  upsert_is_inline srv ->
  chosen_mode mode_arg sql_cfg = "merge" ->
  map Sql.cols
    (Sql.durable
       (fst (SqlInserter.main srv mode_arg sql_cfg all_files
               (set_clock t2 (fst (SqlInserter.main srv mode_arg sql_cfg all_files w))))))
  = map Sql.cols (Sql.durable (fst (SqlInserter.main srv mode_arg sql_cfg all_files w)))
  /\ map Sql.cols
       (Sql.durable
          (fst (Agent.persist_to_sql_merge env srv df logger
                  (set_clock t2 (fst (Agent.persist_to_sql_merge env srv df logger w))))))
     = map Sql.cols (Sql.durable (fst (Agent.persist_to_sql_merge env srv df logger w)))
  /\ (snd (SqlInserter.main srv mode_arg sql_cfg all_files w) = Sql.Return tt ->
      sql_enable sql_cfg = true ->
      flat_map SqlInserter.records_of all_files <> [] ->
      exists stg,
        stage (flat_map SqlInserter.records_of all_files) = (stg, None)
        /\ Sql.durable (fst (SqlInserter.main srv mode_arg sql_cfg all_files w))
           = Sql.merge_lines (Sql.clock w) stg (Sql.durable w)).
Proof.
  intros Inline Mode. split; [|split].
  - rewrite (main_merge_durable srv mode_arg sql_cfg all_files
               (set_clock t2 (fst (SqlInserter.main srv mode_arg sql_cfg all_files w)))
               Mode).
    unfold set_clock. cbn [Sql.durable Sql.clock].
    rewrite (main_merge_durable srv mode_arg sql_cfg all_files w Mode).
    destruct (sql_enable sql_cfg); [|reflexivity].
    destruct (flat_map SqlInserter.records_of all_files) as [|p ps]; [reflexivity|].
    rewrite !(after_transaction_ext _ _ _ _ _ (probed_merge_inline srv Inline)).
    apply after_merge_twice.
  - rewrite (persist_to_sql_merge_durable env srv df logger
               (set_clock t2 (fst (Agent.persist_to_sql_merge env srv df logger w)))).
    unfold set_clock. cbn [Sql.durable Sql.clock].
    rewrite (persist_to_sql_merge_durable env srv df logger w).
    destruct (Agent.pyodbc env && sql_enable (Agent.config_sql env)); [|reflexivity].
    destruct df as [|r df]; [reflexivity|].
    unfold upsert_is_inline in Inline. unfold exec_upsert.
    destruct (Sql.lookup "app.sp_UpsertAtendimentos" (Sql.procedures srv)) as [p|].
    + rewrite !(after_transaction_ext p _ _ _ _ Inline). apply after_merge_twice.
    + unfold after_transaction. destruct (stage _) as [stg [e|]]; reflexivity.
  - intros Ret En Rec.
    pose proof (main_merge_durable srv mode_arg sql_cfg all_files w Mode) as D.
    rewrite En in D.
    rewrite (main_transaction srv mode_arg sql_cfg all_files w En Rec) in Ret.
    rewrite Mode, persist_merge_mode, persist_merge_opened in Ret.
    destruct (flat_map SqlInserter.records_of all_files) as [|p ps] eqn:R;
      [contradiction Rec; reflexivity|].
    rewrite D. unfold after_transaction. revert Ret.
    destruct (stage (p :: ps)) as [stg [e|]]; [discriminate|].
    rewrite (probed_merge_inline srv Inline).
    unfold Sql.merge_statement.
    destruct (existsb _ (Sql.durable w)); [discriminate|].
    destruct (Sql.unique_natural_key srv && negb (Sql.distinct_keys _));
      [discriminate|].
    intros _. exists stg. split; reflexivity.
Qed.

Lemma merge_persistence_is_idempotent_witness :
  map Sql.cols
    (Sql.durable (fst (SqlInserter.main (py := Demo.python) ex_server (Some "merge")
                         ex_sql_on [[ex_csv_a; ex_csv_b]] ex_world_a)))
  = [Sql.mkrecord (mkdate 2024 1 5) "C1" "OpX" "ProcA" "CatA" 3%Z (1000 # 100)%Q
       (3000 # 100)%Q;
     Sql.mkrecord (mkdate 2024 1 6) "C2" "OpY" "ProcB" "CatB" 1%Z (750 # 100)%Q
       (900 # 100)%Q]
  /\ map Sql.LoadDate
       (Sql.durable (fst (SqlInserter.main (py := Demo.python) ex_server (Some "merge")
                            ex_sql_on [[ex_csv_a; ex_csv_b]]
                            (set_clock 200
                               (fst (SqlInserter.main (py := Demo.python) ex_server
                                       (Some "merge") ex_sql_on
                                       [[ex_csv_a; ex_csv_b]] ex_world_a))))))
     = [Some 200%Z; Some 200%Z]
  /\ map Sql.cols
       (Sql.durable (fst (SqlInserter.main (py := Demo.python) ex_server (Some "merge")
                            ex_sql_on [[ex_csv_a; ex_csv_b]]
                            (set_clock 200
                               (fst (SqlInserter.main (py := Demo.python) ex_server
                                       (Some "merge") ex_sql_on
                                       [[ex_csv_a; ex_csv_b]] ex_world_a))))))
     = map Sql.cols
         (Sql.durable (fst (SqlInserter.main (py := Demo.python) ex_server
                              (Some "merge") ex_sql_on [[ex_csv_a; ex_csv_b]]
                              ex_world_a))).
Proof.
  split; [vm_compute; reflexivity|]. split; [vm_compute; reflexivity|].
  exact (proj1 (merge_persistence_is_idempotent (py := Demo.python) ex_server
                  (Some "merge") ex_sql_on [[ex_csv_a; ex_csv_b]] ex_env [ex_row_a]
                  true ex_world_a 200 I eq_refl)).
Defined.

(** Without the procedure [EXEC] fails, whatever the batch. *)
Lemma agent_statements_without_procedure (srv : Sql.Server) (rows : list Sql.params)
    (w : Sql.World) :
  Sql.lookup "app.sp_UpsertAtendimentos" (Sql.procedures srv) = None ->
  exists e, snd (agent_statements srv rows (opened w)) = Sql.Raise e.
Proof.
  intros No. rewrite agent_statements_opened. unfold exec_upsert. rewrite No.
  destruct (stage rows) as [stg [e|]]; eexists; reflexivity.
Qed.

(** C3. On a server that has no [app.sp_UpsertAtendimentos], the merge of
    [sql_inserter.py] probes, runs its inline [MERGE] and commits the
    batch, while [persist_to_sql_merge] of [agent.py] sends [EXEC] without
    a probe, fails and rolls back: the same visit is persisted by the one
    and not by the other. *)
Theorem agent_merge_has_no_probe_and_no_fallback :
  snd (Agent.persist_to_sql_merge ex_env ex_server [ex_row_a] true ex_world_a)
  = Sql.Raise Sql.ProcedureNotFound
  /\ Sql.durable (fst (Agent.persist_to_sql_merge ex_env ex_server [ex_row_a] true
                         ex_world_a)) = [ex_line_a_old]
  /\ snd (SqlInserter.main (py := Demo.python) ex_server (Some "merge") ex_sql_on
            [[ex_csv_a]] ex_world_a) = Sql.Return tt
  /\ Sql.durable (fst (SqlInserter.main (py := Demo.python) ex_server (Some "merge")
                         ex_sql_on [[ex_csv_a]] ex_world_a))
     = [Sql.mkline (Sql.mkrecord (mkdate 2024 1 5) "C1" "OpX" "ProcA" "CatA" 3%Z
                      (1000 # 100)%Q (3000 # 100)%Q) (Some 100%Z)]
  /\ (forall srv rows w,
        Sql.lookup "app.sp_UpsertAtendimentos" (Sql.procedures srv) = None ->
        exists e, snd (agent_statements srv rows (opened w)) = Sql.Raise e).
Proof.
  split; [vm_compute; reflexivity|]. split; [vm_compute; reflexivity|].
  split; [vm_compute; reflexivity|]. split; [vm_compute; reflexivity|].
  exact agent_statements_without_procedure.
Qed.

(** * Further properties of the code *)

(** ** Deduplication, once more *)

Lemma existsb_filter {A} (f : A -> bool) (l : list A) :
  existsb f l = negb (match filter f l with [] => true | _ => false end).
Proof.
  induction l as [|x l IH]; simpl; [reflexivity|].
  destruct (f x); simpl; [reflexivity | exact IH].
Qed.

Lemma drop_duplicates_keeps_keys (df : list Agent.Row) (r : Agent.Row) :
  existsb (Agent.same_key r) (Agent.drop_duplicates_keep_last df)
  = existsb (Agent.same_key r) df.
Proof.
  rewrite !existsb_filter.
  pose proof (drop_duplicates_group df r) as G. unfold AgentRows.group in G.
  rewrite G. destruct (filter (Agent.same_key r) df); reflexivity.
Qed.

Lemma drop_duplicates_fixed (df : list Agent.Row) :
  Agent.drop_duplicates_keep_last (Agent.drop_duplicates_keep_last df)
  = Agent.drop_duplicates_keep_last df.
Proof.
  induction df as [|r rest IH]; simpl; [reflexivity|].
  destruct (existsb (Agent.same_key r) rest) eqn:E; [exact IH|].
  simpl. rewrite drop_duplicates_keeps_keys, E, IH. reflexivity.
Qed.

(** X1. Deduplication is idempotent: on its own output [remove_duplicates]
    returns the frame unchanged and reports 0 duplicates removed. *)
Theorem remove_duplicates_idempotent (df : list Agent.Row) :
  Agent.remove_duplicates (fst (Agent.remove_duplicates df))
  = (fst (Agent.remove_duplicates df), 0%nat).
Proof.
  unfold Agent.remove_duplicates. simpl. rewrite drop_duplicates_fixed.
  rewrite Nat.sub_diag. reflexivity.
Qed.

Lemma same_key_refl (r : Agent.Row) : Agent.same_key r r = true.
Proof. apply same_key_iff. reflexivity. Qed.

Lemma drop_duplicates_NoDup (df : list Agent.Row) :
  NoDup (map key_of (Agent.drop_duplicates_keep_last df)).
Proof.
  induction df as [|r rest IH]; simpl; [constructor|].
  destruct (existsb (Agent.same_key r) rest) eqn:E; [exact IH|].
  simpl. constructor; [|exact IH].
  intros Hin. apply in_map_iff in Hin. destruct Hin as [r' [Hk Hr']].
  apply (subseq_In _ _ _ (drop_duplicates_subseq rest)) in Hr'.
  assert (existsb (Agent.same_key r) rest = true).
  { apply existsb_exists. exists r'. split; [exact Hr'|].
    apply same_key_iff. symmetry. exact Hk. }
  congruence.
Qed.

(** X2. After deduplication no two records share a natural key, and no
    natural key of the input is lost: every input record has a record of
    its key in the output. *)
Theorem remove_duplicates_keys (df : list Agent.Row) :
  NoDup (map key_of (fst (Agent.remove_duplicates df)))
  /\ (forall r, In r df ->
        exists r', In r' (fst (Agent.remove_duplicates df)) /\ key_of r' = key_of r)
  /\ (forall r', In r' (fst (Agent.remove_duplicates df)) -> In r' df).
Proof.
  unfold Agent.remove_duplicates. simpl. split; [|split].
  - apply drop_duplicates_NoDup.
  - intros r Hin.
    assert (E : existsb (Agent.same_key r) (Agent.drop_duplicates_keep_last df) = true).
    { rewrite drop_duplicates_keeps_keys. apply existsb_exists. exists r.
      split; [exact Hin | apply same_key_refl]. }
    apply existsb_exists in E. destruct E as [r' [Hin' Hk]].
    exists r'. split; [exact Hin'|]. apply same_key_iff in Hk. symmetry. exact Hk.
  - intros r'. apply subseq_In. apply drop_duplicates_subseq.
Qed.

(** ** Text columns *)

Lemma lstrip_no_leading (s : string) : no_leading_space (lstrip s).
Proof.
  induction s as [|c t IH]; simpl; [exact I|].
  destruct (is_space c) eqn:E; [exact IH | simpl; exact E].
Qed.

Lemma rstrip_no_leading (s : string) : no_leading_space s -> no_leading_space (rstrip s).
Proof.
  destruct s as [|c t]; simpl; [auto|]. intros E.
  destruct (rstrip t); [rewrite E|]; simpl; exact E.
Qed.

Lemma rstrip_no_trailing (s : string) : no_trailing_space (rstrip s).
Proof.
  unfold no_trailing_space.
  induction s as [|c t IH]; simpl; [exact I|].
  destruct (rstrip t) as [|d u] eqn:R.
  - destruct (is_space c) eqn:E; simpl; [exact I | exact E].
  - simpl. simpl in IH. exact IH.
Qed.

Lemma lstrip_fixed (s : string) : no_leading_space s -> lstrip s = s.
Proof. destruct s as [|c t]; simpl; [reflexivity|]. intros ->. reflexivity. Qed.

Lemma rstrip_fixed (s : string) : rstrip (rstrip s) = rstrip s.
Proof.
  induction s as [|c t IH]; simpl; [reflexivity|].
  destruct (rstrip t) as [|d u] eqn:R.
  - destruct (is_space c) eqn:E; simpl; [reflexivity|]. rewrite E. reflexivity.
  - simpl. simpl in IH. rewrite IH. reflexivity.
Qed.

Lemma strip_stripped (s : string) : stripped (strip s).
Proof.
  unfold stripped, strip. split; [|split].
  - apply rstrip_no_leading, lstrip_no_leading.
  - apply rstrip_no_trailing.
  - rewrite (lstrip_fixed (rstrip (lstrip s)))
      by (apply rstrip_no_leading, lstrip_no_leading).
    apply rstrip_fixed.
Qed.

Lemma astype_str_strip_stripped (c : Agent.text_cell) :
  stripped (Agent.astype_str_strip c).
Proof. destruct c; apply strip_stripped. Qed.

(** X5. The text columns of every record built by either script carry no
    white space at their ends, and stripping them again changes nothing:
    the five text columns of every record of the frame that
    [normalize_and_clean] returns, and the four of a tuple of
    [sql_inserter.py]. *)
Theorem text_columns_are_stripped {pd : Agent.Pandas} {py : SqlInserter.Python}
    (raw : list Agent.RawRow) (o : Agent.Row) (c : SqlInserter.CsvRow)
    (t : Sql.params) :
  In o (fst (Agent.normalize_and_clean raw)) ->
  SqlInserter.record_of c = Some t ->
  (stripped (Agent.ClienteId o) /\ stripped (Agent.Operadora o)
   /\ stripped (Agent.Procedimento o) /\ stripped (Agent.Categoria o)
   /\ stripped (Agent.UF o))
  /\ (stripped (Sql.ClienteId t) /\ stripped (Sql.Operadora t)
      /\ stripped (Sql.Procedimento t) /\ stripped (Sql.Categoria t)).
Proof.
  intros Hin. rewrite normalize_and_clean_rows in Hin.
  apply pmap_In in Hin. destruct Hin as [r [_ Ho]]. revert Ho.
  unfold AgentRows.clean_row, SqlInserter.record_of.
  destruct (Agent.to_datetime_coerce (Agent.Data r)); [|discriminate].
  destruct (SqlInserter.to_date (SqlInserter.Data c)); [|discriminate].
  intros Ho Ht. inversion Ho; subst; clear Ho. inversion Ht; subst; clear Ht. simpl.
  repeat split; try apply astype_str_strip_stripped; try apply strip_stripped.
Qed.

Lemma text_columns_are_stripped_witness :
  stripped "OpX" /\ stripped "ProcA".
Proof.
  destruct (text_columns_are_stripped (pd := Demo.pandas) (py := Demo.python)
    [ex_raw "2024-01-05" (Agent.CNum 3) (Agent.CNum 10) Agent.CNA]
    (Agent.mkrow (mkdate 2024 1 5) "C1" "OpX" "ProcA" "CatA" "SP"
       (Some 3%Q) (Some 10%Q) (Some (3 * 10)%Q))
    (ex_csv "05/01/2024" (Some "3") (Some "10,5") (Some "NA"))
    (Sql.mkrecord (mkdate 2024 1 5) "C1" "OpX" "ProcA" "CatA" 3%Z
       (Some (10 + 5 / 10)%Q) (Some (inject_Z 3 * (10 + 5 / 10))%Q))
    (or_introl eq_refl) eq_refl) as [[_ [H1 [H2 _]]] _].
  split; assumption.
Defined.

(** ** Filters *)






(** ** The customer dimension *)

Lemma merge_dim_cons (r : Agent.Row) (df : list Agent.Row) (dim : list Agent.DimCliente) :
  Agent.merge_dim (r :: df) dim
  = match dim_matches r dim with
    | [] => [Agent.mkenriched r None]
    | ms => map (fun m => Agent.mkenriched r (Some (Agent.Segmento m))) ms
    end ++ Agent.merge_dim df dim.
Proof. reflexivity. Qed.

(** X7. The join with the dimension is a left join. On a frame whose
    customer ids are stripped, as the cleaned frame is, no record is
    dropped and their order is kept, a record without an entry gets a
    missing segment, a record with entries gets one line per entry, and
    every segment of a line is the segment of an entry of its customer. *)
Theorem merge_dim_is_a_left_join (df : list Agent.Row) (dim : list Agent.DimCliente) :
  Forall (fun r => strip (Agent.ClienteId r) = Agent.ClienteId r) df ->
  subseq df (map Agent.base (Agent.merge_dim df dim))
  /\ (forall e, In e (Agent.merge_dim df dim) -> In (Agent.base e) df)
  /\ (forall r, In r df -> dim_matches r dim = [] ->
        In (Agent.mkenriched r None) (Agent.merge_dim df dim))
  /\ (forall e, In e (Agent.merge_dim df dim) ->
        match Agent.Segmento_de e with
        | None => dim_matches (Agent.base e) dim = []
        | Some s => exists m, In m (dim_matches (Agent.base e) dim)
                              /\ Agent.Segmento m = s
        end)
  /\ length (Agent.merge_dim df dim)
     = list_sum (map (fun r => Nat.max 1 (length (dim_matches r dim))) df).
Proof.
  intros _. induction df as [|r df [IH1 [IH2 [IH3 [IH4 IH5]]]]].
  - simpl. repeat split; try constructor; intros; contradiction.
  - rewrite merge_dim_cons.
    destruct (dim_matches r dim) as [|m ms] eqn:M.
    + simpl. split; [apply subseq_keep; exact IH1|]. split; [|split; [|split]].
      * intros e [<- | H]; [left; reflexivity | right; apply IH2; exact H].
      * intros r0 [<- | H] N; [left; reflexivity | right; apply IH3; assumption].
      * intros e [<- | H]; [simpl; exact M | apply IH4; exact H].
      * rewrite M. simpl. rewrite IH5. reflexivity.
    + split; [|split; [|split; [|split]]].
      * rewrite map_app. simpl. apply subseq_keep.
        clear -IH1. induction ms as [|m' ms IHm]; simpl; [exact IH1|].
        apply subseq_skip. exact IHm.
      * intros e H. apply in_app_or in H. destruct H as [H | H].
        -- apply in_map_iff in H. destruct H as [m' [<- _]]. left. reflexivity.
        -- right. apply IH2. exact H.
      * intros r0 [<- | H] N; [congruence|].
        apply in_or_app. right. apply IH3; assumption.
      * intros e H. apply in_app_or in H. destruct H as [H | H].
        -- apply in_map_iff in H. destruct H as [m' [<- Hm]]. simpl.
           exists m'. rewrite M. auto.
        -- apply IH4. exact H.
      * rewrite length_app, length_map, IH5. simpl. rewrite M. simpl. reflexivity.
Qed.

Lemma merge_dim_is_a_left_join_witness :
  map Agent.Segmento_de
    (Agent.merge_dim [ex_row 5 "C1" "ProcA" 2 10; ex_row 6 "C2" "ProcB" 1 7]
       [Agent.mkdim "C1 " "Ouro"; Agent.mkdim " C1" "Prata"])
  = [Some "Ouro"; Some "Prata"; None]
  /\ subseq [ex_row 5 "C1" "ProcA" 2 10; ex_row 6 "C2" "ProcB" 1 7]
       (map Agent.base
          (Agent.merge_dim [ex_row 5 "C1" "ProcA" 2 10; ex_row 6 "C2" "ProcB" 1 7]
             [Agent.mkdim "C1 " "Ouro"; Agent.mkdim " C1" "Prata"])).
Proof.
  split; [reflexivity|].
  apply (merge_dim_is_a_left_join
           [ex_row 5 "C1" "ProcA" 2 10; ex_row 6 "C2" "ProcB" 1 7]
           [Agent.mkdim "C1 " "Ouro"; Agent.mkdim " C1" "Prata"]).
  repeat constructor.
Defined.

Lemma unique_filter {A} (f : A -> string) (k : string) (l : list A) :
  NoDup (map f l) -> (length (filter (fun m => String.eqb k (f m)) l) <= 1)%nat.
Proof.
  induction l as [|x l IH]; simpl; intros N; [lia|].
  inversion N as [|? ? Hx N']; subst.
  destruct (String.eqb k (f x)) eqn:E; [|apply IH; exact N'].
  apply String.eqb_eq in E. subst k. simpl.
  rewrite filter_none; [simpl; lia|].
  intros y Hy. apply String.eqb_neq. intros Heq. apply Hx.
  rewrite Heq. apply in_map. exact Hy.
Qed.

Lemma merge_dim_unique_base (df : list Agent.Row) (dim : list Agent.DimCliente) :
  NoDup (map (fun m => strip (Agent.dim_ClienteId m)) dim) ->
  map Agent.base (Agent.merge_dim df dim) = df.
Proof.
  intros N. induction df as [|r df IH]; [reflexivity|].
  rewrite merge_dim_cons, map_app, IH.
  pose proof (unique_filter (fun m => strip (Agent.dim_ClienteId m))
                (strip (Agent.ClienteId r)) dim N) as L.
  change (length (dim_matches r dim) <= 1)%nat in L. revert L.
  destruct (dim_matches r dim) as [|m [|m' ms]]; simpl; intros L;
    try reflexivity. lia.
Qed.

(** X8. When no customer id occurs twice in the dimension, the join of a
    frame whose customer ids are stripped neither drops nor repeats a
    record: the joined frame holds the records of the input, one line
    each, in the same order. *)
Theorem merge_dim_unique_dimension (df : list Agent.Row) (dim : list Agent.DimCliente) :
  Forall (fun r => strip (Agent.ClienteId r) = Agent.ClienteId r) df ->
  NoDup (map (fun m => strip (Agent.dim_ClienteId m)) dim) ->
  map Agent.base (Agent.merge_dim df dim) = df
  /\ length (Agent.merge_dim df dim) = length df.
Proof.
  intros _ N. pose proof (merge_dim_unique_base df dim N) as E.
  split; [exact E|]. rewrite <- E at 2. rewrite length_map. reflexivity.
Qed.

Lemma merge_dim_unique_dimension_witness :
  map Agent.base
    (Agent.merge_dim [ex_row 5 "C1" "ProcA" 2 10; ex_row 6 "C2" "ProcB" 1 7]
       [Agent.mkdim "C1 " "Ouro"; Agent.mkdim "C9" "Prata"])
  = [ex_row 5 "C1" "ProcA" 2 10; ex_row 6 "C2" "ProcB" 1 7]
  /\ map Agent.Segmento_de
       (Agent.merge_dim [ex_row 5 "C1" "ProcA" 2 10; ex_row 6 "C2" "ProcB" 1 7]
          [Agent.mkdim "C1 " "Ouro"; Agent.mkdim "C9" "Prata"])
     = [Some "Ouro"; None].
Proof.
  split; [|reflexivity].
  apply (merge_dim_unique_dimension
           [ex_row 5 "C1" "ProcA" 2 10; ex_row 6 "C2" "ProcB" 1 7]
           [Agent.mkdim "C1 " "Ouro"; Agent.mkdim "C9" "Prata"]).
  - repeat constructor.
  - repeat constructor; simpl; intuition discriminate.
Defined.

(** ** The percentile, once more *)

Lemma sorted_nth (a : list Q) (i j : nat) :
  StronglySorted Qle a -> (i <= j)%nat -> (j < length a)%nat ->
  (nth i a 0 <= nth j a 0)%Q.
Proof.
  intros S. revert i j. induction S as [|x a S IH F]; intros i j Hij Hj.
  - simpl in Hj. lia.
  - destruct j as [|j].
    + assert (i = 0)%nat by lia. subst. simpl. apply Qle_refl.
    + destruct i as [|i]; simpl.
      * rewrite Forall_forall in F. apply F. apply nth_In. simpl in Hj. lia.
      * apply IH; simpl in Hj; lia.
Qed.

Lemma Qle_trans' : Relations_1.Transitive Qle.
Proof. intros x y z. apply Qle_trans. Qed.

(** The interpolated quantile lies between the smallest and the largest
    value. *)
Lemma quantile_bounds (v : list Q) (p : Q) :
  v <> [] -> (0 <= p)%Q -> (p <= 1)%Q ->
  (nth 0 (Agent.sort_asc v) 0 <= Agent.quantile v p)%Q
  /\ (Agent.quantile v p <= nth (length v - 1) (Agent.sort_asc v) 0)%Q.
Proof.
  intros Hne P0 P1. unfold Agent.quantile.
  pose proof (Sorted_StronglySorted Qle_trans' (sort_asc_sorted v)) as S.
  pose proof (Permutation_length (sort_asc_perm v)) as L.
  set (a := Agent.sort_asc v) in *. rewrite <- L.
  assert (Hn : (1 <= length v)%nat) by (destruct v; [congruence | simpl; lia]).
  set (n := length v) in *.
  set (h := (inject_Z (Z.of_nat (n - 1)) * p)%Q).
  assert (N0 : (0 <= inject_Z (Z.of_nat (n - 1)))%Q).
  { change 0%Q with (inject_Z 0). rewrite <- Zle_Qle. lia. }
  assert (H0 : (0 <= h)%Q) by (unfold h; nra).
  assert (H1 : (h <= inject_Z (Z.of_nat (n - 1)))%Q) by (unfold h; nra).
  assert (F0 : (0 <= Qfloor h)%Z).
  { change 0%Z with (Qfloor 0). apply Qfloor_resp_le. exact H0. }
  assert (F1 : (Qfloor h <= Z.of_nat (n - 1))%Z).
  { rewrite <- (Qfloor_Z (Z.of_nat (n - 1))). apply Qfloor_resp_le. exact H1. }
  pose proof (Qfloor_le h) as Fl. pose proof (Qlt_floor h) as Fu.
  set (lo := Z.to_nat (Qfloor h)).
  assert (Lo : (lo <= n - 1)%nat) by (unfold lo; lia).
  set (hi := Nat.min (lo + 1) (n - 1)).
  assert (Hi : (lo <= hi)%nat /\ (hi <= n - 1)%nat) by (unfold hi; lia).
  assert (X0 : (nth 0 a 0 <= nth lo a 0)%Q) by (apply sorted_nth; [exact S | lia | lia]).
  assert (XY : (nth lo a 0 <= nth hi a 0)%Q) by (apply sorted_nth; [exact S | lia | lia]).
  assert (Y1 : (nth hi a 0 <= nth (n - 1) a 0)%Q)
    by (apply sorted_nth; [exact S | lia | lia]).
  set (x := nth lo a 0%Q) in *. set (y := nth hi a 0%Q) in *.
  set (f := (h - inject_Z (Qfloor h))%Q).
  assert (Ff : (0 <= f)%Q /\ (f <= 1)%Q).
  { unfold f. rewrite inject_Z_plus in Fu. change (inject_Z 1) with 1%Q in Fu.
    split; lra. }
  destruct Ff as [Ff0 Ff1].
  split.
  - apply Qle_trans with x; [exact X0|]. nra.
  - apply Qle_trans with y; [|exact Y1]. nra.
Qed.

Lemma compute_percentile_flag_nonempty {A} (df : list A) (col : A -> float) (p : Q) :
  df <> [] ->
  Agent.compute_percentile_flag df col p
  = (map (fun r =>
            Agent.mkflagged r
              (if Qle_bool (Agent.quantile (map (fun r => fillna 0 (col r)) df) p)
                           (fillna 0 (col r))
               then 1%Z else 0%Z)) df,
     Agent.quantile (map (fun r => fillna 0 (col r)) df) p).
Proof. destruct df; [congruence | reflexivity]. Qed.

(** X9. On a frame that is not empty the percentile computed lies between
    the smallest and the largest revenue of the frame, so at least one
    record (one of largest revenue) is flagged. *)
Theorem percentile_flags_the_largest {A} (df : list A) (col : A -> float) (p : Q) :
  df <> [] -> (0 <= p)%Q -> (p <= 1)%Q ->
  (exists r, In r df
     /\ (snd (Agent.compute_percentile_flag df col p) <= fillna 0 (col r))%Q
     /\ In (Agent.mkflagged r 1%Z) (fst (Agent.compute_percentile_flag df col p)))
  /\ (exists r, In r df
        /\ (fillna 0 (col r) <= snd (Agent.compute_percentile_flag df col p))%Q).
Proof.
  intros Hne P0 P1. rewrite (compute_percentile_flag_nonempty df col p Hne). simpl.
  assert (Vne : map (fun r => fillna 0 (col r)) df <> [])
    by (destruct df; [congruence | discriminate]).
  destruct (quantile_bounds _ p Vne P0 P1) as [B0 B1].
  pose proof (Permutation_length (sort_asc_perm (map (fun r => fillna 0 (col r)) df)))
    as L.
  assert (Ln : (1 <= length (map (fun r => fillna 0 (col r)) df))%nat)
    by (destruct df; [congruence | simpl; lia]).
  assert (In0 : In (nth 0 (Agent.sort_asc (map (fun r => fillna 0 (col r)) df)) 0%Q)
                  (map (fun r => fillna 0 (col r)) df)).
  { apply (Permutation_in _ (Permutation_sym (sort_asc_perm _))). apply nth_In. lia. }
  assert (In1 : In (nth (length (map (fun r => fillna 0 (col r)) df) - 1)
                      (Agent.sort_asc (map (fun r => fillna 0 (col r)) df)) 0%Q)
                  (map (fun r => fillna 0 (col r)) df)).
  { apply (Permutation_in _ (Permutation_sym (sort_asc_perm _))). apply nth_In. lia. }
  apply in_map_iff in In0, In1.
  destruct In0 as [r0 [E0 H0]]. destruct In1 as [r1 [E1 H1]].
  rewrite <- E0 in B0. rewrite <- E1 in B1.
  split.
  - exists r1. split; [exact H1|]. split; [exact B1|].
    apply in_map_iff. exists r1. split; [|exact H1].
    apply Qle_bool_iff in B1. rewrite B1. reflexivity.
  - exists r0. split; [exact H0 | exact B0].
Qed.

Lemma percentile_flags_the_largest_witness :
  exists r, In r ten_revenues
    /\ In (Agent.mkflagged r 1%Z)
         (fst (Agent.compute_percentile_flag ten_revenues (fun x => x) (9 # 10))).
Proof.
  destruct (percentile_flags_the_largest ten_revenues (fun x => x) (9 # 10))
    as [[r [H1 [_ H2]]] _].
  - discriminate.
  - unfold Qle. simpl. lia.
  - unfold Qle. simpl. lia.
  - exists r. split; assumption.
Defined.

Lemma existsb_false_forall {A} (f : A -> bool) (l : list A) :
  existsb f l = false <-> (forall x, In x l -> f x = false).
Proof.
  induction l as [|x l IH]; simpl.
  - split; [intros _ y [] | reflexivity].
  - rewrite orb_false_iff, IH. split.
    + intros [H1 H2] y [<- | Hy]; auto.
    + intros H. split; [apply H; left; reflexivity | intros y Hy; apply H; right; exact Hy].
Qed.

(** ** The merge statement, once more *)

Lemma key_match_keys (s : Sql.staged) (t : Sql.line) :
  Sql.key_match s t = true <-> line_key t = staged_key s.
Proof.
  unfold Sql.key_match, line_key, staged_key.
  rewrite !andb_true_iff, date_eqb_eq, !String.eqb_eq. split.
  - intros [[-> ->] ->]. reflexivity.
  - intros H. inversion H. auto.
Qed.

Lemma existsb_key_match (s : Sql.staged) (l : list Sql.line) :
  existsb (Sql.key_match s) l = true <-> In (staged_key s) (map line_key l).
Proof.
  rewrite existsb_exists, in_map_iff. split.
  - intros [t [Ht Hk]]. exists t. split; [apply key_match_keys; exact Hk | exact Ht].
  - intros [t [Hk Ht]]. exists t. split; [exact Ht | apply key_match_keys; exact Hk].
Qed.

Lemma distinct_keys_NoDup (l : list Sql.line) :
  Sql.distinct_keys l = true <-> NoDup (map line_key l).
Proof.
  induction l as [|a l IH]; simpl.
  - split; [constructor | reflexivity].
  - rewrite andb_true_iff, negb_true_iff, IH, NoDup_cons_iff.
    assert (E : existsb (Sql.same_key a) l = true <-> In (line_key a) (map line_key l)).
    { unfold Sql.same_key. apply existsb_key_match. }
    split; intros [H1 H2]; split; try exact H2.
    + intros Hin. apply E in Hin. congruence.
    + destruct (existsb (Sql.same_key a) l); [|reflexivity].
      exfalso. apply H1. apply E. reflexivity.
Qed.

Lemma line_key_merge_matched (now : Z) (stg : list Sql.staged) (t : Sql.line) :
  line_key (Sql.merge_matched now stg t) = line_key t.
Proof. unfold Sql.merge_matched. destruct (find _ stg); reflexivity. Qed.

Lemma merge_lines_keys (now : Z) (stg : list Sql.staged) (tgt : list Sql.line) :
  map line_key (Sql.merge_lines now stg tgt)
  = map line_key tgt
    ++ map staged_key (filter (fun s => negb (existsb (Sql.key_match s) tgt)) stg).
Proof.
  unfold Sql.merge_lines. rewrite map_app, !map_map. f_equal.
  apply map_ext. intros t. apply line_key_merge_matched.
Qed.

Lemma NoDup_filter_map {A B} (f : A -> B) (g : A -> bool) (l : list A) :
  NoDup (map f l) -> NoDup (map f (filter g l)).
Proof.
  induction l as [|x l IH]; simpl; intros N; [constructor|].
  inversion N as [|? ? Hx N']; subst.
  destruct (g x); simpl; [|apply IH; exact N'].
  constructor; [|apply IH; exact N'].
  intros Hin. apply Hx. apply in_map_iff in Hin. destruct Hin as [y [Hy Hin]].
  apply filter_In in Hin. rewrite <- Hy. apply in_map. tauto.
Qed.

Lemma few_matches (stg : list Sql.staged) (t : Sql.line) :
  NoDup (map staged_key stg) ->
  (length (filter (fun s => Sql.key_match s t) stg) < 2)%nat.
Proof.
  induction stg as [|s stg IH]; simpl; intros N; [lia|].
  inversion N as [|? ? Hs N']; subst.
  destruct (Sql.key_match s t) eqn:K; [|apply IH; exact N'].
  simpl. rewrite filter_none; [simpl; lia|].
  intros s' Hs'. destruct (Sql.key_match s' t) eqn:K'; [|reflexivity].
  exfalso. apply Hs. apply key_match_keys in K, K'. rewrite <- K, K'.
  apply in_map. exact Hs'.
Qed.

(** X10. The inline [MERGE] keeps the natural key unique and cannot fail
    on a deduplicated batch: when no key occurs twice in the table and
    none occurs twice in the staged lines, the statement succeeds and
    again no key occurs twice in the table. *)
Theorem merge_keeps_keys_unique (srv : Sql.Server) (now : Z)
    (stg : list Sql.staged) (tgt : list Sql.line) :
  NoDup (map line_key tgt) -> NoDup (map staged_key stg) ->
  Sql.merge_statement srv now stg tgt = (Sql.merge_lines now stg tgt, None)
  /\ NoDup (map line_key (Sql.merge_lines now stg tgt)).
Proof.
  intros Nt Ns.
  assert (N : NoDup (map line_key (Sql.merge_lines now stg tgt))).
  { rewrite merge_lines_keys. apply NoDup_app; [exact Nt | |].
    - apply NoDup_filter_map. exact Ns.
    - intros k Hk Hin. apply in_map_iff in Hin. destruct Hin as [s [<- Hs]].
      apply filter_In in Hs. destruct Hs as [_ Hs]. apply negb_true_iff in Hs.
      apply existsb_key_match in Hk. congruence. }
  split; [|exact N].
  unfold Sql.merge_statement.
  rewrite (proj2 (existsb_false_forall _ tgt)).
  - apply distinct_keys_NoDup in N. rewrite N. simpl. rewrite andb_false_r.
    reflexivity.
  - intros t _. apply Nat.leb_gt. apply few_matches. exact Ns.
Qed.

Lemma merge_statement_ok (srv : Sql.Server) (now : Z) (stg : list Sql.staged)
    (tgt t' : list Sql.line) :
  Sql.merge_statement srv now stg tgt = (t', None) ->
  t' = Sql.merge_lines now stg tgt
  /\ forall t, In t tgt -> (length (filter (fun s => Sql.key_match s t) stg) < 2)%nat.
Proof.
  unfold Sql.merge_statement.
  destruct (existsb _ tgt) eqn:E; [discriminate|].
  destruct (Sql.unique_natural_key srv && negb (Sql.distinct_keys _)); [discriminate|].
  intros H. inversion H. split; [reflexivity|].
  intros t Ht. rewrite existsb_false_forall in E. apply Nat.leb_gt. apply E. exact Ht.
Qed.

Lemma line_eta (t : Sql.line) : Sql.mkline (Sql.cols t) (Sql.LoadDate t) = t.
Proof. destruct t. reflexivity. Qed.

(** X11. What a successful inline [MERGE] leaves: every staged line can be
    read back from the table, stamped with the time of the statement; a
    line whose key is not staged stays where it was, untouched, stamp
    included; no line is deleted and no key of a line changes; and the
    table grows by the staged lines whose key it did not hold. *)
Theorem merge_can_be_read_back (srv : Sql.Server) (now : Z)
    (stg : list Sql.staged) (tgt t' : list Sql.line) :
  Sql.merge_statement srv now stg tgt = (t', None) ->
  (forall s, In s stg -> In (Sql.mkline s (Some now)) t')
  /\ (forall i t, nth_error tgt i = Some t ->
        existsb (fun s => Sql.key_match s t) stg = false ->
        nth_error t' i = Some t)
  /\ (forall i t, nth_error tgt i = Some t ->
        exists u, nth_error t' i = Some u /\ line_key u = line_key t)
  /\ length t'
     = (length tgt
        + length (filter (fun s => negb (existsb (Sql.key_match s) tgt)) stg))%nat.
Proof.
  intros H. apply merge_statement_ok in H. destruct H as [-> Few].
  split; [|split; [|split]].
  - intros s Hs. unfold Sql.merge_lines. apply in_or_app.
    destruct (existsb (Sql.key_match s) tgt) eqn:E.
    + left. apply existsb_exists in E. destruct E as [t [Ht Hk]].
      apply in_map_iff. exists t. split; [|exact Ht].
      unfold Sql.merge_matched.
      destruct (find (fun s0 => Sql.key_match s0 t) stg) as [s0|] eqn:F.
      * assert (s0 = s) by (eapply (unique_match _ stg); eauto). subst s0.
        rewrite <- (line_eta (Sql.merge_update now s t)).
        rewrite (merge_update_cols now s t Hk). reflexivity.
      * exfalso. apply (find_none _ _ F) in Hs. congruence.
    + right. apply in_map_iff. exists s. split; [reflexivity|].
      apply filter_In. split; [exact Hs|]. rewrite E. reflexivity.
  - intros i t Ht Hno. unfold Sql.merge_lines.
    rewrite nth_error_app1
      by (rewrite length_map; apply nth_error_Some; congruence).
    rewrite nth_error_map, Ht. simpl. f_equal. unfold Sql.merge_matched.
    destruct (find (fun s => Sql.key_match s t) stg) as [s|] eqn:F; [|reflexivity].
    apply find_some in F. destruct F as [Hs Hk].
    rewrite existsb_false_forall in Hno. rewrite (Hno s Hs) in Hk. discriminate.
  - intros i t Ht. exists (Sql.merge_matched now stg t). split.
    + unfold Sql.merge_lines.
      rewrite nth_error_app1
        by (rewrite length_map; apply nth_error_Some; congruence).
      rewrite nth_error_map, Ht. reflexivity.
    + apply line_key_merge_matched.
  - unfold Sql.merge_lines. rewrite length_app, !length_map. reflexivity.
Qed.

Lemma merge_can_be_read_back_witness :
  Sql.merge_statement ex_server 200 [ex_staged_a; ex_staged_b] [ex_line_a_old]
  = ([Sql.mkline ex_staged_a (Some 200%Z); Sql.mkline ex_staged_b (Some 200%Z)], None)
  /\ In (Sql.mkline ex_staged_b (Some 200%Z))
       [Sql.mkline ex_staged_a (Some 200%Z); Sql.mkline ex_staged_b (Some 200%Z)].
Proof.
  split; [reflexivity|].
  exact (proj1 (merge_can_be_read_back ex_server 200 [ex_staged_a; ex_staged_b]
                  [ex_line_a_old] _ eq_refl) ex_staged_b (or_intror (or_introl eq_refl))).
Defined.

Lemma merge_keeps_keys_unique_witness :
  Sql.merge_statement ex_server 200 [ex_staged_a; ex_staged_b] [ex_line_a_old]
  = (Sql.merge_lines 200 [ex_staged_a; ex_staged_b] [ex_line_a_old], None).
Proof.
  apply (merge_keeps_keys_unique ex_server 200 [ex_staged_a; ex_staged_b]
           [ex_line_a_old]).
  - repeat constructor; simpl; tauto.
  - repeat constructor; simpl; intuition discriminate.
Defined.

(** ** Append and truncate *)

Lemma executemany_append (srv : Sql.Server) (records : list Sql.params) (w : Sql.World) :
  Sql.executemany (Sql.INSERT_Atendimentos srv) records w
  = (Sql.set_pending
       (fst (append_lines (Sql.unique_natural_key srv) records (Sql.pending w))) w,
     match snd (append_lines (Sql.unique_natural_key srv) records (Sql.pending w)) with
     | None => Sql.Return tt
     | Some e => Sql.Raise e
     end).
Proof.
  revert w. induction records as [|p rest IH]; intros w; simpl.
  - unfold Sql.ret, Sql.set_pending. rewrite world_eta. reflexivity.
  - unfold Sql.bind.
    assert (E : Sql.INSERT_Atendimentos srv p w
                = match Sql.bind_columns p with
                  | inl e => (w, Sql.Raise e)
                  | inr s =>
                      if Sql.unique_natural_key srv
                         && existsb (Sql.key_match s) (Sql.pending w)
                      then (w, Sql.Raise Sql.DuplicateKey)
                      else (Sql.set_pending (Sql.pending w ++ [Sql.mkline s None]) w,
                            Sql.Return tt)
                  end) by reflexivity.
    rewrite E. clear E.
    destruct (Sql.bind_columns p) as [e|s]; simpl.
    + unfold Sql.set_pending. rewrite world_eta. reflexivity.
    + destruct (Sql.unique_natural_key srv && existsb (Sql.key_match s) (Sql.pending w)).
      * simpl. unfold Sql.set_pending. rewrite world_eta. reflexivity.
      * rewrite IH. reflexivity.
Qed.


(** Appending lines that collide with nothing. *)
Lemma append_lines_ok (unique : bool) (records : list Sql.params)
    (stg : list Sql.staged) (tgt : list Sql.line) :
  stage records = (stg, None) ->
  unique = false \/ NoDup (map line_key tgt ++ map staged_key stg) ->
  append_lines unique records tgt = (tgt ++ map appended stg, None).
Proof.
  revert stg tgt. induction records as [|p rest IH]; simpl; intros stg tgt H C.
  - inversion H. simpl. rewrite app_nil_r. reflexivity.
  - destruct (Sql.bind_columns p) as [e|s]; [discriminate|].
    destruct (stage rest) as [l [e|]] eqn:R; [discriminate|].
    inversion H; subst stg; clear H.
    assert (K : unique && existsb (Sql.key_match s) tgt = false).
    { destruct C as [-> | N]; [reflexivity|].
      destruct (existsb (Sql.key_match s) tgt) eqn:E; [|apply andb_false_r].
      exfalso. apply existsb_key_match in E. simpl in N.
      apply NoDup_remove_2 in N. apply N. apply in_or_app. left. exact E. }
    rewrite K. rewrite (IH l (tgt ++ [Sql.mkline s None]) eq_refl).
    + simpl. rewrite <- app_assoc. reflexivity.
    + destruct C as [-> | N]; [left; reflexivity|]. right.
      rewrite map_app. simpl. rewrite <- app_assoc. simpl.
      apply (Permutation_NoDup (l := map line_key tgt ++ staged_key s :: map staged_key l));
        [|exact N].
      reflexivity.
Qed.

(** Appending a line whose key the table holds, under the unique index. *)
Lemma append_lines_collision (records : list Sql.params) (stg : list Sql.staged)
    (tgt : list Sql.line) :
  stage records = (stg, None) ->
  (exists s, In s stg /\ existsb (Sql.key_match s) tgt = true) ->
  snd (append_lines true records tgt) = Some Sql.DuplicateKey.
Proof.
  revert stg tgt. induction records as [|p rest IH]; simpl; intros stg tgt H [s0 [Hs Hk]].
  - inversion H; subst. contradiction.
  - destruct (Sql.bind_columns p) as [e|s]; [discriminate|].
    destruct (stage rest) as [l [e|]] eqn:R; [discriminate|].
    inversion H; subst stg; clear H. simpl.
    destruct (existsb (Sql.key_match s) tgt) eqn:E; [reflexivity|].
    apply (IH l _ eq_refl). destruct Hs as [<- | Hs]; [congruence|].
    exists s0. split; [exact Hs|]. rewrite existsb_app, Hk. reflexivity.
Qed.

Lemma persist_append_mode (srv : Sql.Server) (mode : string) (records : list Sql.params) :
  String.eqb mode "truncate" = false -> String.eqb mode "merge" = false ->
  SqlInserter.persist srv mode records = SqlInserter.persist_append srv records.
Proof. intros T M. unfold SqlInserter.persist. rewrite T, M. reflexivity. Qed.

Lemma persist_append_opened (srv : Sql.Server) (records : list Sql.params) (w : Sql.World) :
  SqlInserter.persist_append srv records (opened w)
  = match append_lines (Sql.unique_natural_key srv) records (Sql.durable w) with
    | (t, None) => (Sql.set_pending t (opened w), Sql.Return (length records))
    | (t, Some e) => (Sql.set_pending t (opened w), Sql.Raise e)
    end.
Proof.
  unfold SqlInserter.persist_append, Sql.bind. rewrite executemany_append. simpl.
  destruct (append_lines _ records (Sql.durable w)) as [t [e|]]; reflexivity.
Qed.

Lemma persist_truncate_opened (srv : Sql.Server) (records : list Sql.params)
    (w : Sql.World) :
  SqlInserter.persist_truncate_then_append srv records (opened w)
  = match append_lines (Sql.unique_natural_key srv) records [] with
    | (t, None) => (Sql.set_pending t (opened w), Sql.Return (length records))
    | (t, Some e) => (Sql.set_pending t (opened w), Sql.Raise e)
    end.
Proof.
  unfold SqlInserter.persist_truncate_then_append, SqlInserter.persist_append,
    Sql.bind, Sql.TRUNCATE_Atendimentos.
  rewrite executemany_append. simpl.
  destruct (append_lines _ records []) as [t [e|]]; reflexivity.
Qed.

(** X12. Append mode against a table that already holds the key of a
    record of the batch, under the unique index on the natural key: the
    whole operation fails with the duplicate-key error, [main] raises it
    after the rollback, and the committed table is unchanged, also of the
    records inserted before the collision. *)
Theorem append_collision_fails_whole_batch {py : SqlInserter.Python}
    (srv : Sql.Server) (mode_arg : option string) (sql_cfg : option SqlConfig)
    (all_files : list (list SqlInserter.CsvRow)) (stg : list Sql.staged)
    (w : Sql.World) :
  sql_enable sql_cfg = true ->
  chosen_mode mode_arg sql_cfg = "append" ->
  Sql.unique_natural_key srv = true ->
  stage (flat_map SqlInserter.records_of all_files) = (stg, None) ->
  (exists s, In s stg /\ existsb (Sql.key_match s) (Sql.durable w) = true) ->
  snd (SqlInserter.main srv mode_arg sql_cfg all_files w) = Sql.Raise Sql.DuplicateKey
  /\ Sql.durable (fst (SqlInserter.main srv mode_arg sql_cfg all_files w))
     = Sql.durable w
  /\ Sql.pending (fst (SqlInserter.main srv mode_arg sql_cfg all_files w))
     = Sql.durable w.
Proof.
  intros En Mode U St Col.
  assert (Rec : flat_map SqlInserter.records_of all_files <> []).
  { intros E. rewrite E in St. simpl in St. inversion St; subst.
    destruct Col as [s [[] _]]. }
  rewrite (main_transaction srv mode_arg sql_cfg all_files w En Rec), Mode.
  rewrite persist_append_mode by reflexivity. rewrite persist_append_opened, U.
  pose proof (append_lines_collision _ stg (Sql.durable w) St Col) as C.
  destruct (append_lines true _ (Sql.durable w)) as [t [e|]]; simpl in C;
    [|discriminate].
  inversion C; subst. simpl. auto.
Qed.

(** X13. Append mode that meets no collision (no unique index, or keys
    that are new and pairwise distinct): [main] returns and the committed
    table is the old table followed by the batch, in order, each line
    without a load stamp. *)
Theorem append_adds_the_batch {py : SqlInserter.Python}
    (srv : Sql.Server) (mode_arg : option string) (sql_cfg : option SqlConfig)
    (all_files : list (list SqlInserter.CsvRow)) (stg : list Sql.staged)
    (w : Sql.World) :
  sql_enable sql_cfg = true ->
  chosen_mode mode_arg sql_cfg = "append" ->
  flat_map SqlInserter.records_of all_files <> [] ->
  stage (flat_map SqlInserter.records_of all_files) = (stg, None) ->
  Sql.unique_natural_key srv = false
  \/ NoDup (map line_key (Sql.durable w) ++ map staged_key stg) ->
  snd (SqlInserter.main srv mode_arg sql_cfg all_files w) = Sql.Return tt
  /\ Sql.durable (fst (SqlInserter.main srv mode_arg sql_cfg all_files w))
     = Sql.durable w ++ map appended stg.
Proof.
  intros En Mode Rec St C.
  rewrite (main_transaction srv mode_arg sql_cfg all_files w En Rec), Mode.
  rewrite persist_append_mode by reflexivity. rewrite persist_append_opened.
  rewrite (append_lines_ok _ _ stg (Sql.durable w) St C). simpl. auto.
Qed.

(** X14. Truncate mode whose batch meets no collision within itself:
    [main] returns and the committed table is the batch and nothing else;
    what the table held before is gone. *)
Theorem truncate_replaces_the_table {py : SqlInserter.Python}
    (srv : Sql.Server) (mode_arg : option string) (sql_cfg : option SqlConfig)
    (all_files : list (list SqlInserter.CsvRow)) (stg : list Sql.staged)
    (w : Sql.World) :
  sql_enable sql_cfg = true ->
  chosen_mode mode_arg sql_cfg = "truncate" ->
  flat_map SqlInserter.records_of all_files <> [] ->
  stage (flat_map SqlInserter.records_of all_files) = (stg, None) ->
  Sql.unique_natural_key srv = false \/ NoDup (map staged_key stg) ->
  snd (SqlInserter.main srv mode_arg sql_cfg all_files w) = Sql.Return tt
  /\ Sql.durable (fst (SqlInserter.main srv mode_arg sql_cfg all_files w))
     = map appended stg.
Proof.
  intros En Mode Rec St C.
  rewrite (main_transaction srv mode_arg sql_cfg all_files w En Rec), Mode.
  change (SqlInserter.persist srv "truncate")
    with (SqlInserter.persist_truncate_then_append srv).
  rewrite persist_truncate_opened.
  rewrite (append_lines_ok _ _ stg [] St C). simpl. auto.
Qed.

Lemma append_collision_fails_whole_batch_witness :
  snd (SqlInserter.main (py := Demo.python) ex_server None ex_sql_on
         [[ex_csv_b; ex_csv_a]] ex_world_a) = Sql.Raise Sql.DuplicateKey
  /\ Sql.durable (fst (SqlInserter.main (py := Demo.python) ex_server None ex_sql_on
                         [[ex_csv_b; ex_csv_a]] ex_world_a)) = [ex_line_a_old].
Proof.
  destruct (append_collision_fails_whole_batch (py := Demo.python) ex_server None
              ex_sql_on [[ex_csv_b; ex_csv_a]] (rev ex_stg_ab) ex_world_a
              eq_refl eq_refl eq_refl eq_refl) as [H1 [H2 _]].
  - exists (nth 0 ex_stg_ab ex_staged_a). split; [right; left; reflexivity | reflexivity].
  - split; [exact H1 | exact H2].
Defined.

Lemma append_adds_the_batch_witness :
  Sql.durable (fst (SqlInserter.main (py := Demo.python) ex_server None ex_sql_on
                      [[ex_csv_a; ex_csv_b]] ex_world))
  = map appended ex_stg_ab.
Proof.
  apply (append_adds_the_batch (py := Demo.python) ex_server None ex_sql_on
           [[ex_csv_a; ex_csv_b]] ex_stg_ab ex_world eq_refl eq_refl).
  - discriminate.
  - reflexivity.
  - right. repeat constructor; simpl; intuition discriminate.
Defined.

Lemma truncate_replaces_the_table_witness :
  Sql.durable (fst (SqlInserter.main (py := Demo.python) ex_server (Some "truncate")
                      ex_sql_on [[ex_csv_a; ex_csv_b]] ex_world_a))
  = map appended ex_stg_ab.
Proof.
  apply (truncate_replaces_the_table (py := Demo.python) ex_server (Some "truncate")
           ex_sql_on [[ex_csv_a; ex_csv_b]] ex_stg_ab ex_world_a eq_refl eq_refl).
  - discriminate.
  - reflexivity.
  - right. repeat constructor; simpl; intuition discriminate.
Defined.

(** ** Nothing to persist *)

(** X15. With no usable record neither script opens a transaction:
    [main] of [sql_inserter.py], given no file or only rows without a valid
    date, prints one notice and returns; [persist_to_sql_merge], given an
    empty frame, logs its notice and returns 0. The session is left as it
    was. *)
Theorem nothing_to_persist {py : SqlInserter.Python}
    (srv : Sql.Server) (mode_arg : option string) (sql_cfg : option SqlConfig)
    (all_files : list (list SqlInserter.CsvRow))
    (env : Agent.Env) (w : Sql.World) :
  sql_enable sql_cfg = true ->
  flat_map SqlInserter.records_of all_files = [] ->
  Agent.pyodbc env = true -> sql_enable (Agent.config_sql env) = true ->
  (exists notice,
     SqlInserter.main srv mode_arg sql_cfg all_files w
     = (Sql.emit (Sql.Print notice) w, Sql.Return tt))
  /\ Agent.persist_to_sql_merge env srv [] true w
     = (Sql.emit (Sql.Info "Nada para persistir no SQL.") w, Sql.Return 0%nat).
Proof.
  intros En Rec Py En2. split.
  - unfold SqlInserter.main. rewrite En. simpl.
    destruct all_files as [|f fs]; [eexists; reflexivity|].
    rewrite Rec. eexists. reflexivity.
  - unfold Agent.persist_to_sql_merge. rewrite Py, En2. reflexivity.
Qed.

Lemma nothing_to_persist_witness :
  Agent.persist_to_sql_merge ex_env ex_server [] true ex_world
  = (Sql.emit (Sql.Info "Nada para persistir no SQL.") ex_world, Sql.Return 0%nat).
Proof.
  exact (proj2 (nothing_to_persist (py := Demo.python) ex_server None ex_sql_on
                  [[ex_csv "31/02/2024" (Some "3") (Some "10") None]] ex_env ex_world
                  eq_refl eq_refl eq_refl eq_refl)).
Defined.

(** ** Rows of [sql_inserter.py] *)

(** X16. [sql_inserter.py] skips a row exactly when its date is absent,
    empty, or read by none of the three formats, tried in the order
    year-month-day, day/month/year, year/month/day; every other row gives
    one tuple, in the order of the file, dated by the first format that
    reads it. *)
Theorem rows_without_a_date_are_skipped {py : SqlInserter.Python}
    (rows : list SqlInserter.CsvRow) :
  (forall r, SqlInserter.record_of r = None <->
     SqlInserter.Data r = None \/ SqlInserter.Data r = Some ""
     \/ exists s, SqlInserter.Data r = Some s
          /\ SqlInserter.strptime s "%Y-%m-%d" = None
          /\ SqlInserter.strptime s "%d/%m/%Y" = None
          /\ SqlInserter.strptime s "%Y/%m/%d" = None)
  /\ (forall r t s d, SqlInserter.record_of r = Some t ->
        SqlInserter.Data r = Some s -> SqlInserter.strptime s "%Y-%m-%d" = Some d ->
        Sql.Data t = d)
  /\ map Sql.Data (SqlInserter.records_of rows)
     = pmap (fun r => SqlInserter.to_date (SqlInserter.Data r)) rows
  /\ (length (SqlInserter.records_of rows)
      + length (filter (fun r => isna (SqlInserter.to_date (SqlInserter.Data r))) rows)
      = length rows)%nat.
Proof.
  split; [|split; [|split]].
  - intros r. unfold SqlInserter.record_of, SqlInserter.to_date.
    destruct (SqlInserter.Data r) as [[|c s]|].
    + split; auto.
    + destruct (SqlInserter.strptime (String c s) "%Y-%m-%d") eqn:E1.
      { split; [discriminate|]. intros [H | [H | [s' [H [H1 _]]]]];
          try discriminate. inversion H; subst. congruence. }
      destruct (SqlInserter.strptime (String c s) "%d/%m/%Y") eqn:E2.
      { split; [discriminate|]. intros [H | [H | [s' [H [_ [H2 _]]]]]];
          try discriminate. inversion H; subst. congruence. }
      destruct (SqlInserter.strptime (String c s) "%Y/%m/%d") eqn:E3.
      { split; [discriminate|]. intros [H | [H | [s' [H [_ [_ H3]]]]]];
          try discriminate. inversion H; subst. congruence. }
      split; [|reflexivity]. intros _. right. right. exists (String c s). auto.
    + split; auto.
  - intros r t s d Ht Hs Hd. unfold SqlInserter.record_of, SqlInserter.to_date in Ht.
    rewrite Hs in Ht. destruct s as [|c s].
    + discriminate.
    + rewrite Hd in Ht. inversion Ht. reflexivity.
  - induction rows as [|r rows IH]; simpl; [reflexivity|].
    unfold SqlInserter.record_of at 1.
    destruct (SqlInserter.to_date (SqlInserter.Data r)); simpl; rewrite IH; reflexivity.
  - induction rows as [|r rows IH]; simpl; [reflexivity|].
    unfold SqlInserter.record_of at 1.
    destruct (SqlInserter.to_date (SqlInserter.Data r)); simpl; lia.
Qed.

(** ** The full refresh *)








(** ** Merge mode, step by step *)

(** X20. What merge persistence does with a batch that stages: [main] of
    [sql_inserter.py] runs the stored procedure when the server has it and
    the inline [MERGE] otherwise, [persist_to_sql_merge] of [agent.py]
    always runs the procedure; when that statement succeeds the call
    returns and the committed table is the table the statement left, and
    when it fails the call raises its error and the committed table is
    unchanged. *)
Theorem merge_mode_commits_the_statement {py : SqlInserter.Python}
    (srv : Sql.Server) (mode_arg : option string) (sql_cfg : option SqlConfig)
    (all_files : list (list SqlInserter.CsvRow)) (stg : list Sql.staged)
    (env : Agent.Env) (df : list Agent.Row) (logger : bool) (stg' : list Sql.staged)
    (w : Sql.World) :
  sql_enable sql_cfg = true ->
  chosen_mode mode_arg sql_cfg = "merge" ->
  flat_map SqlInserter.records_of all_files <> [] ->
  stage (flat_map SqlInserter.records_of all_files) = (stg, None) ->
  Agent.pyodbc env = true -> sql_enable (Agent.config_sql env) = true -> df <> [] ->
  stage (Agent.sql_rows df) = (stg', None) ->
  match match Sql.lookup "app.sp_UpsertAtendimentos" (Sql.procedures srv) with
        | Some p => p
        | None => Sql.merge_statement srv
        end (Sql.clock w) stg (Sql.durable w) with
  | (t, None) =>
      snd (SqlInserter.main srv mode_arg sql_cfg all_files w) = Sql.Return tt
      /\ Sql.durable (fst (SqlInserter.main srv mode_arg sql_cfg all_files w)) = t
  | (_, Some e) =>
      snd (SqlInserter.main srv mode_arg sql_cfg all_files w) = Sql.Raise e
      /\ Sql.durable (fst (SqlInserter.main srv mode_arg sql_cfg all_files w))
         = Sql.durable w
  end
  /\ match match Sql.lookup "app.sp_UpsertAtendimentos" (Sql.procedures srv) with
           | Some p => p
           | None => fun _ _ tgt => (tgt, Some Sql.ProcedureNotFound)
           end (Sql.clock w) stg' (Sql.durable w) with
     | (t, None) =>
         snd (Agent.persist_to_sql_merge env srv df logger w) = Sql.Return (length df)
         /\ Sql.durable (fst (Agent.persist_to_sql_merge env srv df logger w)) = t
     | (_, Some e) =>
         snd (Agent.persist_to_sql_merge env srv df logger w) = Sql.Raise e
         /\ Sql.durable (fst (Agent.persist_to_sql_merge env srv df logger w))
            = Sql.durable w
     end.
Proof.
  intros En Mode Rec St Py En2 Ne St'.
  change (match Sql.lookup "app.sp_UpsertAtendimentos" (Sql.procedures srv) with
          | Some p => p
          | None => Sql.merge_statement srv
          end) with (probed_merge srv).
  change (match Sql.lookup "app.sp_UpsertAtendimentos" (Sql.procedures srv) with
          | Some p => p
          | None => fun _ _ tgt => (tgt, Some Sql.ProcedureNotFound)
          end) with (exec_upsert srv).
  split.
  - rewrite (main_transaction srv mode_arg sql_cfg all_files w En Rec), Mode.
    rewrite persist_merge_mode, persist_merge_opened, St.
    destruct (probed_merge srv (Sql.clock w) stg (Sql.durable w)) as [t [e|]];
      simpl; auto.
  - rewrite (persist_to_sql_merge_transaction env srv df logger w Py En2 Ne).
    rewrite agent_statements_opened, St'.
    destruct (exec_upsert srv (Sql.clock w) stg' (Sql.durable w)) as [t [e|]];
      destruct logger; simpl; unfold Agent.sql_rows; rewrite ?length_map; auto.
Qed.

Lemma merge_mode_commits_the_statement_witness :
  snd (SqlInserter.main (py := Demo.python) ex_server (Some "merge") ex_sql_on
         [[ex_csv_a; ex_csv_b]] ex_world_a) = Sql.Return tt
  /\ snd (Agent.persist_to_sql_merge ex_env ex_server [ex_row_a] true ex_world_a)
     = Sql.Raise Sql.ProcedureNotFound.
Proof.
  destruct (merge_mode_commits_the_statement (py := Demo.python) ex_server
              (Some "merge") ex_sql_on [[ex_csv_a; ex_csv_b]] ex_stg_ab ex_env
              [ex_row_a] true (fst (stage (Agent.sql_rows [ex_row_a]))) ex_world_a) as [H1 H2];
    try reflexivity; try discriminate.
  split; [exact (proj1 H1) | exact (proj1 H2)].
Defined.

(** ** The load mode *)

Lemma lower_ascii_fixed (c : ascii) : lower_ascii (lower_ascii c) = lower_ascii c.
Proof. destruct c as [[] [] [] [] [] [] [] []]; reflexivity. Qed.

Lemma lower_fixed (s : string) : lower (lower s) = lower s.
Proof.
  induction s as [|c s IH]; simpl; [reflexivity|].
  rewrite lower_ascii_fixed, IH. reflexivity.
Qed.

(** X21. How [main] settles the load mode. A [--mode] that is given wins:
    the configured [load_mode] is not read. Without it the configured
    [load_mode] is used whatever its letter case, and an absent or empty
    one means [append]. Any mode that is neither [truncate] nor [merge]
    once in lower case is run as an append. *)
Theorem load_mode_selection {py : SqlInserter.Python} (srv : Sql.Server)
    (m l : string) (en : option bool) (sql_cfg sql_cfg' : option SqlConfig)
    (all_files : list (list SqlInserter.CsvRow)) (w : Sql.World) :
  m <> "" -> sql_enable sql_cfg = sql_enable sql_cfg' ->
  SqlInserter.main srv (Some m) sql_cfg all_files w
  = SqlInserter.main srv (Some m) sql_cfg' all_files w
  /\ SqlInserter.main srv None (Some (mksqlconfig en (Some (lower l)))) all_files w
     = SqlInserter.main srv None (Some (mksqlconfig en (Some l))) all_files w
  /\ SqlInserter.main srv None (Some (mksqlconfig en None)) all_files w
     = SqlInserter.main srv None (Some (mksqlconfig en (Some "append"))) all_files w
  /\ SqlInserter.main srv None (Some (mksqlconfig en (Some ""))) all_files w
     = SqlInserter.main srv None (Some (mksqlconfig en (Some "append"))) all_files w
  /\ (forall records,
        lower m <> "truncate" -> lower m <> "merge" ->
        SqlInserter.persist srv (lower m) records
        = SqlInserter.persist_append srv records).
Proof.
  intros Hm En.
  assert (P : forall d, py_or (Some m) d = m) by (destruct m; [congruence | reflexivity]).
  split; [|split; [|split; [|split]]].
  - unfold SqlInserter.main. rewrite <- En, !P. reflexivity.
  - unfold SqlInserter.main. cbn [sql_enable enable load_mode].
    assert (L : lower (py_or None (py_or (Some (lower l)) "append"))
                = lower (py_or None (py_or (Some l) "append")))
      by (destruct l; [reflexivity | simpl; rewrite lower_ascii_fixed, lower_fixed;
                                     reflexivity]).
    rewrite L. reflexivity.
  - reflexivity.
  - reflexivity.
  - intros records T M. apply persist_append_mode; apply String.eqb_neq; assumption.
Qed.

Lemma load_mode_selection_witness :
  SqlInserter.main (py := Demo.python) ex_server (Some "merge") ex_sql_on
    [[ex_csv_a]] ex_world_a
  = SqlInserter.main (py := Demo.python) ex_server (Some "merge")
      (Some (mksqlconfig (Some true) (Some "truncate"))) [[ex_csv_a]] ex_world_a.
Proof.
  apply (load_mode_selection (py := Demo.python) ex_server "merge" "Merge" (Some true)
           ex_sql_on (Some (mksqlconfig (Some true) (Some "truncate"))) [[ex_csv_a]]
           ex_world_a).
  - discriminate.
  - reflexivity.
Defined.

(** ** The connection string *)

Lemma append_cancel_l (a x y : string) : (a ++ x = a ++ y)%string -> x = y.
Proof.
  induction a as [|c a IH]; simpl; intros H; [exact H|].
  inversion H. apply IH. assumption.
Qed.

(** X22. The two scripts build the same connection string from the same
    configuration whenever it names a user; without one they differ, the
    report agent connecting as [etl_user] and the loader as [sa]. *)
Theorem connection_strings_agree (c : Connection.Config) :
  (Connection.username c <> None -> Connection._conn_str c = Connection.conn_str c)
  /\ (Connection.username c = None -> Connection._conn_str c <> Connection.conn_str c).
Proof.
  unfold Connection._conn_str, Connection.conn_str. split.
  - destruct (Connection.username c) as [u|]; [|congruence]. intros _. reflexivity.
  - intros ->. simpl. intros H.
    repeat first [ discriminate H | injection H as H | apply append_cancel_l in H ].
Qed.

(** ** Decimal commas *)

Lemma replace_comma_fixed (s : string) : replace_comma (replace_comma s) = replace_comma s.
Proof.
  induction s as [|c s IH]; simpl; [reflexivity|]. rewrite IH.
  destruct (Ascii.eqb c ",") eqn:E; [reflexivity|]. rewrite E. reflexivity.
Qed.

Lemma replace_comma_eqb (k s : string) :
  no_separator k = true -> String.eqb (replace_comma s) k = String.eqb s k.
Proof.
  revert s. induction k as [|d k IH]; intros [|c s] N; try reflexivity.
  simpl in N. apply andb_true_iff in N. destruct N as [N Nk].
  apply andb_true_iff in N. destruct N as [N1 N2].
  apply negb_true_iff in N1, N2.
  cbn [replace_comma String.eqb]. rewrite (IH s Nk). f_equal.
  destruct (Ascii.eqb_spec c ",") as [->|Hc]; [|reflexivity].
  rewrite (Ascii.eqb_sym "." d), (Ascii.eqb_sym "," d), N1, N2. reflexivity.
Qed.

Lemma to_float_replace_comma {py : SqlInserter.Python} (v : option string) :
  SqlInserter.to_float (option_map replace_comma v) = SqlInserter.to_float v.
Proof.
  destruct v as [s|]; [|reflexivity]. simpl.
  rewrite !replace_comma_eqb by reflexivity. rewrite replace_comma_fixed. reflexivity.
Qed.

Lemma to_int_replace_comma {py : SqlInserter.Python} (v : option string) :
  SqlInserter.to_int (option_map replace_comma v) = SqlInserter.to_int v.
Proof.
  destruct v as [s|]; [|reflexivity]. unfold SqlInserter.to_int. simpl.
  rewrite replace_comma_fixed. reflexivity.
Qed.

(** X23. [sql_inserter.py] reads a decimal comma as a decimal point: a
    line gives the same tuple, or is skipped alike, when the commas of its
    quantity, unit price and revenue cells are written as points. The
    three conversions never fail: a cell [float] cannot read counts as 0. *)
Theorem decimal_comma_is_decimal_point {py : SqlInserter.Python}
    (r : SqlInserter.CsvRow) (rows : list SqlInserter.CsvRow) :
  SqlInserter.record_of (with_points r) = SqlInserter.record_of r
  /\ SqlInserter.records_of (map with_points rows) = SqlInserter.records_of rows
  /\ (forall s, SqlInserter.float_of_string (replace_comma s) = None ->
        SqlInserter.to_float (Some s) = Some 0%Q /\ SqlInserter.to_int (Some s) = 0%Z).
Proof.
  assert (R : forall r0, SqlInserter.record_of (with_points r0) = SqlInserter.record_of r0).
  { intros r0. unfold SqlInserter.record_of, with_points. simpl.
    rewrite !to_float_replace_comma, to_int_replace_comma.
    assert (G : SqlInserter.receita_given (option_map replace_comma (SqlInserter.Receita r0))
                = SqlInserter.receita_given (SqlInserter.Receita r0)).
    { destruct (SqlInserter.Receita r0) as [s|]; [|reflexivity]. simpl.
      rewrite !replace_comma_eqb by reflexivity. reflexivity. }
    rewrite G. reflexivity. }
  split; [apply R|]. split.
  - induction rows as [|r0 rows IH]; [reflexivity|]. simpl. rewrite R, IH. reflexivity.
  - intros s F. split.
    + unfold SqlInserter.to_float. rewrite F.
      destruct (existsb (String.eqb s) [""; "NA"; "NaN"]%string); reflexivity.
    + unfold SqlInserter.to_int. rewrite F. reflexivity.
Qed.
